(** * task_manager: a shallow embedding of [task_manager.py]

    The module defines three task classes ([Zadanie], [ZadaniePiorytetowe],
    [ZadanieRegularne]) whose instances carry an open attribute dictionary,
    and [ManagerZadan], which owns an ordered list of task references and a
    line-oriented text codec ([zapisz_do_pliku] / [wczytaj_z_pliku]).

    Modelling choices.
    - A Python [str] is a [string]: the sequence of bytes of its UTF-8
      encoding.  The delimiters the codec looks for ([;], [=], the line
      terminators and [/]) are ASCII, so splitting bytes and splitting code
      points agree.  [str.strip] is modelled on the ASCII part of
      [str.isspace].
    - An attribute value is [None], a [bool], a [str] or a [datetime.date].
    - An instance is its class tag and its [__dict__], an association list in
      attachment order; [setattr] overwrites in place or appends.
    - Instances live in a heap and are named by their index, so that two
      references to one task alias, and list membership ([in], which falls
      back to identity because the classes define no [__eq__]) is membership
      of the reference.
    - A Python exception is a [Raise] result; the state reached before the
      exception is kept, as in Python.
    - Files are texts under their normalised path.  [open_w] is the [open]
      for writing of a path the file system grants; [open_w_os] and
      [zapisz_do_pliku_os] take the refusals of the file system (a missing
      directory, a path that names a directory) as a parameter.
    - The [@czas_wykonania] decorator only prints a duration and returns the
      wrapped result; it is not modelled. *)

From stdpp Require Import base list strings.
From Stdlib Require Import Ascii ZArith Lia Sorted.

Local Open Scope Z_scope.

(** ** Strings *)

Definition LF : ascii := "010"%char.
Definition CR : ascii := "013"%char.

(** [c in s] for a one-character [c]. *)
Fixpoint contains (c : ascii) (s : string) : bool :=
  match s with
  | EmptyString => false
  | String a s' => Ascii.eqb a c || contains c s'
  end.

(** [s.split(c)] for a one-character separator: never the empty list. *)
Fixpoint split_on (c : ascii) (s : string) : list string :=
  match s with
  | EmptyString => [EmptyString]
  | String a s' =>
      if Ascii.eqb a c then EmptyString :: split_on c s'
      else match split_on c s' with
           | [] => [String a EmptyString]
           | h :: t => String a h :: t
           end
  end.

(** [s.split(c, 1)]: [inl s] for the one-element list (no separator), [inr]
    for the two parts around the first separator. *)
Fixpoint split_first (c : ascii) (s : string) : string + string * string :=
  match s with
  | EmptyString => inl EmptyString
  | String a s' =>
      if Ascii.eqb a c then inr (EmptyString, s')
      else match split_first c s' with
           | inl h => inl (String a h)
           | inr (h, t) => inr (String a h, t)
           end
  end.

(** [sep.join(parts)]. *)
Fixpoint join (sep : string) (parts : list string) : string :=
  match parts with
  | [] => EmptyString
  | [p] => p
  | p :: ps => p +:+ sep +:+ join sep ps
  end.

(** The ASCII part of [str.isspace]: TAB..CR, FS..US and the space. *)
Definition is_space (c : ascii) : bool :=
  let n := Z.of_nat (nat_of_ascii c) in
  ((9 <=? n) && (n <=? 13)) || ((28 <=? n) && (n <=? 32)).

Fixpoint lstrip (s : string) : string :=
  match s with
  | EmptyString => EmptyString
  | String c s' => if is_space c then lstrip s' else s
  end.

Fixpoint rstrip (s : string) : string :=
  match s with
  | EmptyString => EmptyString
  | String c s' =>
      match rstrip s' with
      | EmptyString => if is_space c then EmptyString else String c EmptyString
      | r => String c r
      end
  end.

(** [s.strip()]. *)
Definition strip (s : string) : string := rstrip (lstrip s).

Definition starts_with (c : ascii) (s : string) : bool :=
  match s with
  | String a _ => Ascii.eqb a c
  | EmptyString => false
  end.

Fixpoint ends_with (c : ascii) (s : string) : bool :=
  match s with
  | EmptyString => false
  | String a EmptyString => Ascii.eqb a c
  | String _ s' => ends_with c s'
  end.

(** Iterating a file opened in text mode with universal newlines: the lines
    in order, each with its terminator, where a [\r\n] or a lone [\r] reads as
    [\n]; a last line without terminator is kept as it is. *)
Fixpoint readlines (s : string) : list string :=
  match s with
  | EmptyString => []
  | String c s' =>
      if Ascii.eqb c LF then String LF EmptyString :: readlines s'
      else if Ascii.eqb c CR then
        match s' with
        | String c' s'' =>
            if Ascii.eqb c' LF then String LF EmptyString :: readlines s''
            else String LF EmptyString :: readlines s'
        | EmptyString => [String LF EmptyString]
        end
      else match readlines s' with
           | [] => [String c EmptyString]
           | l :: ls => String c l :: ls
           end
  end.

(** ** Association lists in insertion order

    The shape of a Python [dict] (and of an instance's [__dict__]): a lookup
    finds the binding of a key, an assignment overwrites the binding in place
    or appends a new one. *)

Fixpoint assoc_get {V : Type} (k : string) (d : list (string * V)) : option V :=
  match d with
  | [] => None
  | (k', v) :: d' => if String.eqb k' k then Some v else assoc_get k d'
  end.

Fixpoint assoc_set {V : Type} (k : string) (v : V) (d : list (string * V))
  : list (string * V) :=
  match d with
  | [] => [(k, v)]
  | (k', v') :: d' =>
      if String.eqb k' k then (k, v) :: d' else (k', v') :: assoc_set k v d'
  end.

Definition assoc_remove {V : Type} (k : string) (d : list (string * V))
  : list (string * V) :=
  List.filter (fun kv => negb (String.eqb (fst kv) k)) d.

Definition assoc_has {V : Type} (k : string) (d : list (string * V)) : bool :=
  match assoc_get k d with Some _ => true | None => false end.

(** [for k, v in kwargs.items(): d[k] = v]. *)
Definition assoc_update {V : Type} (d kwargs : list (string * V))
  : list (string * V) :=
  fold_left (fun acc kv => assoc_set (fst kv) (snd kv) acc) kwargs d.

(** The binding that wins when the pairs are assigned left to right. *)
Definition assoc_last {V : Type} (k : string) (kwargs : list (string * V))
  : option V :=
  assoc_get k (rev kwargs).

Definition mem_string (k : string) (l : list string) : bool :=
  existsb (String.eqb k) l.

(** ** Calendar dates: [datetime.date] *)

Record date := Date { year : Z; month : Z; day : Z }.

Definition is_leap (y : Z) : bool :=
  (y mod 4 =? 0) && (negb (y mod 100 =? 0) || (y mod 400 =? 0)).

Definition days_in_month (y m : Z) : Z :=
  match m with
  | 1 | 3 | 5 | 7 | 8 | 10 | 12 => 31
  | 4 | 6 | 9 | 11 => 30
  | 2 => if is_leap y then 29 else 28
  | _ => 0
  end.

(** The range check of the [date] constructor. *)
Definition date_valid (d : date) : bool :=
  (1 <=? year d) && (year d <=? 9999) &&
  (1 <=? month d) && (month d <=? 12) &&
  (1 <=? day d) && (day d <=? days_in_month (year d) (month d)).

(** [datetime.max.date()]. *)
Definition date_max : date := Date 9999 12 31.

Definition date_eqb (a b : date) : bool :=
  (year a =? year b) && (month a =? month b) && (day a =? day b).

(** [a < b] on dates: the order of the triples (year, month, day). *)
Definition date_ltb (a b : date) : bool :=
  (year a <? year b) ||
  ((year a =? year b) &&
   ((month a <? month b) || ((month a =? month b) && (day a <? day b)))).

Definition date_leb (a b : date) : bool := negb (date_ltb b a).

Definition digit_char (n : Z) : ascii :=
  match n with
  | 0 => "0" | 1 => "1" | 2 => "2" | 3 => "3" | 4 => "4"
  | 5 => "5" | 6 => "6" | 7 => "7" | 8 => "8" | _ => "9"
  end%char.

Definition digit_val (c : ascii) : option Z :=
  let n := Z.of_nat (nat_of_ascii c) in
  if (48 <=? n) && (n <=? 57) then Some (n - 48) else None.

(** [str(d)], that is [d.isoformat()]: [%04d-%02d-%02d]. *)
Definition date_str (d : date) : string :=
  String (digit_char (year d / 1000))
  (String (digit_char (year d / 100 mod 10))
  (String (digit_char (year d / 10 mod 10))
  (String (digit_char (year d mod 10))
  (String "-"
  (String (digit_char (month d / 10))
  (String (digit_char (month d mod 10))
  (String "-"
  (String (digit_char (day d / 10))
  (String (digit_char (day d mod 10)) EmptyString))))))))).

(** The month directive [%m]: the alternatives [1[0-2]], [0[1-9]], [[1-9]], in
    that order.  The result is the month and the text left. *)
Definition parse_month (s : string) : option (Z * string) :=
  let two :=
    match s with
    | String c1 (String c2 r) =>
        match digit_val c1, digit_val c2 with
        | Some 1, Some b => if b <=? 2 then Some (10 + b, r) else None
        | Some 0, Some b => if 1 <=? b then Some (b, r) else None
        | _, _ => None
        end
    | _ => None
    end in
  match two with
  | Some res => Some res
  | None =>
      match s with
      | String c1 r =>
          match digit_val c1 with
          | Some a => if 1 <=? a then Some (a, r) else None
          | None => None
          end
      | EmptyString => None
      end
  end.

(** The day directive [%d]: [3[01]], [[12]\d], [0[1-9]], [[1-9]], [ [1-9]]. *)
Definition parse_day (s : string) : option (Z * string) :=
  let two :=
    match s with
    | String c1 (String c2 r) =>
        match digit_val c1, digit_val c2 with
        | Some 3, Some b => if b <=? 1 then Some (30 + b, r) else None
        | Some 1, Some b => Some (10 + b, r)
        | Some 2, Some b => Some (20 + b, r)
        | Some 0, Some b => if 1 <=? b then Some (b, r) else None
        | _, _ => None
        end
    | _ => None
    end in
  match two with
  | Some res => Some res
  | None =>
      match s with
      | String c1 r =>
          match digit_val c1 with
          | Some a => if 1 <=? a then Some (a, r) else None
          | None =>
              if Ascii.eqb c1 " " then
                match r with
                | String c2 r' =>
                    match digit_val c2 with
                    | Some a => if 1 <=? a then Some (a, r') else None
                    | None => None
                    end
                | EmptyString => None
                end
              else None
          end
      | EmptyString => None
      end
  end.

(** [datetime.strptime(s, "%Y-%m-%d").date()], [None] for [ValueError].  The
    format compiles to the pattern [\d\d\d\d-(month)-(day)]; the text must
    match from its start, nothing may remain after the match, and the triple
    must be a date.  After a two-character month the next character of a
    match is [-], which no one-character alternative can meet, so trying the
    alternatives in order without backtracking finds the same match.  Only
    ASCII digits are modelled. *)
Definition strptime_Ymd (s : string) : option date :=
  match s with
  | String y1 (String y2 (String y3 (String y4 (String dash r)))) =>
      match digit_val y1, digit_val y2, digit_val y3, digit_val y4 with
      | Some a, Some b, Some c, Some d =>
          if Ascii.eqb dash "-" then
            match parse_month r with
            | Some (m, String dash' r') =>
                if Ascii.eqb dash' "-" then
                  match parse_day r' with
                  | Some (dd, EmptyString) =>
                      let res := Date (1000 * a + 100 * b + 10 * c + d) m dd in
                      if date_valid res then Some res else None
                  | _ => None
                  end
                else None
            | _ => None
            end
          else None
      | _, _, _, _ => None
      end
  | _ => None
  end.

(** ** Attribute values *)

Inductive value :=
| VNone
| VBool (b : bool)
| VStr (s : string)
| VDate (d : date).

(** [str(v)], as the f-strings and [str(...)] of the codec compute it. *)
Definition py_str (v : value) : string :=
  match v with
  | VNone => "None"
  | VBool true => "True"
  | VBool false => "False"
  | VStr s => s
  | VDate d => date_str d
  end.

(** Truth value of [v] in [if v:], [v or w] and [not v]. *)
Definition truthy (v : value) : bool :=
  match v with
  | VNone => false
  | VBool b => b
  | VStr EmptyString => false
  | VStr _ => true
  | VDate _ => true
  end.

(** [a == b]. *)
Definition value_eqb (a b : value) : bool :=
  match a, b with
  | VNone, VNone => true
  | VBool x, VBool y => Bool.eqb x y
  | VStr x, VStr y => String.eqb x y
  | VDate x, VDate y => date_eqb x y
  | _, _ => false
  end.

(** ** Exceptions and results *)

Inductive wyjatek :=
| ValueError | TypeError | IndexError | AttributeError | FileNotFoundError
| IsADirectoryError.

Inductive result (A : Type) :=
| Ok (a : A)
| Raise (e : wyjatek).
Arguments Ok {A} a.
Arguments Raise {A} e.

Definition rbind {A B : Type} (r : result A) (f : A -> result B) : result B :=
  match r with
  | Ok a => f a
  | Raise e => Raise e
  end.

Definition of_option {A : Type} (e : wyjatek) (o : option A) : result A :=
  match o with
  | Some a => Ok a
  | None => Raise e
  end.

Declare Scope result_scope.
Delimit Scope result_scope with result.
Notation "x <- r ;; k" := (rbind r (fun x => k))
  (at level 100, r at next level, right associativity) : result_scope.

(** ** Instances and the classes *)

Inductive klasa := KZadanie | KZadaniePiorytetowe | KZadanieRegularne.

(** [type(z).__name__]. *)
Definition nazwa_klasy (k : klasa) : string :=
  match k with
  | KZadanie => "Zadanie"
  | KZadaniePiorytetowe => "ZadaniePiorytetowe"
  | KZadanieRegularne => "ZadanieRegularne"
  end.

Definition klasa_eqb (a b : klasa) : bool :=
  match a, b with
  | KZadanie, KZadanie
  | KZadaniePiorytetowe, KZadaniePiorytetowe
  | KZadanieRegularne, KZadanieRegularne => true
  | _, _ => false
  end.

Record obiekt := Obiekt { typ : klasa; dict : list (string * value) }.

(** [z.k], [AttributeError] when the attribute is not set. *)
Definition getattr (o : obiekt) (k : string) : result value :=
  of_option AttributeError (assoc_get k (dict o)).

(** [setattr(z, k, v)]. *)
Definition setattr (o : obiekt) (k : string) (v : value) : obiekt :=
  Obiekt (typ o) (assoc_set k v (dict o)).

(** The body of [Zadanie.__init__]: the four core attributes in this order,
    [wykonane] set to [False], then every keyword argument assigned with
    [setattr], in the order of the call.  A textual [termin] is parsed, and
    [None] replaces it when it does not parse; any other [termin] is stored
    as it is. *)
Definition Zadanie_init (k : klasa) (tytul opis termin : value)
    (kwargs : list (string * value)) : obiekt :=
  let termin_wykonaia :=
    match termin with
    | VStr s =>
        match strptime_Ymd s with
        | Some d => VDate d
        | None => VNone
        end
    | t => t
    end in
  Obiekt k
    (assoc_update
       [("tytul", tytul); ("opis", opis);
        ("termin_wykonaia", termin_wykonaia); ("wykonane", VBool false)]
       kwargs).

(** Names that a call [K(tytul, opis, termin, **attrs)] already binds
    positionally: a keyword of that name is "multiple values for argument",
    a [TypeError]. *)
Definition zajete_nazwy : list string := ["self"; "tytul"; "opis"; "termin"].

(** The default of [priorytet], the UTF-8 text of "Sredni" with its first
    letter accented, and the default of [powtarzalnosc]. *)
Definition domyslny_priorytet : value := VStr "Średni".
Definition domyslna_powtarzalnosc : value := VStr "codziennie".

(** A subclass constructor: its named parameter [pole] takes the keyword of
    that name (or the default), the other keywords go to [Zadanie.__init__],
    and [self.pole = pole] runs last. *)
Definition podklasa_init (k : klasa) (pole : string) (domyslna : value)
    (tytul opis termin : value) (attrs : list (string * value)) : obiekt :=
  let p := match assoc_get pole attrs with Some v => v | None => domyslna end in
  setattr (Zadanie_init k tytul opis termin (assoc_remove pole attrs)) pole p.

(** The call [K(tytul, opis, termin, **attrs)] for each of the classes. *)
Definition wywolaj (k : klasa) (tytul opis termin : value)
    (attrs : list (string * value)) : result obiekt :=
  if existsb (fun kv => mem_string (fst kv) zajete_nazwy) attrs
  then Raise TypeError
  else
    match k with
    | KZadanie => Ok (Zadanie_init KZadanie tytul opis termin attrs)
    | KZadaniePiorytetowe =>
        Ok (podklasa_init KZadaniePiorytetowe "priorytet" domyslny_priorytet
              tytul opis termin attrs)
    | KZadanieRegularne =>
        Ok (podklasa_init KZadanieRegularne "powtarzalnosc"
              domyslna_powtarzalnosc tytul opis termin attrs)
    end.

(** ** The heap and [Zadanie.wykonany] *)

(** A reference is the index of an instance in the heap. *)
Abbreviation ref := nat (only parsing).

Abbreviation sterta := (list obiekt) (only parsing).

(** [self.wykonane = not self.wykonane] on the instance at [r]. *)
Definition wykonany (r : ref) (h : sterta) : result unit * sterta :=
  match h !! r with
  | None => (Raise AttributeError, h)
  | Some o =>
      match getattr o "wykonane" with
      | Raise e => (Raise e, h)
      | Ok w => (Ok tt, <[r := setattr o "wykonane" (VBool (negb (truthy w)))]> h)
      end
  end.

(** ** Paths: [os.path] on POSIX *)

(** [os.path.join(a, b)]. *)
Definition path_join (a b : string) : string :=
  if starts_with "/" b || String.eqb a "" then b
  else if ends_with "/" a then a +:+ b
  else a +:+ "/" +:+ b.

Definition skladowa_znaczaca (c : string) : bool :=
  negb (String.eqb c "") && negb (String.eqb c ".").

Fixpoint wspolny_prefiks (l1 l2 : list string) : list string :=
  match l1, l2 with
  | c1 :: r1, c2 :: r2 =>
      if String.eqb c1 c2 then c1 :: wspolny_prefiks r1 r2 else []
  | _, _ => []
  end.

(** [os.path.commonpath([p1, p2])]: the paths are split on [/], empty and
    [.] components are dropped, and the longest common prefix of the two
    component lists is joined again; [..] is an ordinary component.  Mixing
    an absolute and a relative path is a [ValueError].  (The library takes
    the prefix of the least and the greatest list, which for two lists is
    their common prefix.) *)
Definition commonpath (p1 p2 : string) : result string :=
  let isabs1 := starts_with "/" p1 in
  let isabs2 := starts_with "/" p2 in
  if negb (Bool.eqb isabs1 isabs2) then Raise ValueError
  else
    let s1 := List.filter skladowa_znaczaca (split_on "/" p1) in
    let s2 := List.filter skladowa_znaczaca (split_on "/" p2) in
    Ok ((if isabs1 then "/" else "") +:+ join "/" (wspolny_prefiks s1 s2)).

(** One step of the loop of [os.path.normpath] over the components, the
    components kept so far being a stack (last one first). *)
Definition normpath_krok (absolute : bool) (st : list string) (comp : string)
  : list string :=
  if String.eqb comp "" || String.eqb comp "." then st
  else if negb (String.eqb comp "..")
          || (negb absolute && match st with [] => true | _ => false end)
          || match st with c :: _ => String.eqb c ".." | [] => false end
       then comp :: st
       else match st with
            | _ :: st' => st'
            | [] => st
            end.

(** [os.path.normpath(path)]: the path the system resolves [path] to when no
    component is a symbolic link. *)
Definition normpath (path : string) : string :=
  if String.eqb path "" then "."
  else
    let absolute := starts_with "/" path in
    let prefix :=
      match path with
      | String "/" (String "/" (String "/" _)) => "/"
      | String "/" (String "/" _) => "//"
      | String "/" _ => "/"
      | _ => ""
      end in
    let comps := rev (fold_left (normpath_krok absolute) (split_on "/" path) []) in
    let p := prefix +:+ join "/" comps in
    if String.eqb p "" then "." else p.

Fixpoint jest_prefiksem (l1 l2 : list string) : bool :=
  match l1, l2 with
  | [], _ => true
  | c1 :: r1, c2 :: r2 => String.eqb c1 c2 && jest_prefiksem r1 r2
  | _ :: _, [] => false
  end.

(** The resolved [path] lies in the directory [base] or below it. *)
Definition lezy_w_katalogu (base path : string) : bool :=
  Bool.eqb (starts_with "/" base) (starts_with "/" path) &&
  jest_prefiksem
    (List.filter skladowa_znaczaca (split_on "/" (normpath base)))
    (List.filter skladowa_znaczaca (split_on "/" (normpath path))).

(** ** The manager, the world and the monad of its methods *)

Record ManagerZadan := Manager { save_dir : string; zadania : list ref }.

(** The instances and the files, the latter under their resolved path. *)
Record swiat := Swiat { heap : sterta; files : list (string * string) }.

(** A method runs on [self] and the world; after an exception both are as
    the statements before it left them. *)
Abbreviation stan := (ManagerZadan * swiat)%type (only parsing).

Definition M (A : Type) : Type := stan -> result A * stan.

Definition mret {A : Type} (a : A) : M A := fun s => (Ok a, s).

Definition mbind {A B : Type} (c : M A) (f : A -> M B) : M B :=
  fun s =>
    match c s with
    | (Ok a, s') => f a s'
    | (Raise e, s') => (Raise e, s')
    end.

Definition lift {A : Type} (r : result A) : M A := fun s => (r, s).

Declare Scope M_scope.
Delimit Scope M_scope with M.
Notation "x <- c ;; k" := (mbind c (fun x => k))
  (at level 100, c at next level, right associativity) : M_scope.
Notation "c ;;; k" := (mbind c (fun _ => k))
  (at level 100, right associativity) : M_scope.

Definition get_self : M ManagerZadan := fun s => (Ok (fst s), s).

Definition get_heap : M sterta := fun s => (Ok (heap (snd s)), s).

(** [self.zadania.append(r)]. *)
Definition dolacz (r : ref) : M unit :=
  fun s =>
    (Ok tt, (Manager (save_dir (fst s)) (zadania (fst s) ++ [r]), snd s)).

(** The instance a reference names.  Every reference a program holds is
    live; a dangling one reads as a missing attribute. *)
Definition deref (r : ref) : M obiekt :=
  fun s => (of_option AttributeError (heap (snd s) !! r), s).

(** A new instance, at the next free index. *)
Definition alloc (o : obiekt) : M ref :=
  fun s =>
    (Ok (length (heap (snd s))),
     (fst s, Swiat (heap (snd s) ++ [o]) (files (snd s)))).

(** [setattr(r, k, v)] on the instance at [r]. *)
Definition ustaw (r : ref) (k : string) (v : value) : M unit :=
  fun s =>
    match heap (snd s) !! r with
    | None => (Raise AttributeError, s)
    | Some o =>
        (Ok tt, (fst s, Swiat (<[r := setattr o k v]> (heap (snd s)))
                              (files (snd s))))
    end.

(** [open(path, "w")] of a path the file system lets the program open for
    writing: the file is created or truncated.  [open_w_os] below is the
    call with the refusals of the file system. *)
Definition open_w (path : string) : M unit :=
  fun s =>
    (Ok tt, (fst s, Swiat (heap (snd s))
                          (assoc_set (normpath path) "" (files (snd s))))).

(** [f.write(text)] on the file opened at [path]. *)
Definition write (path text : string) : M unit :=
  fun s =>
    let old := match assoc_get (normpath path) (files (snd s)) with
               | Some c => c
               | None => ""
               end in
    (Ok tt, (fst s, Swiat (heap (snd s))
                          (assoc_set (normpath path) (old +:+ text)
                                     (files (snd s))))).

(** [open(path, "r")]: the text of the file. *)
Definition open_r (path : string) : M string :=
  fun s =>
    (of_option FileNotFoundError (assoc_get (normpath path) (files (snd s))), s).

(** [for x in l: body(x)]. *)
Fixpoint mfor {A : Type} (l : list A) (body : A -> M unit) : M unit :=
  match l with
  | [] => mret tt
  | x :: l' => (body x ;;; mfor l' body)%M
  end.

(** [[f(x) for x in l]]. *)
Fixpoint mmap {A B : Type} (f : A -> M B) (l : list A) : M (list B) :=
  match l with
  | [] => mret []
  | x :: l' => (y <- f x ;; ys <- mmap f l' ;; mret (y :: ys))%M
  end.

(** ** [ManagerZadan]: tasks in memory *)

(** [ManagerZadan(save_dir)]: [save_dir or] the directory of the script, an
    empty list of tasks. *)
Definition ManagerZadan_init (katalog_skryptu : string)
    (save_dir : option string) : ManagerZadan :=
  Manager (match save_dir with
           | Some d => if String.eqb d "" then katalog_skryptu else d
           | None => katalog_skryptu
           end) [].

(** [dodaj_zadanie]: the instance given, or a new one of the class [typ]
    names; [kwargs] are the keywords the named parameters left over. *)
Definition dodaj_zadanie (zadanie : option ref) (tytul opis termin : value)
    (typ : string) (kwargs : list (string * value)) : M unit :=
  (zad <- match zadanie with
          | None =>
              let opis' := if truthy opis then opis else VStr "" in
              let k := if String.eqb typ "priorytet" then KZadaniePiorytetowe
                       else if String.eqb typ "regular" then KZadanieRegularne
                       else KZadanie in
              o <- lift (wywolaj k tytul opis' termin kwargs) ;;
              alloc o
          | Some z => mret z
          end ;;
   dolacz zad)%M.

(** [next((z for z in self.zadania if z.tytul == tytul), None)]. *)
Fixpoint pierwszy_o_tytule (tytul : value) (l : list ref) : M (option ref) :=
  match l with
  | [] => mret None
  | z :: l' =>
      (o <- deref z ;;
       t <- lift (getattr o "tytul") ;;
       if value_eqb t tytul then mret (Some z)
       else pierwszy_o_tytule tytul l')%M
  end.

(** [zadanie or next(...)]: an instance is truthy, [None] is not. *)
Definition cel (zadanie : option ref) (tytul : value) : M (option ref) :=
  match zadanie with
  | Some z => mret (Some z)
  | None => (m <- get_self ;; pierwszy_o_tytule tytul (zadania m))%M
  end.

(** [l.remove(r)] for an [r] that occurs in [l]: the first occurrence goes. *)
Fixpoint usun_pierwszy (r : ref) (l : list ref) : list ref :=
  match l with
  | [] => []
  | x :: l' => if Nat.eqb x r then l' else x :: usun_pierwszy r l'
  end.

Definition nalezy (r : ref) (l : list ref) : bool := existsb (Nat.eqb r) l.

Definition usun_zadanie (zadanie : option ref) (tytul : value) : M unit :=
  (target <- cel zadanie tytul ;;
   m <- get_self ;;
   match target with
   | Some t =>
       if nalezy t (zadania m)
       then fun s => (Ok tt, (Manager (save_dir (fst s))
                                      (usun_pierwszy t (zadania (fst s))),
                              snd s))
       else mret tt
   | None => mret tt
   end)%M.

Definition oznacz_jako_wykonane (zadanie : option ref) (tytul : value)
  : M unit :=
  (target <- cel zadanie tytul ;;
   match target with
   | Some t => ustaw t "wykonane" (VBool true)
   | None => mret tt
   end)%M.

(** [edytuj_zadanie]; [kwargs] are the keywords other than the three named
    ones. *)
Definition edytuj_zadanie (zadanie : ref) (nowy_tytul nowy_opis nowy_termin : value)
    (kwargs : list (string * value)) : M unit :=
  (m <- get_self ;;
   if nalezy zadanie (zadania m) then
     (if truthy nowy_tytul then ustaw zadanie "tytul" nowy_tytul else mret tt) ;;;
     (if truthy nowy_opis then ustaw zadanie "opis" nowy_opis else mret tt) ;;;
     (if truthy nowy_termin then ustaw zadanie "termin_wykonaia" nowy_termin
      else mret tt) ;;;
     mfor kwargs (fun kv => ustaw zadanie (fst kv) (snd kv))
   else mret tt)%M.

(** ** The listing by due date (option 6 of the menu)

    [sorted(manager.zadania, key=lambda x: x.termin_wykonaia or
    datetime.max.date())]. *)

(** The key of one task. *)
Definition klucz_terminu (o : obiekt) : result value :=
  (t <- getattr o "termin_wykonaia" ;;
   Ok (if truthy t then t else VDate date_max))%result.

(** Lexicographic [<] on strings (bytes of UTF-8 order as code points do). *)
Fixpoint string_ltb (a b : string) : bool :=
  match a, b with
  | _, EmptyString => false
  | EmptyString, String _ _ => true
  | String x a', String y b' =>
      let nx := nat_of_ascii x in
      let ny := nat_of_ascii y in
      (nx <? ny)%nat || ((nx =? ny)%nat && string_ltb a' b')
  end.

(** [a < b] between two keys; values of different types, and [None], do not
    compare: [TypeError]. *)
Definition value_ltb (a b : value) : result bool :=
  match a, b with
  | VDate x, VDate y => Ok (date_ltb x y)
  | VStr x, VStr y => Ok (string_ltb x y)
  | VBool x, VBool y => Ok (negb x && y)
  | _, _ => Raise TypeError
  end.

(** A later element goes behind every element that is not greater than it:
    the insertion that keeps equal keys in their order of arrival. *)
Fixpoint wstaw (x : value * ref) (l : list (value * ref))
  : result (list (value * ref)) :=
  match l with
  | [] => Ok [x]
  | y :: l' =>
      (b <- value_ltb (fst x) (fst y) ;;
       if b then Ok (x :: y :: l')
       else (r <- wstaw x l' ;; Ok (y :: r)))%result
  end.

(** The stable sort of the decorated list: the elements are inserted from
    left to right. *)
Fixpoint sortuj (acc l : list (value * ref)) : result (list (value * ref)) :=
  match l with
  | [] => Ok acc
  | x :: l' => (acc' <- wstaw x acc ;; sortuj acc' l')%result
  end.

(** The sorted listing: keys first, then the sort, a new list. *)
Definition posortowane_wg_terminu : M (list ref) :=
  (m <- get_self ;;
   klucze <- mmap (fun z => o <- deref z ;;
                            k <- lift (klucz_terminu o) ;;
                            mret (k, z)) (zadania m) ;;
   wynik <- lift (sortuj [] klucze) ;;
   mret (map snd wynik))%M.

(** ** The codec *)

(** The guard both file methods start with: the joined path, when its common
    path with the directory is the directory. *)
Definition sprawdz_sciezke (katalog nazwa_pliku : string) : result string :=
  let full_path := path_join katalog nazwa_pliku in
  (cp <- commonpath katalog full_path ;;
   if String.eqb cp katalog then Ok full_path else Raise ValueError)%result.

Definition rdzen : list string :=
  ["tytul"; "opis"; "termin_wykonaia"; "wykonane"].

(** The attributes written as [key=value] pairs: all but the four core
    ones, in attachment order. *)
Definition extras (o : obiekt) : list (string * value) :=
  List.filter (fun kv => negb (mem_string (fst kv) rdzen)) (dict o).

(** One [key=value] field of a line: [f"{k}={v}"]. *)
Definition pole_linii (kv : string * value) : string :=
  fst kv +:+ "=" +:+ py_str (snd kv).

Definition jako_str (v : value) : result string :=
  match v with
  | VStr s => Ok s
  | _ => Raise TypeError
  end.

(** The line of one task, without its terminator.  [";".join] needs every
    part to be a [str]: the title and the description are used as they are,
    everything else goes through [str]. *)
Definition linia_zadania (o : obiekt) : result string :=
  (tytul <- getattr o "tytul" ;;
   opis <- getattr o "opis" ;;
   termin <- getattr o "termin_wykonaia" ;;
   wykonane <- getattr o "wykonane" ;;
   t <- jako_str tytul ;;
   d <- jako_str opis ;;
   Ok (join ";"
         ([nazwa_klasy (typ o); t; d; py_str termin]
          ++ map pole_linii (extras o)
          ++ [pole_linii ("wykonane", wykonane)])))%result.

Definition zapisz_do_pliku (nazwa_pliku : string) : M unit :=
  (m <- get_self ;;
   full_path <- lift (sprawdz_sciezke (save_dir m) nazwa_pliku) ;;
   open_w full_path ;;;
   mfor (zadania m) (fun z =>
     o <- deref z ;;
     l <- lift (linia_zadania o) ;;
     write full_path (l +:+ String LF ""))%M)%M.

(** [attrs[k] = (v == "True") if v in ("True", "False") else v]. *)
Definition wartosc_z_tekstu (v : string) : value :=
  if String.eqb v "True" then VBool true
  else if String.eqb v "False" then VBool false
  else VStr v.

(** The loop over [attr_pairs]; [k, v = pair.split("=", 1)] is a
    [ValueError] when the pair has no [=]. *)
Fixpoint czytaj_pary (pairs : list string) (attrs : list (string * value))
  : result (list (string * value)) :=
  match pairs with
  | [] => Ok attrs
  | para :: rest =>
      match split_first "=" para with
      | inl _ => Raise ValueError
      | inr (k, v) => czytaj_pary rest (assoc_set k (wartosc_z_tekstu v) attrs)
      end
  end.

(** The task of one line: the body of the loop of [wczytaj_z_pliku] up to
    the [append]. *)
Definition dekoduj_linie (line : string) : result obiekt :=
  let parts := split_on ";" (strip line) in
  match parts with
  | typ :: tytul :: opis :: termin_str :: attr_pairs =>
      (attrs <- czytaj_pary attr_pairs [] ;;
       date_val <- of_option ValueError (strptime_Ymd termin_str) ;;
       let k := if String.eqb typ "ZadaniePiorytetowe" then KZadaniePiorytetowe
                else if String.eqb typ "ZadanieRegularne" then KZadanieRegularne
                else KZadanie in
       zad <- wywolaj k (VStr tytul) (VStr opis) (VDate date_val) attrs ;;
       Ok (if match assoc_get "wykonane" attrs with
              | Some w => truthy w
              | None => false
              end
           then setattr zad "wykonane" (VBool true)
           else zad))%result
  | _ => Raise IndexError
  end.

Definition wczytaj_z_pliku (nazwa_pliku : string) : M unit :=
  (m <- get_self ;;
   full_path <- lift (sprawdz_sciezke (save_dir m) nazwa_pliku) ;;
   tresc <- open_r full_path ;;
   mfor (readlines tresc) (fun line =>
     zad <- lift (dekoduj_linie line) ;;
     r <- alloc zad ;;
     dolacz r)%M)%M.

(** ** Notions the statements use *)

(** The instance [edytuj_zadanie] leaves at a reference of the collection:
    the three named fields are overwritten when their argument is truthy,
    then every keyword is assigned. *)
Definition po_edycji (o : obiekt) (nowy_tytul nowy_opis nowy_termin : value)
    (kwargs : list (string * value)) : obiekt :=
  let o1 := if truthy nowy_tytul then setattr o "tytul" nowy_tytul else o in
  let o2 := if truthy nowy_opis then setattr o1 "opis" nowy_opis else o1 in
  let o3 := if truthy nowy_termin
            then setattr o2 "termin_wykonaia" nowy_termin else o2 in
  Obiekt (typ o) (assoc_update (dict o3) kwargs).

(** A record: a line of a file that [wczytaj_z_pliku] decodes to a task. *)
Definition jest_rekordem (line : string) : bool :=
  match dekoduj_linie line with
  | Ok _ => true
  | Raise _ => false
  end.

(** The due date of the task at [z] is absent or a date of the calendar. *)
Definition termin_poprawny (h : sterta) (z : ref) : bool :=
  match h !! z with
  | Some o =>
      match assoc_get "termin_wykonaia" (dict o) with
      | Some VNone => true
      | Some (VDate d) => date_valid d
      | _ => false
      end
  | None => false
  end.

(** The task at [z] has no due date. *)
Definition brak_terminu (h : sterta) (z : ref) : bool :=
  match h !! z with
  | Some o =>
      match assoc_get "termin_wykonaia" (dict o) with
      | Some VNone => true
      | _ => false
      end
  | None => false
  end.

(** The date the listing orders the task at [z] by: its due date, or the
    greatest date when it has none. *)
Definition klucz_zadania (h : sterta) (z : ref) : date :=
  match h !! z with
  | Some o =>
      match assoc_get "termin_wykonaia" (dict o) with
      | Some (VDate d) => d
      | _ => date_max
      end
  | None => date_max
  end.

(** [wstaw] and [sortuj] on references whose keys are all dates: what the
    sort computes when no comparison raises. *)
Section SortowanieDat.
Variable klucz : ref -> date.

Fixpoint wstaw_wg (x : ref) (l : list ref) : list ref :=
  match l with
  | [] => [x]
  | y :: l' =>
      if date_ltb (klucz x) (klucz y) then x :: y :: l'
      else y :: wstaw_wg x l'
  end.

Fixpoint sortuj_wg (acc l : list ref) : list ref :=
  match l with
  | [] => acc
  | x :: l' => sortuj_wg (wstaw_wg x acc) l'
  end.

Definition z_kluczem (z : ref) : value * ref := (VDate (klucz z), z).

Definition rowny_klucz (d : date) (z : ref) : bool := date_eqb (klucz z) d.
End SortowanieDat.

(** [a] is due no later than [b]. *)
Definition nie_pozniej (klucz : ref -> date) (a b : ref) : Prop :=
  date_leb (klucz a) (klucz b) = true.

(** A text the line format carries unchanged: it has no [;], no [=] and no
    line terminator. *)
Definition czysty (s : string) : bool :=
  negb (contains ";" s) && negb (contains "=" s) &&
  negb (contains LF s) && negb (contains CR s).

(** The name of an extra attribute that can be written and read back. *)
Definition klucz_zapisywalny (k : string) : bool :=
  czysty k && negb (mem_string k zajete_nazwy).

(** The value of an extra attribute that reads back as itself: a boolean,
    or a clean text other than the two texts the reader takes for
    booleans. *)
Definition wartosc_zapisywalna (v : value) : bool :=
  match v with
  | VBool _ => true
  | VStr s => czysty s && negb (String.eqb s "True") && negb (String.eqb s "False")
  | _ => false
  end.

Fixpoint bez_powtorzen (l : list string) : bool :=
  match l with
  | [] => true
  | k :: l' => negb (mem_string k l') && bez_powtorzen l'
  end.

(** A task that [zapisz_do_pliku] writes and [wczytaj_z_pliku] reads back:
    its attribute names are distinct (as in every [__dict__]); title and
    description are clean texts, the due date is a date of the calendar, the
    done flag a boolean; every extra attribute has a name and a value that
    can be written; and an instance of a subclass has the attribute its
    constructor sets. *)
Definition zapisywalne (o : obiekt) : bool :=
  bez_powtorzen (map fst (dict o)) &&
  match assoc_get "tytul" (dict o), assoc_get "opis" (dict o),
        assoc_get "termin_wykonaia" (dict o), assoc_get "wykonane" (dict o) with
  | Some (VStr t), Some (VStr d), Some (VDate dt), Some (VBool _) =>
      czysty t && czysty d && date_valid dt
  | _, _, _, _ => false
  end &&
  forallb (fun kv => klucz_zapisywalny (fst kv) && wartosc_zapisywalna (snd kv))
          (extras o) &&
  match typ o with
  | KZadanie => true
  | KZadaniePiorytetowe => assoc_has "priorytet" (dict o)
  | KZadanieRegularne => assoc_has "powtarzalnosc" (dict o)
  end.

(** Two instances of the same class with the same value under every
    attribute name. *)
Definition te_same_atrybuty (o o' : obiekt) : Prop :=
  typ o' = typ o /\ forall k, assoc_get k (dict o') = assoc_get k (dict o).

(** ** Rendering: [__str__] of the classes and of the manager *)

(** The [key=value] texts of the attributes whose name is not in
    [pomijane], in attachment order. *)
Definition dodatkowe (pomijane : list string) (o : obiekt) : list string :=
  map pole_linii
      (List.filter (fun kv => negb (mem_string (fst kv) pomijane)) (dict o)).

(** The common shape of the three [__str__] methods: title, description and
    due date, then the field of the subclass (its label and attribute name)
    when there is one, then the status, then the other attributes when there
    are any. *)
Definition opis_tekstowy (pole : option (string * string)) (o : obiekt)
  : result string :=
  (tytul <- getattr o "tytul" ;;
   opis <- getattr o "opis" ;;
   termin <- getattr o "termin_wykonaia" ;;
   wlasne <- match pole with
             | Some (etykieta, nazwa) =>
                 (v <- getattr o nazwa ;; Ok [etykieta +:+ py_str v])
             | None => Ok []
             end ;;
   wykonane <- getattr o "wykonane" ;;
   let status := if truthy wykonane then "Wykonane" else "Niewykonane" in
   let base := ["Tytuł: " +:+ py_str tytul; "Opis: " +:+ py_str opis;
                "Termin: " +:+ py_str termin]
               ++ wlasne ++ ["Wykonany: " +:+ status] in
   let pomijane := rdzen ++ match pole with
                            | Some (_, nazwa) => [nazwa]
                            | None => []
                            end in
   Ok (join " | "
         (match dodatkowe pomijane o with
          | [] => base
          | extras => base ++ ["Dodatkowe: " +:+ join ", " extras]
          end)))%result.

(** [str(z)]: the method of the class of [z]. *)
Definition Zadanie_str (o : obiekt) : result string :=
  match typ o with
  | KZadanie => opis_tekstowy None o
  | KZadaniePiorytetowe => opis_tekstowy (Some ("Priorytet: ", "priorytet")) o
  | KZadanieRegularne =>
      opis_tekstowy (Some ("Powtarzalność: ", "powtarzalnosc")) o
  end.

(** [ManagerZadan.__str__]: the texts of the tasks, one per line. *)
Definition ManagerZadan_str : M string :=
  (m <- get_self ;;
   teksty <- mmap (fun z => o <- deref z ;; lift (Zadanie_str o)) (zadania m) ;;
   mret (join (String LF "") teksty))%M.

(** [ManagerZadan.__contains__]. *)
Definition ManagerZadan_contains (zadanie : ref) : M bool :=
  (m <- get_self ;; mret (nalezy zadanie (zadania m)))%M.

(** ** Notions of the further statements *)

(** An instance as the constructors build it and the methods keep it: its
    attribute names are distinct, the four core attributes are set, and an
    instance of a subclass has the attribute of the subclass. *)
Definition zbudowany (o : obiekt) : bool :=
  bez_powtorzen (map fst (dict o)) &&
  forallb (fun k => assoc_has k (dict o)) rdzen &&
  match typ o with
  | KZadanie => true
  | KZadaniePiorytetowe => assoc_has "priorytet" (dict o)
  | KZadanieRegularne => assoc_has "powtarzalnosc" (dict o)
  end.

(** A state in which every instance is as built and every task of the
    manager is a live reference. *)
Definition stan_ok (s : stan) : Prop :=
  Forall (fun o => zbudowany o = true) (heap (snd s)) /\
  Forall (fun z => (z < length (heap (snd s)))%nat) (zadania (fst s)).

(** The title of the task at [z] is [tytul]. *)
Definition ma_tytul (h : sterta) (tytul : value) (z : ref) : bool :=
  match h !! z with
  | Some o =>
      match assoc_get "tytul" (dict o) with
      | Some t => value_eqb t tytul
      | None => false
      end
  | None => false
  end.

(** The task at [z] has a title at all. *)
Definition ma_jakis_tytul (h : sterta) (z : ref) : bool :=
  match h !! z with
  | Some o => assoc_has "tytul" (dict o)
  | None => false
  end.

(** A path as [os.path.abspath] gives it: absolute, its components
    separated by single [/], none of them empty, [.] or with a [/] inside. *)
Definition katalog_kanoniczny (katalog : string) (comps : list string) : Prop :=
  comps ≠ [] /\
  katalog = "/" +:+ join "/" comps /\
  Forall (fun c => skladowa_znaczaca c = true /\ contains "/" c = false) comps.

(** A computation that keeps [stan_ok], whether it returns or raises. *)
Definition zachowuje {A : Type} (c : M A) : Prop :=
  forall s, stan_ok s -> stan_ok (snd (c s)).

(** A computation that only reads: the state after it is the state before,
    whether it returns or raises. *)
Definition tylko_czyta {A : Type} (c : M A) : Prop :=
  forall s, snd (c s) = s.

(** A computation whose final state is related to its initial state by [R],
    whether it returns or raises. *)
Definition utrzymuje {A : Type} (R : stan -> stan -> Prop) (c : M A) : Prop :=
  forall s, R s (snd (c s)).

(** What [zapisz_do_pliku] may change: nothing but the file at [cel_zapisu]. *)
Definition rama_zapisu (cel_zapisu : string) (s s' : stan) : Prop :=
  fst s' = fst s /\
  heap (snd s') = heap (snd s) /\
  forall p, p ≠ cel_zapisu ->
    assoc_get p (files (snd s')) = assoc_get p (files (snd s)).

(** What [wczytaj_z_pliku] may change: it appends instances and tasks. *)
Definition rama_odczytu (s s' : stan) : Prop :=
  save_dir (fst s') = save_dir (fst s) /\
  files (snd s') = files (snd s) /\
  heap (snd s) `prefix_of` heap (snd s') /\
  zadania (fst s) `prefix_of` zadania (fst s').

(** The class [dodaj_zadanie] builds for [typ]. *)
Definition klasa_typu (typ : string) : klasa :=
  if String.eqb typ "priorytet" then KZadaniePiorytetowe
  else if String.eqb typ "regular" then KZadanieRegularne
  else KZadanie.

(** ** Saving when the file system may refuse the file *)

(** [open(path, "w")] as the operating system answers it.  Whether a path
    can be opened for writing is decided by the file system, not by the
    program: a directory missing on the way is a [FileNotFoundError], a path
    that names a directory an [IsADirectoryError].  [odmowa path] is the
    error of a path so refused; a refused [open] creates and truncates
    nothing.  The program makes and removes no directory, so the answer for
    a path is the same at every call. *)
Definition open_w_os (odmowa : string -> option wyjatek) (path : string)
  : M unit :=
  fun s =>
    match odmowa path with
    | Some e => (Raise e, s)
    | None => open_w path s
    end.

(** [zapisz_do_pliku] with that [open]. *)
Definition zapisz_do_pliku_os (odmowa : string -> option wyjatek)
    (nazwa_pliku : string) : M unit :=
  (m <- get_self ;;
   full_path <- lift (sprawdz_sciezke (save_dir m) nazwa_pliku) ;;
   open_w_os odmowa full_path ;;;
   mfor (zadania m) (fun z =>
     o <- deref z ;;
     l <- lift (linia_zadania o) ;;
     write full_path (l +:+ String LF ""))%M)%M.

(** * Properties *)

(** ** Association lists *)

Section Assoc.
Context {V : Type}.
Implicit Types (d kw : list (string * V)) (k : string) (v : V).

Lemma assoc_get_set_eq d k v : assoc_get k (assoc_set k v d) = Some v.
Proof.
  induction d as [|[k' v'] d IH]; simpl.
  - by rewrite String.eqb_refl.
  - destruct (String.eqb_spec k' k); simpl.
    + by rewrite String.eqb_refl.
    + by destruct (String.eqb_spec k' k).
Qed.

Lemma assoc_get_set_ne d k k' v :
  k' ≠ k -> assoc_get k (assoc_set k' v d) = assoc_get k d.
Proof.
  intros Hne. induction d as [|[k0 v0] d IH]; simpl.
  - by destruct (String.eqb_spec k' k).
  - destruct (String.eqb_spec k0 k') as [->|]; simpl.
    + by destruct (String.eqb_spec k' k).
    + destruct (String.eqb_spec k0 k); [done | apply IH].
Qed.

Lemma assoc_get_set d k k' v :
  assoc_get k (assoc_set k' v d)
  = if String.eqb k' k then Some v else assoc_get k d.
Proof.
  destruct (String.eqb_spec k' k) as [->|].
  - apply assoc_get_set_eq.
  - by apply assoc_get_set_ne.
Qed.

Lemma assoc_set_id d k v : assoc_get k d = Some v -> assoc_set k v d = d.
Proof.
  induction d as [|[k' v'] d IH]; simpl; [done|].
  destruct (String.eqb_spec k' k) as [->|]; intros H.
  - by simplify_eq.
  - by rewrite IH.
Qed.

Lemma assoc_set_set d k v v' :
  assoc_set k v (assoc_set k v' d) = assoc_set k v d.
Proof.
  induction d as [|[k0 v0] d IH]; simpl.
  - by rewrite String.eqb_refl.
  - destruct (String.eqb_spec k0 k) as [->|]; simpl.
    + by rewrite String.eqb_refl.
    + destruct (String.eqb_spec k0 k); [done | by rewrite IH].
Qed.

Lemma assoc_get_app d1 d2 k :
  assoc_get k (d1 ++ d2)
  = match assoc_get k d1 with
    | Some v => Some v
    | None => assoc_get k d2
    end.
Proof.
  induction d1 as [|[k' v'] d1 IH]; simpl; [done|].
  by destruct (String.eqb k' k).
Qed.

Lemma assoc_get_update d kw k :
  assoc_get k (assoc_update d kw)
  = match assoc_last k kw with
    | Some v => Some v
    | None => assoc_get k d
    end.
Proof.
  unfold assoc_update, assoc_last.
  revert d. induction kw as [|[k' v'] kw IH]; intros d; simpl; [done|].
  rewrite IH, assoc_get_app. simpl.
  destruct (assoc_get k (rev kw)); [done|].
  rewrite assoc_get_set. by destruct (String.eqb k' k).
Qed.

Lemma assoc_get_remove_eq d k : assoc_get k (assoc_remove k d) = None.
Proof.
  unfold assoc_remove.
  induction d as [|[k' v'] d IH]; simpl; [done|].
  destruct (String.eqb_spec k' k); simpl; [done|].
  by destruct (String.eqb_spec k' k).
Qed.

Lemma assoc_get_remove_ne d k k' :
  k' ≠ k -> assoc_get k (assoc_remove k' d) = assoc_get k d.
Proof.
  unfold assoc_remove. intros Hne.
  induction d as [|[k0 v0] d IH]; simpl; [done|].
  destruct (String.eqb_spec k0 k') as [->|]; simpl.
  - by destruct (String.eqb_spec k' k).
  - by destruct (String.eqb_spec k0 k).
Qed.

Lemma assoc_last_remove_ne kw k k' :
  k' ≠ k -> assoc_last k (assoc_remove k' kw) = assoc_last k kw.
Proof.
  unfold assoc_last, assoc_remove. intros Hne.
  induction kw as [|[k0 v0] kw IH]; simpl; [done|].
  destruct (String.eqb_spec k0 k') as [->|]; simpl.
  - rewrite assoc_get_app, IH. simpl.
    destruct (String.eqb_spec k' k); [done|].
    by destruct (assoc_get k (rev kw)).
  - by rewrite !assoc_get_app, IH.
Qed.
End Assoc.

(** ** Heap updates *)

Lemma nalezy_spec (r : ref) (l : list ref) : nalezy r l = true <-> r ∈ l.
Proof.
  unfold nalezy. rewrite existsb_exists, list_elem_of_In. split.
  - intros (x & Hin & Heq). apply Nat.eqb_eq in Heq. by subst.
  - intros Hin. exists r. split; [done | apply Nat.eqb_refl].
Qed.

Lemma nalezy_false (r : ref) (l : list ref) : r ∉ l -> nalezy r l = false.
Proof.
  intros Hn. destruct (nalezy r l) eqn:E; [|done].
  by apply nalezy_spec in E.
Qed.

Lemma setattr_id (o : obiekt) (k : string) (v : value) :
  assoc_get k (dict o) = Some v -> setattr o k v = o.
Proof.
  intros H. destruct o as [t d]. unfold setattr. simpl in *.
  by rewrite assoc_set_id.
Qed.

Lemma setattr_setattr (o : obiekt) (k : string) (v v' : value) :
  setattr (setattr o k v') k v = setattr o k v.
Proof. unfold setattr. simpl. by rewrite assoc_set_set. Qed.

Lemma assoc_set_keys {V : Type} (d : list (string * V)) (k : string) (v v' : V) :
  assoc_get k d = Some v' -> map fst (assoc_set k v d) = map fst d.
Proof.
  induction d as [|[k0 v0] d IH]; simpl; [done|].
  destruct (String.eqb_spec k0 k) as [->|]; simpl; [done|].
  intros H. by rewrite IH.
Qed.

(** ** [Zadanie.wykonany] *)

(** C9, as the code has it: [wykonany] succeeds and replaces the done flag
    by the negation of its truth value; the class, every other attribute,
    the order of the attributes and every other instance stay as they were.
    A second call leaves the flag at the truth value of the flag the first
    call found, and the two calls give back the heap they started from
    exactly when that flag was a boolean. *)
Theorem wykonany_involution (h : sterta) (r : ref) (o : obiekt) (w : value) :
  h !! r = Some o ->
  assoc_get "wykonane" (dict o) = Some w ->
  let o1 := setattr o "wykonane" (VBool (negb (truthy w))) in
  let o2 := setattr o "wykonane" (VBool (truthy w)) in
  wykonany r h = (Ok tt, <[r := o1]> h) /\
  assoc_get "wykonane" (dict o1) = Some (VBool (negb (truthy w))) /\
  typ o1 = typ o /\
  map fst (dict o1) = map fst (dict o) /\
  (forall k, k ≠ "wykonane" -> assoc_get k (dict o1) = assoc_get k (dict o)) /\
  (forall r', r' ≠ r -> <[r := o1]> h !! r' = h !! r') /\
  wykonany r (<[r := o1]> h) = (Ok tt, <[r := o2]> h) /\
  assoc_get "wykonane" (dict o2) = Some (VBool (truthy w)) /\
  (<[r := o2]> h = h <-> exists b, w = VBool b).
Proof.
  intros Hr Hw o1 o2.
  assert (Hlt : (r < length h)%nat) by by eapply lookup_lt_Some.
  assert (Hw1 : assoc_get "wykonane" (dict o1) = Some (VBool (negb (truthy w))))
    by apply assoc_get_set_eq.
  assert (Hw2 : assoc_get "wykonane" (dict o2) = Some (VBool (truthy w)))
    by apply assoc_get_set_eq.
  split_and!.
  - unfold wykonany, getattr. by rewrite Hr, Hw.
  - done.
  - done.
  - by eapply assoc_set_keys.
  - intros k Hk. by apply assoc_get_set_ne.
  - intros r' Hne. by apply list_lookup_insert_ne.
  - unfold wykonany, getattr.
    rewrite list_lookup_insert_eq by done. rewrite Hw1. simpl.
    rewrite list_insert_insert_eq, Bool.negb_involutive.
    unfold o1. by rewrite setattr_setattr.
  - done.
  - split.
    + intros Heq. exists (truthy w).
      assert (Ho : o2 = o).
      { assert (H2 : <[r := o2]> h !! r = Some o2)
          by by apply list_lookup_insert_eq.
        rewrite Heq, Hr in H2. by injection H2. }
      rewrite Ho, Hw in Hw2. by injection Hw2.
    + intros [b ->]. unfold o2. simpl.
      rewrite setattr_id by done. by apply list_insert_id.
Qed.

Lemma wykonany_involution_witness :
  let o := Zadanie_init KZadanie (VStr "a") (VStr "") VNone [] in
  wykonany 0 [o] = (Ok tt, [setattr o "wykonane" (VBool true)]) /\
  wykonany 0 [setattr o "wykonane" (VBool true)]
  = (Ok tt, [setattr o "wykonane" (VBool false)]) /\
  [setattr o "wykonane" (VBool false)] = [o].
Proof.
  intros o.
  pose proof (wykonany_involution [o] 0%nat o (VBool false) eq_refl eq_refl)
    as (H1 & _ & _ & _ & _ & _ & H2 & _ & H3).
  split; [exact H1|].
  split; [exact H2 | exact (proj2 H3 (ex_intro _ false eq_refl))].
Defined.

(** C9 as stated fails for a task whose done flag is not a boolean: the
    keyword [wykonane="tak"] of the constructor and the line ending in
    [wykonane=] that [wczytaj_z_pliku] decodes both give a text flag, and
    two calls of [wykonany] leave [True] and [False] in its place. *)
Lemma wykonany_flaga_tekstowa_counterexample :
  let o := Zadanie_init KZadanie (VStr "a") (VStr "") VNone
             [("wykonane", VStr "tak")] in
  let p := Zadanie_init KZadanie (VStr "a") (VStr "") (VDate (Date 2025 5 15))
             [("wykonane", VStr "")] in
  (wywolaj KZadanie (VStr "a") (VStr "") VNone [("wykonane", VStr "tak")] = Ok o /\
   getattr o "wykonane" = Ok (VStr "tak") /\
   wykonany 0 [o] = (Ok tt, [setattr o "wykonane" (VBool false)]) /\
   wykonany 0 [setattr o "wykonane" (VBool false)]
   = (Ok tt, [setattr o "wykonane" (VBool true)]) /\
   getattr (setattr o "wykonane" (VBool true)) "wykonane" = Ok (VBool true) /\
   [setattr o "wykonane" (VBool true)] ≠ [o]) /\
  (dekoduj_linie "Zadanie;a;;2025-05-15;wykonane=" = Ok p /\
   getattr p "wykonane" = Ok (VStr "") /\
   wykonany 0 [p] = (Ok tt, [setattr p "wykonane" (VBool true)]) /\
   wykonany 0 [setattr p "wykonane" (VBool true)]
   = (Ok tt, [setattr p "wykonane" (VBool false)]) /\
   getattr (setattr p "wykonane" (VBool false)) "wykonane" = Ok (VBool false) /\
   [setattr p "wykonane" (VBool false)] ≠ [p]).
Proof. by vm_compute. Qed.

(** ** Construction *)

Lemma wywolaj_wykonane (k : klasa) (tytul opis termin : value)
    (attrs : list (string * value)) (z : obiekt) :
  wywolaj k tytul opis termin attrs = Ok z ->
  assoc_get "wykonane" (dict z)
  = Some (match assoc_last "wykonane" attrs with
          | Some v => v
          | None => VBool false
          end).
Proof.
  unfold wywolaj.
  destruct (existsb _ attrs); [done|].
  destruct k; intros [= <-]; simpl.
  - rewrite assoc_get_update. by destruct (assoc_last "wykonane" attrs).
  - rewrite assoc_get_set_ne by done.
    rewrite assoc_get_update, assoc_last_remove_ne by done.
    by destruct (assoc_last "wykonane" attrs).
  - rewrite assoc_get_set_ne by done.
    rewrite assoc_get_update, assoc_last_remove_ne by done.
    by destruct (assoc_last "wykonane" attrs).
Qed.

(** C3, as the code has it: a constructed task has the done flag [False]
    when no [wykonane] key arrives among the keyword arguments, and the value
    of that key when one does; so when the key arrived as [True], the later
    assignment [zad.wykonane = True] leaves the task as it is. *)
Theorem wykonane_po_konstrukcji (k : klasa) (tytul opis termin : value)
    (attrs : list (string * value)) (z : obiekt) :
  wywolaj k tytul opis termin attrs = Ok z ->
  getattr z "wykonane"
  = Ok (match assoc_last "wykonane" attrs with
        | Some v => v
        | None => VBool false
        end) /\
  match assoc_last "wykonane" attrs with
  | Some (VBool true) => setattr z "wykonane" (VBool true) = z
  | _ => True
  end.
Proof.
  intros Hz. pose proof (wywolaj_wykonane _ _ _ _ _ _ Hz) as Hw.
  unfold getattr. rewrite Hw. split; [done|].
  destruct (assoc_last "wykonane" attrs) as [[|[]| |]|]; try done.
  by apply setattr_id.
Qed.

Lemma wykonane_po_konstrukcji_witness :
  getattr (Zadanie_init KZadanie (VStr "a") (VStr "") VNone
             [("kategoria", VStr "Finanse")]) "wykonane"
  = Ok (VBool false).
Proof.
  exact (proj1 (wykonane_po_konstrukcji KZadanie (VStr "a") (VStr "") VNone
                  [("kategoria", VStr "Finanse")] _ eq_refl)).
Defined.

(** C3 as stated fails: a [wykonane] key among the keyword arguments sets
    the flag of the new task, for each of the three classes. *)
Lemma wykonane_z_kwargs_counterexample :
  (z <- wywolaj KZadanie (VStr "a") (VStr "") VNone [("wykonane", VBool true)] ;;
   getattr z "wykonane")%result = Ok (VBool true) /\
  (z <- wywolaj KZadaniePiorytetowe (VStr "a") (VStr "") VNone
          [("wykonane", VBool true)] ;;
   getattr z "wykonane")%result = Ok (VBool true) /\
  (z <- wywolaj KZadanieRegularne (VStr "a") (VStr "") VNone
          [("wykonane", VBool true)] ;;
   getattr z "wykonane")%result = Ok (VBool true).
Proof. by vm_compute. Qed.

(** ** [edytuj_zadanie] *)

Lemma ustaw_run (m : ManagerZadan) (h : sterta) (f : list (string * string))
    (z : ref) (o : obiekt) (k : string) (v : value) :
  h !! z = Some o ->
  ustaw z k v (m, Swiat h f) = (Ok tt, (m, Swiat (<[z := setattr o k v]> h) f)).
Proof. intros H. unfold ustaw. simpl. by rewrite H. Qed.

Lemma mfor_ustaw (m : ManagerZadan) (f : list (string * string)) (z : ref)
    (kwargs : list (string * value)) (h : sterta) (o : obiekt) :
  h !! z = Some o ->
  mfor kwargs (fun kv => ustaw z (fst kv) (snd kv)) (m, Swiat h f)
  = (Ok tt, (m, Swiat (<[z := Obiekt (typ o) (assoc_update (dict o) kwargs)]> h) f)).
Proof.
  revert h o. induction kwargs as [|[k v] kwargs IH]; intros h o Hz; simpl.
  - unfold mret. destruct o as [t d]. simpl. by rewrite list_insert_id.
  - unfold mbind. rewrite (ustaw_run _ _ _ _ o) by done.
    rewrite (IH _ (setattr o k v)).
    + by rewrite list_insert_insert_eq.
    + apply list_lookup_insert_eq. by eapply lookup_lt_Some.
Qed.

Lemma edytuj_zadanie_run (m : ManagerZadan) (w : swiat) (z : ref) (o : obiekt)
    (nt no nd : value) (kwargs : list (string * value)) :
  z ∈ zadania m ->
  heap w !! z = Some o ->
  edytuj_zadanie z nt no nd kwargs (m, w)
  = (Ok tt, (m, Swiat (<[z := po_edycji o nt no nd kwargs]> (heap w)) (files w))).
Proof.
  intros Hin Hz. destruct w as [h f]. simpl in *.
  assert (Hlt : (z < length h)%nat) by by eapply lookup_lt_Some.
  unfold edytuj_zadanie, po_edycji, mbind, get_self. simpl.
  apply nalezy_spec in Hin. rewrite Hin.
  set (o1 := if truthy nt then setattr o "tytul" nt else o).
  set (o2 := if truthy no then setattr o1 "opis" no else o1).
  set (o3 := if truthy nd then setattr o2 "termin_wykonaia" nd else o2).
  assert (H1 : (if truthy nt then ustaw z "tytul" nt else mret tt) (m, Swiat h f)
               = (Ok tt, (m, Swiat (<[z := o1]> h) f))).
  { unfold o1. destruct (truthy nt).
    - by apply ustaw_run.
    - unfold mret. by rewrite list_insert_id. }
  rewrite H1.
  assert (H2 : (if truthy no then ustaw z "opis" no else mret tt)
                 (m, Swiat (<[z := o1]> h) f)
               = (Ok tt, (m, Swiat (<[z := o2]> h) f))).
  { unfold o2. destruct (truthy no).
    - rewrite (ustaw_run _ _ _ _ o1) by by apply list_lookup_insert_eq.
      by rewrite list_insert_insert_eq.
    - done. }
  rewrite H2.
  assert (H3 : (if truthy nd then ustaw z "termin_wykonaia" nd else mret tt)
                 (m, Swiat (<[z := o2]> h) f)
               = (Ok tt, (m, Swiat (<[z := o3]> h) f))).
  { unfold o3. destruct (truthy nd).
    - rewrite (ustaw_run _ _ _ _ o2) by by apply list_lookup_insert_eq.
      by rewrite list_insert_insert_eq.
    - done. }
  rewrite H3.
  rewrite (mfor_ustaw _ _ _ _ _ o3) by by apply list_lookup_insert_eq.
  rewrite list_insert_insert_eq.
  replace (typ o3) with (typ o); [done|].
  unfold o3, o2, o1.
  by destruct (truthy nt), (truthy no), (truthy nd).
Qed.

(** C8: [edytuj_zadanie] on a task that is not in the collection changes
    nothing: the manager, every instance and every file are as before,
    whatever the new title, description, due date and keywords. *)
Theorem edytuj_zadanie_spoza_kolekcji (m : ManagerZadan) (w : swiat) (z : ref)
    (nowy_tytul nowy_opis nowy_termin : value) (kwargs : list (string * value)) :
  z ∉ zadania m ->
  edytuj_zadanie z nowy_tytul nowy_opis nowy_termin kwargs (m, w) = (Ok tt, (m, w)).
Proof.
  intros Hn. unfold edytuj_zadanie, mbind, get_self. simpl.
  by rewrite nalezy_false.
Qed.

Lemma edytuj_zadanie_spoza_kolekcji_witness :
  let o := Zadanie_init KZadanie (VStr "a") (VStr "") VNone [] in
  edytuj_zadanie 0%nat (VStr "b") (VStr "c") (VDate (Date 2025 5 15))
    [("wykonane", VBool true)] (Manager "/a/b" [], Swiat [o] [])
  = (Ok tt, (Manager "/a/b" [], Swiat [o] [])).
Proof.
  intros o.
  apply (edytuj_zadanie_spoza_kolekcji (Manager "/a/b" []) (Swiat [o] [])).
  simpl. apply not_elem_of_nil.
Defined.

(** C7: for a task of the collection, an empty new title assigns nothing
    to the title, and an empty new description assigns nothing to the
    description, whatever the other arguments: after the call the field holds
    what it held before, unless a keyword of that very name assigned it. *)
Theorem edytuj_zadanie_pusty_tekst (m : ManagerZadan) (w : swiat) (z : ref)
    (o : obiekt) (x y nowy_termin : value) (kwargs : list (string * value)) :
  z ∈ zadania m ->
  heap w !! z = Some o ->
  (exists w' o',
     edytuj_zadanie z (VStr "") y nowy_termin kwargs (m, w) = (Ok tt, (m, w')) /\
     heap w' !! z = Some o' /\
     assoc_get "tytul" (dict o')
     = match assoc_last "tytul" kwargs with
       | Some v => Some v
       | None => assoc_get "tytul" (dict o)
       end) /\
  (exists w' o',
     edytuj_zadanie z x (VStr "") nowy_termin kwargs (m, w) = (Ok tt, (m, w')) /\
     heap w' !! z = Some o' /\
     assoc_get "opis" (dict o')
     = match assoc_last "opis" kwargs with
       | Some v => Some v
       | None => assoc_get "opis" (dict o)
       end).
Proof.
  intros Hin Hz.
  assert (Hlt : (z < length (heap w))%nat) by by eapply lookup_lt_Some.
  split; eexists _, _;
    (split; [by apply edytuj_zadanie_run|]);
    (split; [by apply list_lookup_insert_eq|]);
    unfold po_edycji; simpl; rewrite assoc_get_update.
  - destruct (assoc_last "tytul" kwargs); [done|].
    destruct (truthy y), (truthy nowy_termin); simpl;
      by rewrite ?assoc_get_set_ne by done.
  - destruct (assoc_last "opis" kwargs); [done|].
    destruct (truthy x), (truthy nowy_termin); simpl;
      by rewrite ?assoc_get_set_ne by done.
Qed.

Lemma edytuj_zadanie_pusty_tekst_witness :
  let o := Zadanie_init KZadanie (VStr "a") (VStr "b") VNone [] in
  exists w' o',
    edytuj_zadanie 0%nat (VStr "") (VStr "c") VNone [("kategoria", VStr "x")]
      (Manager "/a/b" [0%nat], Swiat [o] [])
    = (Ok tt, (Manager "/a/b" [0%nat], w')) /\
    heap w' !! 0%nat = Some o' /\
    assoc_get "tytul" (dict o') = Some (VStr "a").
Proof.
  intros o.
  refine (proj1 (edytuj_zadanie_pusty_tekst (Manager "/a/b" [0%nat])
                   (Swiat [o] []) 0%nat o VNone (VStr "c") VNone
                   [("kategoria", VStr "x")] _ eq_refl)).
  simpl. apply list_elem_of_here.
Defined.

(** C10: for a task of the collection, every keyword of [edytuj_zadanie] is
    assigned to the attribute of its name, whatever the name: after the call
    the attribute [k] holds the value the keywords give to [k], also when [k]
    is [wykonane], [tytul], [opis] or [termin_wykonaia]. *)
Theorem edytuj_zadanie_kwargs (m : ManagerZadan) (w : swiat) (z : ref)
    (o : obiekt) (nowy_tytul nowy_opis nowy_termin : value)
    (kwargs : list (string * value)) (k : string) (v : value) :
  z ∈ zadania m ->
  heap w !! z = Some o ->
  assoc_last k kwargs = Some v ->
  exists w' o',
    edytuj_zadanie z nowy_tytul nowy_opis nowy_termin kwargs (m, w)
    = (Ok tt, (m, w')) /\
    heap w' !! z = Some o' /\
    getattr o' k = Ok v.
Proof.
  intros Hin Hz Hk.
  assert (Hlt : (z < length (heap w))%nat) by by eapply lookup_lt_Some.
  eexists _, _. split; [by apply edytuj_zadanie_run|].
  split; [by apply list_lookup_insert_eq|].
  unfold getattr, po_edycji. simpl. by rewrite assoc_get_update, Hk.
Qed.

Lemma edytuj_zadanie_kwargs_witness :
  let o := Zadanie_init KZadanie (VStr "a") (VStr "b") VNone [] in
  exists w' o',
    edytuj_zadanie 0%nat VNone VNone VNone [("wykonane", VBool true)]
      (Manager "/a/b" [0%nat], Swiat [o] [])
    = (Ok tt, (Manager "/a/b" [0%nat], w')) /\
    heap w' !! 0%nat = Some o' /\
    getattr o' "wykonane" = Ok (VBool true).
Proof.
  intros o.
  refine (edytuj_zadanie_kwargs (Manager "/a/b" [0%nat]) (Swiat [o] []) 0%nat o
            VNone VNone VNone [("wykonane", VBool true)] "wykonane" (VBool true)
            _ eq_refl eq_refl).
  simpl. apply list_elem_of_here.
Defined.

(** ** [oznacz_jako_wykonane] *)

Lemma pierwszy_o_tytule_brak (tytul : value) (l : list ref) (s : stan) :
  (forall z, z ∈ l ->
     exists o t, heap (snd s) !! z = Some o /\
                 assoc_get "tytul" (dict o) = Some t /\
                 value_eqb t tytul = false) ->
  pierwszy_o_tytule tytul l s = (Ok None, s).
Proof.
  induction l as [|z l IH]; intros H; simpl; [done|].
  destruct (H z) as (o & t & Ho & Ht & Hne); [apply list_elem_of_here|].
  unfold mbind, deref, lift, getattr. rewrite Ho. simpl. rewrite Ht. simpl.
  rewrite Hne. apply IH. intros z' Hz'. apply H. by apply list_elem_of_further.
Qed.

(** The part of C4 the code has: with a title no task of the collection
    carries, and no task given, nothing changes and nothing is raised. *)
Lemma oznacz_jako_wykonane_nieznany_tytul (m : ManagerZadan) (w : swiat)
    (tytul : value) :
  (forall z, z ∈ zadania m ->
     exists o t, heap w !! z = Some o /\
                 assoc_get "tytul" (dict o) = Some t /\
                 value_eqb t tytul = false) ->
  oznacz_jako_wykonane None tytul (m, w) = (Ok tt, (m, w)).
Proof.
  intros H. unfold oznacz_jako_wykonane, cel, mbind, get_self. simpl.
  by rewrite pierwszy_o_tytule_brak.
Qed.

(** A task given as an instance is marked whether or not the collection
    holds it. *)
Lemma oznacz_jako_wykonane_obiekt (m : ManagerZadan) (w : swiat) (z : ref)
    (o : obiekt) (tytul : value) :
  heap w !! z = Some o ->
  oznacz_jako_wykonane (Some z) tytul (m, w)
  = (Ok tt, (m, Swiat (<[z := setattr o "wykonane" (VBool true)]> (heap w))
                      (files w))).
Proof.
  intros H. destruct w as [h f].
  unfold oznacz_jako_wykonane, cel, mbind, mret. by apply ustaw_run.
Qed.

(** C4 at its failing input: the manager holds no task, the task at
    reference 0 is not done; [oznacz_jako_wykonane] given that task marks it
    done, where [usun_zadanie] and [edytuj_zadanie] given the same task leave
    everything as it is. *)
Theorem oznacz_jako_wykonane_spoza_kolekcji :
  let o := Zadanie_init KZadanie (VStr "a") (VStr "") VNone [] in
  let m := ManagerZadan_init "/a/b" None in
  let w := Swiat [o] [] in
  nalezy 0%nat (zadania m) = false /\
  getattr o "wykonane" = Ok (VBool false) /\
  oznacz_jako_wykonane (Some 0%nat) VNone (m, w)
  = (Ok tt, (m, Swiat [setattr o "wykonane" (VBool true)] [])) /\
  getattr (setattr o "wykonane" (VBool true)) "wykonane" = Ok (VBool true) /\
  usun_zadanie (Some 0%nat) VNone (m, w) = (Ok tt, (m, w)) /\
  edytuj_zadanie 0%nat VNone VNone VNone [("wykonane", VBool true)] (m, w)
  = (Ok tt, (m, w)).
Proof. by vm_compute. Qed.

(** ** The path guard *)

(** When the guard raises, [zapisz_do_pliku] and [wczytaj_z_pliku] raise the
    same exception with no file opened: the world is as before. *)
Lemma straz_przed_otwarciem (m : ManagerZadan) (w : swiat) (nazwa : string)
    (e : wyjatek) :
  sprawdz_sciezke (save_dir m) nazwa = Raise e ->
  zapisz_do_pliku nazwa (m, w) = (Raise e, (m, w)) /\
  wczytaj_z_pliku nazwa (m, w) = (Raise e, (m, w)).
Proof.
  intros H. unfold zapisz_do_pliku, wczytaj_z_pliku, mbind, get_self, lift.
  simpl. by rewrite H.
Qed.

(** An absolute name outside the directory is refused. *)
Lemma sprawdz_sciezke_bezwzgledna :
  sprawdz_sciezke "/a/b" "/etc/passwd" = Raise ValueError.
Proof. by vm_compute. Qed.

(** C2 at its failing input: with the directory [/a/b] the name
    [../../etc/passwd] passes the guard, because [commonpath] compares the
    components as they are written; the joined path resolves to
    [/etc/passwd], outside the directory, and that is the file
    [zapisz_do_pliku] creates and writes and [wczytaj_z_pliku] reads. *)
Theorem zapisz_poza_katalogiem :
  let o := Zadanie_init KZadanie (VStr "a") (VStr "") (VDate (Date 2025 5 15)) [] in
  let m := Manager "/a/b" [0%nat] in
  let nazwa := "../../etc/passwd" in
  let tresc := "Zadanie;a;;2025-05-15;wykonane=False" +:+ String LF "" in
  sprawdz_sciezke (save_dir m) nazwa = Ok "/a/b/../../etc/passwd" /\
  normpath "/a/b/../../etc/passwd" = "/etc/passwd" /\
  lezy_w_katalogu (save_dir m) "/a/b/../../etc/passwd" = false /\
  zapisz_do_pliku nazwa (m, Swiat [o] [])
  = (Ok tt, (m, Swiat [o] [("/etc/passwd", tresc)])) /\
  wczytaj_z_pliku nazwa (ManagerZadan_init "/a/b" None, Swiat [] [("/etc/passwd", tresc)])
  = (Ok tt, (Manager "/a/b" [0%nat], Swiat [o] [("/etc/passwd", tresc)])).
Proof. by vm_compute. Qed.

(** ** [wczytaj_z_pliku] appends *)

Lemma wczytaj_petla (d : string) (f : list (string * string))
    (lines : list string) (objs : list obiekt) :
  Forall2 (fun line o => dekoduj_linie line = Ok o) lines objs ->
  forall (zs : list ref) (h : sterta),
    mfor lines (fun line =>
      zad <- lift (dekoduj_linie line) ;; r <- alloc zad ;; dolacz r)%M
      (Manager d zs, Swiat h f)
    = (Ok tt, (Manager d (zs ++ seq (length h) (length objs)),
               Swiat (h ++ objs) f)).
Proof.
  induction 1 as [|line o lines objs Hl _ IH]; intros zs h; simpl.
  - unfold mret. by rewrite !app_nil_r.
  - unfold mbind at 1. unfold mbind at 1, lift at 1. rewrite Hl.
    unfold mbind at 1, alloc at 1, dolacz at 1. simpl.
    rewrite IH. rewrite length_app. simpl.
    rewrite <- !app_assoc. simpl.
    by rewrite Nat.add_1_r.
Qed.

Lemma rekordy_dekoduja (lines : list string) :
  forallb jest_rekordem lines = true ->
  exists objs, Forall2 (fun line o => dekoduj_linie line = Ok o) lines objs.
Proof.
  induction lines as [|line lines IH]; simpl.
  - by exists [].
  - intros [H1 H2]%andb_prop. destruct (IH H2) as [objs Hobjs].
    unfold jest_rekordem in H1.
    destruct (dekoduj_linie line) as [o|] eqn:E; [|done].
    exists (o :: objs). by constructor.
Qed.

(** C5: when the name passes the guard, the file exists and each of its [M]
    lines is a record, loading into a manager that holds [N] tasks succeeds
    and leaves [N + M] tasks: the old ones first, as they were, then one new
    task per line, in the order of the lines; no instance that existed
    before is changed. *)
Theorem wczytaj_z_pliku_dodaje (m : ManagerZadan) (w : swiat)
    (nazwa full_path tresc : string) :
  sprawdz_sciezke (save_dir m) nazwa = Ok full_path ->
  assoc_get (normpath full_path) (files w) = Some tresc ->
  forallb jest_rekordem (readlines tresc) = true ->
  exists objs,
    Forall2 (fun line o => dekoduj_linie line = Ok o) (readlines tresc) objs /\
    wczytaj_z_pliku nazwa (m, w)
    = (Ok tt, (Manager (save_dir m)
                       (zadania m ++ seq (length (heap w)) (length objs)),
               Swiat (heap w ++ objs) (files w))) /\
    length (zadania m ++ seq (length (heap w)) (length objs))
    = (length (zadania m) + length (readlines tresc))%nat.
Proof.
  intros Hp Hf Hr. destruct (rekordy_dekoduja _ Hr) as [objs Hobjs].
  exists objs. split; [done|]. split.
  - unfold wczytaj_z_pliku, mbind at 1, get_self. simpl.
    unfold mbind at 1, lift at 1. rewrite Hp.
    unfold mbind at 1, open_r. simpl. rewrite Hf. simpl.
    destruct m as [d zs], w as [h f]. simpl.
    by apply wczytaj_petla.
  - rewrite length_app, length_seq. f_equal.
    symmetry. by eapply Forall2_length.
Qed.

Lemma wczytaj_z_pliku_dodaje_witness :
  let o := Zadanie_init KZadanie (VStr "a") (VStr "") VNone [] in
  let tresc := "Zadanie;b;;2025-05-15;wykonane=False" +:+ String LF ""
               +:+ "ZadanieRegularne;c;d;2025-05-16;powtarzalnosc=co tydzien;wykonane=True"
               +:+ String LF "" in
  exists objs,
    Forall2 (fun line o => dekoduj_linie line = Ok o) (readlines tresc) objs /\
    wczytaj_z_pliku "zadania.txt"
      (Manager "/a/b" [0%nat], Swiat [o] [("/a/b/zadania.txt", tresc)])
    = (Ok tt, (Manager "/a/b" ([0%nat] ++ seq 1 (length objs)),
               Swiat ([o] ++ objs) [("/a/b/zadania.txt", tresc)])) /\
    length ([0%nat] ++ seq 1 (length objs)) = (1 + 2)%nat.
Proof.
  intros o tresc.
  exact (wczytaj_z_pliku_dodaje (Manager "/a/b" [0%nat])
           (Swiat [o] [("/a/b/zadania.txt", tresc)])
           "zadania.txt" "/a/b/zadania.txt" tresc eq_refl eq_refl eq_refl).
Defined.

(** ** The order of dates *)

Lemma date_ltb_lt (a b : date) :
  date_ltb a b = true <->
  year a < year b \/
  (year a = year b /\
   (month a < month b \/ (month a = month b /\ day a < day b))).
Proof.
  unfold date_ltb.
  rewrite !orb_true_iff, !andb_true_iff, !orb_true_iff, !andb_true_iff.
  rewrite !Z.ltb_lt, !Z.eqb_eq. tauto.
Qed.

Lemma date_leb_le (a b : date) :
  date_leb a b = true <->
  year a < year b \/
  (year a = year b /\
   (month a < month b \/ (month a = month b /\ day a <= day b))).
Proof.
  unfold date_leb. rewrite negb_true_iff, <- not_true_iff_false, date_ltb_lt.
  lia.
Qed.

Lemma date_leb_trans (a b c : date) :
  date_leb a b = true -> date_leb b c = true -> date_leb a c = true.
Proof. rewrite !date_leb_le. lia. Qed.

Lemma date_ltb_leb (a b : date) : date_ltb a b = true -> date_leb a b = true.
Proof. rewrite date_ltb_lt, date_leb_le. lia. Qed.

Lemma date_leb_antisym (a b : date) :
  date_leb a b = true -> date_leb b a = true -> a = b.
Proof.
  rewrite !date_leb_le. destruct a, b. simpl. intros H1 H2.
  f_equal; lia.
Qed.

Lemma date_eqb_eq (a b : date) : date_eqb a b = true <-> a = b.
Proof.
  unfold date_eqb. rewrite !andb_true_iff, !Z.eqb_eq.
  destruct a, b. simpl. split.
  - intros [[-> ->] ->]. done.
  - intros [= -> -> ->]. done.
Qed.

Lemma date_valid_le_max (d : date) :
  date_valid d = true -> date_leb d date_max = true.
Proof.
  unfold date_valid. rewrite !andb_true_iff, !Z.leb_le, date_leb_le.
  unfold days_in_month. simpl. intros [[[[[? ?] ?] ?] ?] Hd].
  assert (day d <= 31); [|lia].
  destruct (month d) as [|[[[[]|[]|]|[[]|[]|]|]|[[[]|[]|]|[[]|[]|]|]|]|];
    try lia; destruct (is_leap (year d)); lia.
Qed.

(** ** The stable insertion sort on date keys *)

Section SortowanieDatWlasnosci.
Variable klucz : ref -> date.

Lemma wstaw_wg_perm (x : ref) (l : list ref) : wstaw_wg klucz x l ≡ₚ x :: l.
Proof.
  induction l as [|y l IH]; simpl; [done|].
  destruct (date_ltb (klucz x) (klucz y)); [done|].
  rewrite IH. apply Permutation_swap.
Qed.

Lemma sortuj_wg_perm (l acc : list ref) : sortuj_wg klucz acc l ≡ₚ acc ++ l.
Proof.
  revert acc. induction l as [|x l IH]; intros acc; simpl.
  - by rewrite app_nil_r.
  - rewrite IH, wstaw_wg_perm. simpl. apply Permutation_middle.
Qed.

Lemma wstaw_wg_sorted (x : ref) (l : list ref) :
  StronglySorted (nie_pozniej klucz) l ->
  StronglySorted (nie_pozniej klucz) (wstaw_wg klucz x l).
Proof.
  induction 1 as [|y l Hs IH Hy]; simpl.
  - repeat constructor.
  - destruct (date_ltb (klucz x) (klucz y)) eqn:E.
    + constructor; [by constructor|].
      apply date_ltb_leb in E. constructor; [done|].
      eapply Forall_impl; [exact Hy|].
      intros z Hz. unfold nie_pozniej in *. by eapply date_leb_trans.
    + constructor; [done|].
      rewrite wstaw_wg_perm. constructor; [|done].
      unfold nie_pozniej, date_leb. by rewrite E.
Qed.

Lemma sortuj_wg_sorted (l acc : list ref) :
  StronglySorted (nie_pozniej klucz) acc ->
  StronglySorted (nie_pozniej klucz) (sortuj_wg klucz acc l).
Proof.
  revert acc. induction l as [|x l IH]; intros acc Hacc; simpl; [done|].
  by apply IH, wstaw_wg_sorted.
Qed.

Lemma filter_pozniejsze (d : date) (l : list ref) :
  Forall (fun z => date_ltb d (klucz z) = true) l ->
  List.filter (rowny_klucz klucz d) l = [].
Proof.
  induction 1 as [|z l Hz _ IH]; simpl; [done|].
  unfold rowny_klucz at 1.
  destruct (date_eqb (klucz z) d) eqn:E; [|done].
  apply date_eqb_eq in E. rewrite E in Hz.
  apply date_ltb_lt in Hz. lia.
Qed.

Lemma wstaw_wg_filter (d : date) (x : ref) (l : list ref) :
  StronglySorted (nie_pozniej klucz) l ->
  List.filter (rowny_klucz klucz d) (wstaw_wg klucz x l)
  = List.filter (rowny_klucz klucz d) l ++ List.filter (rowny_klucz klucz d) [x].
Proof.
  induction 1 as [|y l Hs IH Hy]; [done|].
  cbn [wstaw_wg].
  destruct (date_ltb (klucz x) (klucz y)) eqn:E.
  - assert (Hgt : klucz x = d ->
                  List.filter (rowny_klucz klucz d) (y :: l) = []).
    { intros <-. apply filter_pozniejsze. constructor; [done|].
      eapply Forall_impl; [exact Hy|].
      intros z Hz. unfold nie_pozniej in Hz.
      apply date_ltb_lt in E. apply date_leb_le in Hz.
      apply date_ltb_lt. lia. }
    change (List.filter (rowny_klucz klucz d) (x :: y :: l))
      with (if rowny_klucz klucz d x
            then x :: List.filter (rowny_klucz klucz d) (y :: l)
            else List.filter (rowny_klucz klucz d) (y :: l)).
    change (List.filter (rowny_klucz klucz d) [x])
      with (if rowny_klucz klucz d x then [x] else []).
    destruct (rowny_klucz klucz d x) eqn:Ed; [|by rewrite app_nil_r].
    apply date_eqb_eq in Ed. by rewrite (Hgt Ed).
  - cbn [List.filter]. rewrite IH.
    by destruct (rowny_klucz klucz d y).
Qed.

Lemma sortuj_wg_filter (d : date) (l acc : list ref) :
  StronglySorted (nie_pozniej klucz) acc ->
  List.filter (rowny_klucz klucz d) (sortuj_wg klucz acc l)
  = List.filter (rowny_klucz klucz d) acc ++ List.filter (rowny_klucz klucz d) l.
Proof.
  revert acc. induction l as [|x l IH]; intros acc Hacc.
  - by simpl; rewrite app_nil_r.
  - cbn [sortuj_wg]. rewrite IH by by apply wstaw_wg_sorted.
    rewrite wstaw_wg_filter by done.
    change (x :: l) with ([x] ++ l).
    by rewrite (List.filter_app _ [x] l), app_assoc.
Qed.

Lemma wstaw_ok (x : ref) (l : list ref) :
  wstaw (z_kluczem klucz x) (map (z_kluczem klucz) l)
  = Ok (map (z_kluczem klucz) (wstaw_wg klucz x l)).
Proof.
  induction l as [|y l IH]; simpl; [done|].
  destruct (date_ltb (klucz x) (klucz y)); [done|].
  by rewrite IH.
Qed.

Lemma sortuj_ok (l acc : list ref) :
  sortuj (map (z_kluczem klucz) acc) (map (z_kluczem klucz) l)
  = Ok (map (z_kluczem klucz) (sortuj_wg klucz acc l)).
Proof.
  revert acc. induction l as [|x l IH]; intros acc; simpl; [done|].
  rewrite wstaw_ok. simpl. apply IH.
Qed.
End SortowanieDatWlasnosci.

(** ** The listing by due date *)

Lemma StronglySorted_lookup {A : Type} (R : A -> A -> Prop) (l : list A) :
  StronglySorted R l ->
  forall (i j : nat) (a b : A),
    (i < j)%nat -> l !! i = Some a -> l !! j = Some b -> R a b.
Proof.
  induction 1 as [|x l Hs IH Hx]; intros i j a b Hij Hi Hj; [done|].
  destruct j as [|j]; [lia|]. simpl in Hj.
  destruct i as [|i]; simpl in Hi.
  - simplify_eq. rewrite Forall_forall in Hx. apply Hx.
    by eapply list_elem_of_lookup_2.
  - eapply (IH i j); [lia|done..].
Qed.

Lemma klucze_ok (m : ManagerZadan) (w : swiat) (zs : list ref) :
  (forall z, z ∈ zs -> termin_poprawny (heap w) z = true) ->
  mmap (fun z => o <- deref z ;; k <- lift (klucz_terminu o) ;; mret (k, z))%M
       zs (m, w)
  = (Ok (map (z_kluczem (klucz_zadania (heap w))) zs), (m, w)).
Proof.
  induction zs as [|z zs IH]; intros H; simpl; [done|].
  assert (IH' := IH (fun z' Hz' => H z' (list_elem_of_further _ _ _ Hz'))).
  clear IH. set (rest := mmap _ zs) in *.
  unfold mbind at 1. unfold mbind at 1, deref at 1. simpl.
  pose proof (H z (list_elem_of_here _ _)) as Hz.
  unfold termin_poprawny in Hz. unfold z_kluczem at 1, klucz_zadania at 1.
  destruct (heap w !! z) as [o|]; [|done]. simpl.
  unfold mbind at 1, lift at 1, klucz_terminu, getattr.
  destruct (assoc_get "termin_wykonaia" (dict o)) as [[| | |d]|]; try done;
    simpl; unfold mbind at 1; by rewrite IH'.
Qed.

(** C6, as the code has it: for a manager whose tasks have a date of the
    calendar or no date as their due date, the listing succeeds, leaves the
    manager and the world as they were, and returns the tasks of the
    manager (a permutation of the stored list) in ascending order of the
    key, the key of a task without due date being the greatest date
    9999-12-31; tasks of equal key keep the order they are stored in; and a
    task without due date comes after every task due before 9999-12-31. *)
Theorem posortowane_wg_terminu_stabilne (m : ManagerZadan) (w : swiat) :
  (forall z, z ∈ zadania m -> termin_poprawny (heap w) z = true) ->
  exists l,
    posortowane_wg_terminu (m, w) = (Ok l, (m, w)) /\
    l ≡ₚ zadania m /\
    StronglySorted (nie_pozniej (klucz_zadania (heap w))) l /\
    (forall d,
       List.filter (rowny_klucz (klucz_zadania (heap w)) d) l
       = List.filter (rowny_klucz (klucz_zadania (heap w)) d) (zadania m)) /\
    (forall (i j : nat) (a b : ref),
       l !! i = Some a -> l !! j = Some b ->
       brak_terminu (heap w) a = true ->
       date_ltb (klucz_zadania (heap w) b) date_max = true ->
       (j < i)%nat).
Proof.
  intros H. set (klucz := klucz_zadania (heap w)).
  exists (sortuj_wg klucz [] (zadania m)).
  assert (Hsorted : StronglySorted (nie_pozniej klucz)
                      (sortuj_wg klucz [] (zadania m)))
    by (apply sortuj_wg_sorted; constructor).
  split; [|split; [|split; [|split]]].
  - unfold posortowane_wg_terminu, mbind at 1, get_self. simpl.
    unfold mbind at 1. rewrite klucze_ok by done.
    unfold mbind at 1, lift at 1. fold klucz.
    change (sortuj [] (map (z_kluczem klucz) (zadania m)))
      with (sortuj (map (z_kluczem klucz) []) (map (z_kluczem klucz) (zadania m))).
    rewrite sortuj_ok. unfold mret.
    rewrite map_map. simpl. by rewrite map_id.
  - apply (sortuj_wg_perm klucz (zadania m) []).
  - done.
  - intros d. by rewrite sortuj_wg_filter by constructor.
  - intros i j a b Hi Hj Ha Hb.
    destruct (Nat.lt_ge_cases j i) as [|Hle]; [done|exfalso].
    assert (Hka : klucz a = date_max).
    { unfold klucz, klucz_zadania. unfold brak_terminu in Ha.
      destruct (heap w !! a) as [o|]; [|done].
      by destruct (assoc_get "termin_wykonaia" (dict o)) as [[| | |]|]. }
    apply date_ltb_lt in Hb.
    destruct (decide (i = j)) as [->|Hne].
    + rewrite Hi in Hj. simplify_eq. fold klucz in Hb. rewrite Hka in Hb. lia.
    + assert (Hab : nie_pozniej klucz a b)
        by (eapply (StronglySorted_lookup _ _ Hsorted i j); [lia|done..]).
      unfold nie_pozniej in Hab. rewrite Hka in Hab.
      apply date_leb_le in Hab. fold klucz in Hb. lia.
Qed.

Lemma posortowane_wg_terminu_stabilne_witness :
  let a := Zadanie_init KZadanie (VStr "a") (VStr "") VNone [] in
  let b := Zadanie_init KZadanie (VStr "b") (VStr "") (VDate (Date 2025 5 15)) [] in
  let c := Zadanie_init KZadanie (VStr "c") (VStr "") (VDate (Date 2025 5 15)) [] in
  let m := Manager "/a/b" [0; 1; 2]%nat in
  let w := Swiat [a; b; c] [] in
  exists l,
    posortowane_wg_terminu (m, w) = (Ok l, (m, w)) /\
    l ≡ₚ [0; 1; 2]%nat /\
    StronglySorted (nie_pozniej (klucz_zadania [a; b; c])) l /\
    (forall d,
       List.filter (rowny_klucz (klucz_zadania [a; b; c]) d) l
       = List.filter (rowny_klucz (klucz_zadania [a; b; c]) d) [0; 1; 2]%nat) /\
    (forall (i j : nat) (x y : ref),
       l !! i = Some x -> l !! j = Some y ->
       brak_terminu [a; b; c] x = true ->
       date_ltb (klucz_zadania [a; b; c] y) date_max = true ->
       (j < i)%nat).
Proof.
  intros a b c m w.
  apply (posortowane_wg_terminu_stabilne m w).
  intros z Hz. simpl in Hz.
  repeat (apply elem_of_cons in Hz as [->|Hz]; [reflexivity|]).
  by apply elem_of_nil in Hz.
Defined.

(** C6 as stated fails: the first task has no due date, the second is due on
    9999-12-31; both have the same key, so the listing keeps the task
    without due date before the task that has one. *)
Lemma posortowane_bez_terminu_counterexample :
  let a := Zadanie_init KZadanie (VStr "a") (VStr "") VNone [] in
  let b := Zadanie_init KZadanie (VStr "b") (VStr "") (VDate (Date 9999 12 31)) [] in
  let s := (Manager "/a/b" [0; 1]%nat, Swiat [a; b] []) in
  getattr a "termin_wykonaia" = Ok VNone /\
  getattr b "termin_wykonaia" = Ok (VDate (Date 9999 12 31)) /\
  date_valid (Date 9999 12 31) = true /\
  posortowane_wg_terminu s = (Ok [0; 1]%nat, s).
Proof. by vm_compute. Qed.

(** ** Strings: splitting what was joined *)

Lemma append_cons (c : ascii) (s t : string) :
  String c s +:+ t = String c (s +:+ t).
Proof. reflexivity. Qed.

Lemma append_nil_l (t : string) : "" +:+ t = t.
Proof. reflexivity. Qed.

Lemma append_nil_r (s : string) : s +:+ "" = s.
Proof.
  induction s as [|c s IH]; [done|]. by rewrite append_cons, IH.
Qed.

Lemma append_assoc (a b c : string) : (a +:+ b) +:+ c = a +:+ (b +:+ c).
Proof.
  induction a as [|x a IH]; [done|]. by rewrite !append_cons, IH.
Qed.

Lemma contains_app (c : ascii) (a b : string) :
  contains c (a +:+ b) = contains c a || contains c b.
Proof.
  induction a as [|x a IH]; [done|].
  rewrite append_cons. simpl. by rewrite IH, orb_assoc.
Qed.

Lemma split_on_nonempty (c : ascii) (s : string) : split_on c s ≠ [].
Proof.
  destruct s as [|a s]; simpl; [done|].
  destruct (Ascii.eqb a c); [done|]. by destruct (split_on c s).
Qed.

Lemma split_on_clean (c : ascii) (s : string) :
  contains c s = false -> split_on c s = [s].
Proof.
  induction s as [|a s IH]; simpl; [done|].
  intros [H1 H2]%orb_false_elim. rewrite H1. by rewrite IH.
Qed.

Lemma split_on_app (c : ascii) (a b : string) :
  contains c a = false ->
  split_on c (a +:+ String c b) = a :: split_on c b.
Proof.
  induction a as [|x a IH]; rewrite ?append_cons, ?append_nil_l; simpl.
  - intros _. by rewrite Ascii.eqb_refl.
  - intros [H1 H2]%orb_false_elim. rewrite H1. by rewrite IH.
Qed.

Lemma join_cons2 (sep p q : string) (ps : list string) :
  join sep (p :: q :: ps) = p +:+ sep +:+ join sep (q :: ps).
Proof. reflexivity. Qed.

Lemma split_on_join (c : ascii) (parts : list string) :
  parts ≠ [] ->
  Forall (fun p => contains c p = false) parts ->
  split_on c (join (String c "") parts) = parts.
Proof.
  intros Hne H. induction H as [|p ps Hp Hps IH]; [done|].
  destruct ps as [|q ps].
  - simpl. by apply split_on_clean.
  - rewrite join_cons2, append_cons, append_nil_l.
    rewrite split_on_app by done. by rewrite IH.
Qed.

Lemma split_first_app (c : ascii) (k v : string) :
  contains c k = false ->
  split_first c (k +:+ String c v) = inr (k, v).
Proof.
  induction k as [|x k IH]; rewrite ?append_cons, ?append_nil_l; simpl.
  - intros _. by rewrite Ascii.eqb_refl.
  - intros [H1 H2]%orb_false_elim. rewrite H1. by rewrite IH.
Qed.

Lemma join_snoc (sep : string) (xs : list string) (y : string) :
  xs ≠ [] -> join sep (xs ++ [y]) = join sep xs +:+ sep +:+ y.
Proof.
  induction xs as [|x xs IH]; [done|]. intros _.
  destruct xs as [|x' xs]; [done|].
  change ((x :: x' :: xs) ++ [y]) with (x :: ((x' :: xs) ++ [y])).
  change ((x' :: xs) ++ [y]) with (x' :: (xs ++ [y])) at 1.
  rewrite join_cons2.
  change (x' :: (xs ++ [y])) with ((x' :: xs) ++ [y]).
  rewrite IH by done. rewrite join_cons2.
  by rewrite !append_assoc.
Qed.

Lemma rstrip_app (a b : string) :
  rstrip b ≠ "" -> rstrip (a +:+ b) = a +:+ rstrip b.
Proof.
  intros Hb. induction a as [|x a IH]; [done|].
  rewrite !append_cons. simpl. rewrite IH.
  destruct (a +:+ rstrip b) eqn:E; [|done].
  destruct a; [by rewrite append_nil_l in E | by rewrite append_cons in E].
Qed.

Lemma readlines_line (l rest : string) :
  contains LF l = false ->
  contains CR l = false ->
  readlines (l +:+ String LF rest) = (l +:+ String LF "") :: readlines rest.
Proof.
  induction l as [|c l IH]; rewrite ?append_cons, ?append_nil_l; simpl;
    [done|].
  intros [H1 H2]%orb_false_elim [H3 H4]%orb_false_elim.
  rewrite H1, H3. by rewrite IH.
Qed.

Lemma readlines_concat (ls : list string) :
  Forall (fun l => contains LF l = false /\ contains CR l = false) ls ->
  readlines (fold_right (fun l acc => l +:+ String LF acc) "" ls)
  = map (fun l => l +:+ String LF "") ls.
Proof.
  induction 1 as [|l ls [H1 H2] _ IH]; simpl; [done|].
  by rewrite readlines_line, IH.
Qed.

(** ** Dates: parsing what was printed *)

Lemma digit_val_char (n : Z) :
  0 <= n <= 9 -> digit_val (digit_char n) = Some n.
Proof.
  intros H. replace n with (Z.of_nat (Z.to_nat n)) by lia.
  assert (Hn : (Z.to_nat n <= 9)%nat) by lia.
  revert Hn. generalize (Z.to_nat n). intros k Hk.
  do 10 (destruct k as [|k]; [reflexivity|]). lia.
Qed.

Lemma parse_month_pad (m : Z) (rest : string) :
  1 <= m <= 12 ->
  parse_month (String (digit_char (m / 10)) (String (digit_char (m mod 10)) rest))
  = Some (m, rest).
Proof.
  intros H. replace m with (Z.of_nat (Z.to_nat m)) by lia.
  assert (Hn : (1 <= Z.to_nat m <= 12)%nat) by lia.
  revert Hn. generalize (Z.to_nat m). intros k Hk.
  destruct k as [|k]; [lia|].
  do 12 (destruct k as [|k]; [reflexivity|]). lia.
Qed.

Lemma parse_day_pad (d : Z) :
  1 <= d <= 31 ->
  parse_day (String (digit_char (d / 10)) (String (digit_char (d mod 10)) ""))
  = Some (d, "").
Proof.
  intros H. replace d with (Z.of_nat (Z.to_nat d)) by lia.
  assert (Hn : (1 <= Z.to_nat d <= 31)%nat) by lia.
  revert Hn. generalize (Z.to_nat d). intros k Hk.
  destruct k as [|k]; [lia|].
  do 31 (destruct k as [|k]; [reflexivity|]). lia.
Qed.

Lemma date_valid_bounds (d : date) :
  date_valid d = true ->
  1 <= year d <= 9999 /\ 1 <= month d <= 12 /\ 1 <= day d <= 31.
Proof.
  intros H. pose proof (date_valid_le_max d H) as Hmax.
  unfold date_valid in H. rewrite !andb_true_iff, !Z.leb_le in H.
  destruct H as [[[[[? ?] ?] ?] ?] Hd].
  assert (days_in_month (year d) (month d) <= 31).
  { unfold days_in_month.
    destruct (month d) as [|[[[[]|[]|]|[[]|[]|]|]|[[[]|[]|]|[[]|[]|]|]|]|];
      try lia; destruct (is_leap (year d)); lia. }
  lia.
Qed.

(** A date of the calendar reads back from its own text. *)
Lemma strptime_date_str (d : date) :
  date_valid d = true -> strptime_Ymd (date_str d) = Some d.
Proof.
  intros Hv. destruct (date_valid_bounds d Hv) as (Hy & Hm & Hd).
  destruct d as [y m dd]. cbn [year month day] in Hy, Hm, Hd.
  unfold strptime_Ymd, date_str. cbn [year month day].
  rewrite !digit_val_char by (Z.div_mod_to_equations; lia).
  change (Ascii.eqb "-" "-") with true. cbv iota.
  rewrite parse_month_pad by done.
  change (Ascii.eqb "-" "-") with true. cbv iota.
  rewrite parse_day_pad by done.
  replace (1000 * (y / 1000) + 100 * (y / 100 mod 10) + 10 * (y / 10 mod 10)
           + y mod 10) with y by (Z.div_mod_to_equations; lia).
  by rewrite Hv.
Qed.

(** ** Attribute names without repetition *)

Lemma mem_string_true (k : string) (l : list string) :
  mem_string k l = true <-> k ∈ l.
Proof.
  unfold mem_string. rewrite existsb_exists. split.
  - intros (x & Hin & Heq). apply String.eqb_eq in Heq. subst.
    by apply list_elem_of_In.
  - intros Hin. exists k. split; [by apply list_elem_of_In | apply String.eqb_refl].
Qed.

Lemma mem_string_false (k : string) (l : list string) :
  mem_string k l = false <-> k ∉ l.
Proof. rewrite <- mem_string_true. by destruct (mem_string k l). Qed.

Lemma bez_powtorzen_NoDup (l : list string) :
  bez_powtorzen l = true <-> NoDup l.
Proof.
  induction l as [|k l IH]; simpl.
  - split; [constructor | done].
  - rewrite andb_true_iff, negb_true_iff, mem_string_false, IH, NoDup_cons.
    done.
Qed.

Section AssocKlucze.
Context {V : Type}.
Implicit Types (d : list (string * V)) (k : string) (v : V).

Lemma assoc_get_None d k : assoc_get k d = None <-> k ∉ map fst d.
Proof.
  induction d as [|[k' v'] d IH]; simpl.
  - split; [intros _; apply not_elem_of_nil | done].
  - rewrite not_elem_of_cons. destruct (String.eqb_spec k' k) as [->|Hne].
    + split; [done | by intros [? _]].
    + rewrite IH. split; [by intros ?; split | by intros [_ ?]].
Qed.

Lemma assoc_get_Some_elem d k v :
  assoc_get k d = Some v -> (k, v) ∈ d.
Proof.
  induction d as [|[k' v'] d IH]; simpl; [done|].
  destruct (String.eqb_spec k' k) as [->|Hne].
  - intros [= ->]. apply list_elem_of_here.
  - intros H. apply list_elem_of_further. by apply IH.
Qed.

Lemma assoc_set_fresh d k v :
  k ∉ map fst d -> assoc_set k v d = d ++ [(k, v)].
Proof.
  induction d as [|[k' v'] d IH]; simpl; [done|].
  rewrite not_elem_of_cons. intros [Hne Hd].
  destruct (String.eqb_spec k' k); [congruence|]. by rewrite IH.
Qed.

Lemma assoc_get_rev d k :
  NoDup (map fst d) -> assoc_get k (rev d) = assoc_get k d.
Proof.
  induction d as [|[k' v'] d IH]; simpl; [done|].
  rewrite NoDup_cons. intros [Hk Hd].
  rewrite assoc_get_app, IH by done. simpl.
  destruct (String.eqb_spec k' k) as [->|Hne].
  - apply assoc_get_None in Hk. by rewrite Hk.
  - by destruct (assoc_get k d).
Qed.

Lemma assoc_get_filter (P : string -> bool) d k :
  assoc_get k (List.filter (fun kv => P (fst kv)) d)
  = if P k then assoc_get k d else None.
Proof.
  induction d as [|[k' v'] d IH]; simpl; [by destruct (P k)|].
  destruct (P k') eqn:E; simpl.
  - destruct (String.eqb_spec k' k) as [->|Hne]; [by rewrite E | done].
  - rewrite IH. destruct (String.eqb_spec k' k) as [->|Hne]; [by rewrite E | done].
Qed.

Lemma NoDup_keys_filter (P : string * V -> bool) d :
  NoDup (map fst d) -> NoDup (map fst (List.filter P d)).
Proof.
  induction d as [|[k' v'] d IH]; simpl; [done|].
  rewrite NoDup_cons. intros [Hk Hd].
  destruct (P (k', v')); simpl; [|by apply IH].
  apply NoDup_cons. split; [|by apply IH].
  intros Hin. apply Hk.
  apply list_elem_of_fmap in Hin as ([k0 v0] & -> & Hin).
  apply list_elem_of_fmap. exists (k0, v0). split; [done|].
  apply list_elem_of_In in Hin. apply filter_In in Hin as [Hin _].
  by apply list_elem_of_In.
Qed.
End AssocKlucze.

(** ** One line, written and read back *)

Lemma czysty_spec (s : string) :
  czysty s = true ->
  contains ";" s = false /\ contains "=" s = false /\
  contains LF s = false /\ contains CR s = false.
Proof.
  unfold czysty. rewrite !andb_true_iff, !negb_true_iff. tauto.
Qed.

Lemma wartosc_z_tekstu_py_str (v : value) :
  wartosc_zapisywalna v = true -> wartosc_z_tekstu (py_str v) = v.
Proof.
  destruct v as [|[]|s|]; try done. simpl. unfold wartosc_z_tekstu.
  rewrite !andb_true_iff, !negb_true_iff. by intros [[_ ->] ->].
Qed.

Lemma py_str_czysty (c : ascii) (v : value) :
  (c = ";" \/ c = LF \/ c = CR)%char ->
  wartosc_zapisywalna v = true -> contains c (py_str v) = false.
Proof.
  intros Hc. destruct v as [|[]|s|]; try done.
  - by destruct Hc as [->|[->| ->]].
  - by destruct Hc as [->|[->| ->]].
  - simpl. rewrite !andb_true_iff. intros [[Hs _] _].
    apply czysty_spec in Hs. destruct Hs as (? & ? & ? & ?).
    by destruct Hc as [->|[->| ->]].
Qed.

Lemma pole_linii_czyste (c : ascii) (kv : string * value) :
  (c = ";" \/ c = LF \/ c = CR)%char ->
  klucz_zapisywalny (fst kv) = true ->
  wartosc_zapisywalna (snd kv) = true ->
  contains c (pole_linii kv) = false.
Proof.
  intros Hc Hk Hv. unfold pole_linii.
  rewrite !contains_app, (py_str_czysty c) by done.
  unfold klucz_zapisywalny in Hk. apply andb_true_iff in Hk as [Hk _].
  apply czysty_spec in Hk. destruct Hk as (Hk1 & _ & Hk2 & Hk3).
  by destruct Hc as [->|[->| ->]]; rewrite ?Hk1, ?Hk2, ?Hk3.
Qed.

Lemma czytaj_pary_pola (kvs acc : list (string * value)) :
  Forall (fun kv => klucz_zapisywalny (fst kv) = true /\
                    wartosc_zapisywalna (snd kv) = true) kvs ->
  NoDup (map fst (acc ++ kvs)) ->
  czytaj_pary (map pole_linii kvs) acc = Ok (acc ++ kvs).
Proof.
  intros H. revert acc. induction H as [|[k v] kvs [Hk Hv] _ IH]; intros acc Hnd.
  - simpl. by rewrite app_nil_r.
  - simpl in *. unfold pole_linii at 1. simpl.
    assert (Heq : contains "=" k = false).
    { unfold klucz_zapisywalny in Hk. apply andb_true_iff in Hk as [Hk _].
      by apply czysty_spec in Hk as (_ & ? & _). }
    change ("=" +:+ py_str v) with (String "=" (py_str v)).
    rewrite split_first_app by done.
    rewrite wartosc_z_tekstu_py_str by done.
    assert (Hfresh : k ∉ map fst acc).
    { rewrite map_app in Hnd. simpl in Hnd.
      apply NoDup_app in Hnd as (_ & Hd & _).
      intros Hin. apply (Hd k Hin). apply list_elem_of_here. }
    rewrite assoc_set_fresh by done.
    rewrite IH.
    + by rewrite <- app_assoc.
    + by rewrite <- app_assoc.
Qed.

Lemma nazwa_klasy_Z (k : klasa) : exists n, nazwa_klasy k = String "Z" n.
Proof. destruct k; eexists; reflexivity. Qed.

Lemma nazwa_klasy_czysta (c : ascii) (k : klasa) :
  (c = ";" \/ c = LF \/ c = CR)%char -> contains c (nazwa_klasy k) = false.
Proof. intros [->|[->| ->]]; by destruct k. Qed.

Lemma klasa_z_nazwy (k : klasa) :
  (if String.eqb (nazwa_klasy k) "ZadaniePiorytetowe" then KZadaniePiorytetowe
   else if String.eqb (nazwa_klasy k) "ZadanieRegularne" then KZadanieRegularne
   else KZadanie) = k.
Proof. by destruct k. Qed.

Lemma date_str_czysty (c : ascii) (d : date) :
  (c = ";" \/ c = LF \/ c = CR)%char -> contains c (date_str d) = false.
Proof.
  assert (Hd : forall n, Ascii.eqb (digit_char n) c = false \/
                         ~ (c = ";" \/ c = LF \/ c = CR)%char).
  { intros n. unfold digit_char.
    destruct (Ascii.eqb_spec "0" c) as [<-|]; [right; by intros [|[|]]|].
    destruct (Ascii.eqb_spec "1" c) as [<-|]; [right; by intros [|[|]]|].
    destruct (Ascii.eqb_spec "2" c) as [<-|]; [right; by intros [|[|]]|].
    destruct (Ascii.eqb_spec "3" c) as [<-|]; [right; by intros [|[|]]|].
    destruct (Ascii.eqb_spec "4" c) as [<-|]; [right; by intros [|[|]]|].
    destruct (Ascii.eqb_spec "5" c) as [<-|]; [right; by intros [|[|]]|].
    destruct (Ascii.eqb_spec "6" c) as [<-|]; [right; by intros [|[|]]|].
    destruct (Ascii.eqb_spec "7" c) as [<-|]; [right; by intros [|[|]]|].
    destruct (Ascii.eqb_spec "8" c) as [<-|]; [right; by intros [|[|]]|].
    destruct (Ascii.eqb_spec "9" c) as [<-|]; [right; by intros [|[|]]|].
    left. repeat case_match; by apply Ascii.eqb_neq. }
  intros Hc.
  assert (Hd' : forall n, Ascii.eqb (digit_char n) c = false)
    by (intros n; by destruct (Hd n)).
  unfold date_str. simpl. rewrite !Hd'.
  by destruct Hc as [->|[->| ->]].
Qed.

Lemma contains_join (c : ascii) (sep : string) (parts : list string) :
  contains c sep = false ->
  Forall (fun p => contains c p = false) parts ->
  contains c (join sep parts) = false.
Proof.
  intros Hsep. induction 1 as [|p ps Hp Hps IH]; [done|].
  destruct ps as [|q ps]; [done|].
  rewrite join_cons2, !contains_app, Hp, Hsep. by rewrite IH.
Qed.

#[local] Arguments String.eqb : simpl never.

(** The attributes [wczytaj_z_pliku] reads from the line of a task. *)
Lemma attrs_get (o : obiekt) (b : bool) (k : string) :
  assoc_get "wykonane" (dict o) = Some (VBool b) ->
  assoc_get k (extras o ++ [("wykonane", VBool b)])
  = if mem_string k ["tytul"; "opis"; "termin_wykonaia"] then None
    else assoc_get k (dict o).
Proof.
  intros Hw. rewrite assoc_get_app. unfold extras.
  rewrite (assoc_get_filter (fun k => negb (mem_string k rdzen))).
  unfold mem_string. simpl.
  destruct (String.eqb_spec k "tytul") as [->|]; [done|].
  destruct (String.eqb_spec k "opis") as [->|]; [done|].
  destruct (String.eqb_spec k "termin_wykonaia") as [->|]; [done|].
  destruct (String.eqb_spec k "wykonane") as [->|]; simpl.
  - by rewrite Hw.
  - destruct (assoc_get k (dict o)); [done|].
    by destruct (String.eqb_spec "wykonane" k).
Qed.

Lemma zapisywalne_inv (o : obiekt) :
  zapisywalne o = true ->
  exists t d dt b,
    NoDup (map fst (dict o)) /\
    assoc_get "tytul" (dict o) = Some (VStr t) /\
    assoc_get "opis" (dict o) = Some (VStr d) /\
    assoc_get "termin_wykonaia" (dict o) = Some (VDate dt) /\
    assoc_get "wykonane" (dict o) = Some (VBool b) /\
    czysty t = true /\ czysty d = true /\ date_valid dt = true /\
    Forall (fun kv => klucz_zapisywalny (fst kv) = true /\
                      wartosc_zapisywalna (snd kv) = true)
           (extras o ++ [("wykonane", VBool b)]) /\
    match typ o with
    | KZadanie => True
    | KZadaniePiorytetowe => exists v, assoc_get "priorytet" (dict o) = Some v
    | KZadanieRegularne => exists v, assoc_get "powtarzalnosc" (dict o) = Some v
    end.
Proof.
  unfold zapisywalne. rewrite !andb_true_iff.
  intros [[[Hnd Hcore] Hex] Hcls].
  destruct (assoc_get "tytul" (dict o)) as [[| |t|]|]; try done.
  destruct (assoc_get "opis" (dict o)) as [[| |d|]|]; try done.
  destruct (assoc_get "termin_wykonaia" (dict o)) as [[| | |dt]|]; try done.
  destruct (assoc_get "wykonane" (dict o)) as [[|b| |]|]; try done.
  rewrite !andb_true_iff in Hcore. destruct Hcore as [[Ht Hd] Hdt].
  exists t, d, dt, b. apply bez_powtorzen_NoDup in Hnd.
  repeat (split; [done|]). split.
  - apply Forall_app. split.
    + apply Forall_forall. intros kv Hkv.
      rewrite forallb_forall in Hex. apply andb_true_iff, Hex.
      by apply list_elem_of_In.
    + by repeat constructor.
  - destruct (typ o); [done|..]; unfold assoc_has in Hcls.
    + destruct (assoc_get "priorytet" (dict o)); [by eexists | done].
    + destruct (assoc_get "powtarzalnosc" (dict o)); [by eexists | done].
Qed.

Lemma attrs_NoDup (o : obiekt) (b : bool) :
  NoDup (map fst (dict o)) ->
  NoDup (map fst (extras o ++ [("wykonane", VBool b)])).
Proof.
  intros Hnd. rewrite map_app. apply NoDup_app. split; [|split].
  - by apply NoDup_keys_filter.
  - intros k Hk [->|Hin]%elem_of_cons; [|by apply elem_of_nil in Hin].
    apply assoc_get_None in Hk; [done|]. unfold extras.
    by rewrite (assoc_get_filter (fun k => negb (mem_string k rdzen))).
  - apply NoDup_singleton.
Qed.

Lemma zajete_brak (attrs : list (string * value)) :
  Forall (fun kv => klucz_zapisywalny (fst kv) = true /\
                    wartosc_zapisywalna (snd kv) = true) attrs ->
  existsb (fun kv => mem_string (fst kv) zajete_nazwy) attrs = false.
Proof.
  induction 1 as [|kv attrs [Hk _] _ IH]; [done|].
  cbn [existsb]. rewrite IH. unfold klucz_zapisywalny in Hk.
  apply andb_true_iff in Hk as [_ Hk]. apply negb_true_iff in Hk.
  by rewrite Hk.
Qed.

Lemma wywolaj_get (k : klasa) (tytul opis : value) (dt : date)
    (attrs : list (string * value)) (z : obiekt) :
  NoDup (map fst attrs) ->
  wywolaj k tytul opis (VDate dt) attrs = Ok z ->
  typ z = k /\
  forall key,
    assoc_get key (dict z)
    = let F := match assoc_get key attrs with
               | Some v => Some v
               | None =>
                   assoc_get key
                     [("tytul", tytul); ("opis", opis);
                      ("termin_wykonaia", VDate dt); ("wykonane", VBool false)]
               end in
      match k with
      | KZadanie => F
      | KZadaniePiorytetowe =>
          if String.eqb "priorytet" key
          then Some (match assoc_get "priorytet" attrs with
                     | Some v => v
                     | None => domyslny_priorytet
                     end)
          else F
      | KZadanieRegularne =>
          if String.eqb "powtarzalnosc" key
          then Some (match assoc_get "powtarzalnosc" attrs with
                     | Some v => v
                     | None => domyslna_powtarzalnosc
                     end)
          else F
      end.
Proof.
  intros Hnd. unfold wywolaj.
  destruct (existsb _ attrs); [done|].
  assert (Hlast : forall key, assoc_last key attrs = assoc_get key attrs)
    by (intros key; by apply assoc_get_rev).
  destruct k; intros [= <-]; (split; [done|]); intros key;
    cbn [dict Zadanie_init podklasa_init setattr typ].
  - by rewrite assoc_get_update, Hlast.
  - rewrite assoc_get_set.
    destruct (String.eqb_spec "priorytet" key) as [<-|Hne]; [done|].
    by rewrite assoc_get_update, assoc_last_remove_ne, Hlast.
  - rewrite assoc_get_set.
    destruct (String.eqb_spec "powtarzalnosc" key) as [<-|Hne]; [done|].
    by rewrite assoc_get_update, assoc_last_remove_ne, Hlast.
Qed.

(** The line of a task that can be written decodes to a task with the same
    class and the same attributes. *)
Lemma linia_wraca (o : obiekt) :
  zapisywalne o = true ->
  exists l o',
    linia_zadania o = Ok l /\
    contains LF l = false /\ contains CR l = false /\
    dekoduj_linie (l +:+ String LF "") = Ok o' /\
    te_same_atrybuty o o'.
Proof.
  intros Hz.
  destruct (zapisywalne_inv o Hz)
    as (t & d & dt & b & Hnd & Ht & Hd & Hdt & Hw & Hct & Hcd & Hv & Hattrs & Hcls).
  set (attrs := extras o ++ [("wykonane", VBool b)]) in *.
  set (parts := [nazwa_klasy (typ o); t; d; date_str dt] ++ map pole_linii attrs).
  assert (Hline : linia_zadania o = Ok (join ";" parts)).
  { unfold linia_zadania, getattr. rewrite Ht, Hd, Hdt, Hw. simpl.
    unfold parts, attrs. by rewrite map_app. }
  assert (Hclean : forall c, (c = ";" \/ c = LF \/ c = CR)%char ->
                     Forall (fun p => contains c p = false) parts).
  { intros c Hc. unfold parts. apply Forall_app. split.
    - apply czysty_spec in Hct as (? & _ & ? & ?).
      apply czysty_spec in Hcd as (? & _ & ? & ?).
      repeat constructor.
      + by apply nazwa_klasy_czysta.
      + by destruct Hc as [->|[->| ->]].
      + by destruct Hc as [->|[->| ->]].
      + by apply date_str_czysty.
    - apply Forall_fmap. eapply Forall_impl; [exact Hattrs|].
      intros kv [Hk Hval]. by apply pole_linii_czyste. }
  assert (Hattrs_nd : NoDup (map fst attrs)) by by apply attrs_NoDup.
  (* the class the constructor is called for, and its result *)
  destruct (wywolaj (typ o) (VStr t) (VStr d) (VDate dt) attrs) as [z|e] eqn:Hcall;
    [|unfold wywolaj in Hcall; rewrite zajete_brak in Hcall by done;
      by destruct (typ o)].
  destruct (wywolaj_get _ _ _ _ _ _ Hattrs_nd Hcall) as [Htyp Hget].
  assert (Hsame : forall key, assoc_get key (dict z) = assoc_get key (dict o)).
  { intros key. rewrite Hget. unfold attrs. rewrite !attrs_get by done.
    cbn zeta.
    assert (HF : match (if mem_string key ["tytul"; "opis"; "termin_wykonaia"]
                        then None else assoc_get key (dict o)) with
                 | Some v => Some v
                 | None =>
                     assoc_get key
                       [("tytul", VStr t); ("opis", VStr d);
                        ("termin_wykonaia", VDate dt); ("wykonane", VBool false)]
                 end = assoc_get key (dict o)).
    { unfold mem_string. cbn [existsb assoc_get].
      destruct (String.eqb_spec key "tytul") as [->|]; [done|].
      destruct (String.eqb_spec key "opis") as [->|]; [done|].
      destruct (String.eqb_spec key "termin_wykonaia") as [->|]; [done|].
      cbn [orb].
      destruct (assoc_get key (dict o)) eqn:E; [done|].
      destruct (String.eqb_spec "tytul" key); [congruence|].
      destruct (String.eqb_spec "opis" key); [congruence|].
      destruct (String.eqb_spec "termin_wykonaia" key); [congruence|].
      destruct (String.eqb_spec "wykonane" key) as [<-|]; [congruence|done]. }
    destruct (typ o); [done|..].
    - destruct (String.eqb_spec "priorytet" key) as [<-|]; [|done].
      destruct Hcls as [v Hp]. by rewrite Hp.
    - destruct (String.eqb_spec "powtarzalnosc" key) as [<-|]; [|done].
      destruct Hcls as [v Hp]. by rewrite Hp. }
  exists (join ";" parts),
         (if b then setattr z "wykonane" (VBool true) else z).
  split; [done|].
  split; [apply contains_join; [done | apply Hclean; tauto]|].
  split; [apply contains_join; [done | apply Hclean; tauto]|].
  split.
  - (* decoding *)
    assert (Hstrip : strip (join ";" parts +:+ String LF "") = join ";" parts).
    { destruct (nazwa_klasy_Z (typ o)) as [n Hn].
      unfold strip.
      assert (Hl : lstrip (join ";" parts +:+ String LF "")
                   = join ";" parts +:+ String LF "").
      { unfold parts. cbn [app]. rewrite join_cons2, Hn, !append_cons.
        reflexivity. }
      rewrite Hl. clear Hl.
      unfold parts, attrs. rewrite map_app, !app_assoc. cbn [map].
      rewrite join_snoc by (by cbn [app]).
      rewrite !append_assoc. rewrite rstrip_app.
      - f_equal. by destruct b.
      - by destruct b. }
    unfold dekoduj_linie. rewrite Hstrip.
    rewrite split_on_join; [|done|by apply Hclean; left].
    unfold parts at 1. cbn [app].
    rewrite (czytaj_pary_pola attrs []) by done. cbn [app rbind].
    rewrite strptime_date_str by done. cbn [of_option rbind].
    rewrite klasa_z_nazwy, Hcall. cbn [rbind].
    unfold attrs at 1. rewrite attrs_get by done.
    cbn [mem_string existsb]. rewrite Hw.
    by destruct b.
  - split.
    + by destruct b.
    + intros key. destruct b; [|done].
      rewrite setattr_id; [done|]. by rewrite Hsame.
Qed.

(** ** Saving, then loading into a fresh manager *)

Lemma zapisz_petla (m : ManagerZadan) (h : sterta) (path : string)
    (zs : list ref) (linie : list string) :
  Forall2 (fun z l => exists o, h !! z = Some o /\ linia_zadania o = Ok l)
          zs linie ->
  forall (fs : list (string * string)) (c0 : string),
    assoc_get (normpath path) fs = Some c0 ->
    mfor zs (fun z =>
      o <- deref z ;; l <- lift (linia_zadania o) ;;
      write path (l +:+ String LF ""))%M (m, Swiat h fs)
    = (Ok tt,
       (m, Swiat h (assoc_set (normpath path)
                      (c0 +:+ fold_right (fun l acc => l +:+ String LF acc) "" linie)
                      fs))).
Proof.
  induction 1 as [|z l zs linie (o & Ho & Hl) _ IH]; intros fs c0 Hc0.
  - cbn [mfor fold_right]. unfold mret.
    by rewrite append_nil_r, assoc_set_id.
  - cbn [mfor fold_right].
    unfold mbind at 1. unfold mbind at 1, deref at 1. cbn [heap snd].
    rewrite Ho. cbn [of_option].
    unfold mbind at 1, lift at 1. rewrite Hl.
    unfold write at 1. cbn [heap files snd fst]. rewrite Hc0.
    rewrite (IH _ (c0 +:+ l +:+ String LF "")) by apply assoc_get_set_eq.
    rewrite assoc_set_set.
    do 4 f_equal.
    by rewrite !append_assoc, append_cons, append_nil_l.
Qed.

Lemma zadania_wracaja (h : sterta) (zs : list ref) :
  (forall z, z ∈ zs -> exists o, h !! z = Some o /\ zapisywalne o = true) ->
  exists (linie : list string) (objs : list obiekt),
    Forall2 (fun z l => exists o, h !! z = Some o /\ linia_zadania o = Ok l)
            zs linie /\
    Forall (fun l => contains LF l = false /\ contains CR l = false) linie /\
    Forall2 (fun line o' => dekoduj_linie line = Ok o')
            (map (fun l => l +:+ String LF "") linie) objs /\
    Forall2 (fun z o' => exists o, h !! z = Some o /\ te_same_atrybuty o o')
            zs objs.
Proof.
  induction zs as [|z zs IH]; intros H.
  - exists [], []. by repeat split; constructor.
  - destruct IH as (linie & objs & H1 & H2 & H3 & H4).
    { intros z' Hz'. apply H. by apply list_elem_of_further. }
    destruct (H z) as (o & Ho & Hz); [apply list_elem_of_here|].
    destruct (linia_wraca o Hz) as (l & o' & Hl & Hlf & Hcr & Hdek & Hsame).
    exists (l :: linie), (o' :: objs).
    split; [constructor; [by exists o | done]|].
    split; [by constructor|].
    split; [by constructor|].
    constructor; [by exists o | done].
Qed.

(** C1, as the code has it: when the name passes the guard and every task
    of the manager can be written (each has a due date; title, description,
    the names of the extras and their text values have no [;], no [=] and no
    line terminator; no extra is named like a positional parameter of the
    constructors; no text value is [True] or [False]; the done flag is a
    boolean), [zapisz_do_pliku] succeeds without touching a task, and
    [wczytaj_z_pliku] with the same name into a fresh manager of the same
    directory succeeds and holds, in the same order, one new task for each
    original one, of the same class and with the same value under every
    attribute name: title, description, due date, done flag and every
    extra, booleans as booleans and texts as texts. *)
Theorem zapis_i_odczyt (m : ManagerZadan) (w : swiat) (nazwa full_path : string) :
  sprawdz_sciezke (save_dir m) nazwa = Ok full_path ->
  (forall z, z ∈ zadania m ->
     exists o, heap w !! z = Some o /\ zapisywalne o = true) ->
  exists w1 w2 nowe,
    zapisz_do_pliku nazwa (m, w) = (Ok tt, (m, w1)) /\
    heap w1 = heap w /\
    wczytaj_z_pliku nazwa (Manager (save_dir m) [], w1)
    = (Ok tt, (Manager (save_dir m) nowe, w2)) /\
    Forall2 (fun z z' =>
               exists o o', heap w !! z = Some o /\ heap w2 !! z' = Some o' /\
                            te_same_atrybuty o o')
            (zadania m) nowe.
Proof.
  intros Hp Hz. destruct m as [dir zs], w as [h fs]. cbn [save_dir zadania heap] in *.
  destruct (zadania_wracaja h zs Hz) as (linie & objs & H1 & H2 & H3 & H4).
  set (tresc := fold_right (fun l acc => l +:+ String LF acc) "" linie).
  set (fs1 := assoc_set (normpath full_path) tresc fs).
  exists (Swiat h fs1), (Swiat (h ++ objs) fs1), (seq (length h) (length objs)).
  split; [|split; [done|split]].
  - unfold zapisz_do_pliku, mbind at 1, get_self. cbn [fst save_dir zadania].
    unfold mbind at 1, lift at 1. rewrite Hp.
    unfold mbind at 1, open_w at 1. cbn [fst snd heap files].
    rewrite (zapisz_petla _ _ _ _ linie H1 _ "") by apply assoc_get_set_eq.
    by rewrite assoc_set_set, append_nil_l.
  - unfold wczytaj_z_pliku, mbind at 1, get_self.
    cbn [fst save_dir zadania].
    unfold mbind at 1, lift at 1. rewrite Hp.
    unfold mbind at 1, open_r at 1. cbn [snd files].
    unfold fs1 at 1. rewrite assoc_get_set_eq. cbn [of_option].
    unfold tresc. rewrite readlines_concat by done.
    by rewrite (wczytaj_petla dir fs1 _ objs H3 [] h).
  - cbn [heap]. apply Forall2_same_length_lookup. split.
    + rewrite length_seq. by eapply Forall2_length.
    + intros i z z' Hi Hseq.
      apply lookup_seq in Hseq as [-> Hlt].
      destruct (lookup_lt_is_Some_2 objs i Hlt) as [o' Ho'].
      destruct (Forall2_lookup_lr _ _ _ _ _ _ H4 Hi Ho') as (o & Ho & Hsame).
      exists o, o'. split; [done|]. split; [|done].
      rewrite lookup_app_r by lia.
      by replace (length h + i - length h)%nat with i by lia.
Qed.

Lemma zapis_i_odczyt_witness :
  let a := Zadanie_init KZadanie (VStr "Kup mleko") (VStr "")
             (VDate (Date 2025 5 16)) [("kategoria", VStr "Dom")] in
  let b := podklasa_init KZadaniePiorytetowe "priorytet" domyslny_priorytet
             (VStr "Przygotuj raport") (VStr "Raport kwartalny")
             (VDate (Date 2025 5 15))
             [("priorytet", VStr "Wysoki"); ("pilne", VBool true)] in
  let c := podklasa_init KZadanieRegularne "powtarzalnosc" domyslna_powtarzalnosc
             (VStr "Podlej kwiaty") (VStr "balkon")
             (VDate (Date 2025 5 17)) [] in
  let m := Manager "/a/b" [0; 1; 2]%nat in
  let w := Swiat [a; b; setattr c "wykonane" (VBool true)] [] in
  exists w1 w2 nowe,
    zapisz_do_pliku "zadania.txt" (m, w) = (Ok tt, (m, w1)) /\
    heap w1 = heap w /\
    wczytaj_z_pliku "zadania.txt" (Manager "/a/b" [], w1)
    = (Ok tt, (Manager "/a/b" nowe, w2)) /\
    Forall2 (fun z z' =>
               exists o o', heap w !! z = Some o /\ heap w2 !! z' = Some o' /\
                            te_same_atrybuty o o')
            [0; 1; 2]%nat nowe.
Proof.
  intros a b c m w.
  apply (zapis_i_odczyt m w "zadania.txt" "/a/b/zadania.txt" eq_refl).
  intros z Hz. cbn [zadania m] in Hz.
  apply elem_of_cons in Hz as [->|Hz]; [by eexists|].
  apply elem_of_cons in Hz as [->|Hz]; [by eexists|].
  apply elem_of_cons in Hz as [->|Hz]; [by eexists|].
  by apply elem_of_nil in Hz.
Defined.

(** C1 as stated fails: the manager holds one task of each class, with a mix
    of extras, and no value contains [;] or [=]; the first task has the text
    [True] as an extra, the second has no due date.  Saving succeeds and
    writes [None] as the date of the second task.  Loading that file into a
    fresh manager raises [ValueError] at the second line: the fresh manager
    holds one task instead of three, and in that task the extra that was the
    text [True] is the boolean. *)
Lemma zapis_i_odczyt_bez_terminu_counterexample :
  let a := Zadanie_init KZadanie (VStr "Kup mleko") (VStr "")
             (VDate (Date 2025 5 16))
             [("kategoria", VStr "Dom"); ("pilne", VStr "True")] in
  let b := podklasa_init KZadaniePiorytetowe "priorytet" domyslny_priorytet
             (VStr "Przygotuj raport") (VStr "Raport kwartalny") VNone
             [("priorytet", VStr "Wysoki")] in
  let c := podklasa_init KZadanieRegularne "powtarzalnosc" domyslna_powtarzalnosc
             (VStr "Podlej kwiaty") (VStr "balkon")
             (VDate (Date 2025 5 17)) [] in
  let m := Manager "/a/b" [0; 1; 2]%nat in
  let w := Swiat [a; b; c] [] in
  let po_zapisie := zapisz_do_pliku "zadania.txt" (m, w) in
  let po_odczycie :=
    wczytaj_z_pliku "zadania.txt"
      (ManagerZadan_init "/a/b" None, snd (snd po_zapisie)) in
  fst po_zapisie = Ok tt /\
  fst po_odczycie = Raise ValueError /\
  zadania (fst (snd po_odczycie)) = [3%nat] /\
  getattr a "pilne" = Ok (VStr "True") /\
  (o' <- of_option AttributeError (heap (snd (snd po_odczycie)) !! 3%nat) ;;
   getattr o' "pilne")%result = Ok (VBool true).
Proof. by vm_compute. Qed.

(** What the other conditions of [zapisywalne] are for: a text extra that
    reads [True] comes back as the boolean; a title with a line terminator
    breaks its line in two, and the second piece is no record. *)
Lemma tekst_True_wraca_jako_bool :
  let a := Zadanie_init KZadanie (VStr "a") (VStr "") (VDate (Date 2025 5 15))
             [("pilne", VStr "True")] in
  (l <- linia_zadania a ;; o' <- dekoduj_linie (l +:+ String LF "") ;;
   getattr o' "pilne")%result = Ok (VBool true).
Proof. by vm_compute. Qed.

Lemma tytul_z_koncem_linii :
  let a := Zadanie_init KZadanie (VStr (String "a" (String LF "b"))) (VStr "")
             (VDate (Date 2025 5 15)) [] in
  let m := Manager "/a/b" [0%nat] in
  let po_zapisie := zapisz_do_pliku "zadania.txt" (m, Swiat [a] []) in
  fst po_zapisie = Ok tt /\
  fst (wczytaj_z_pliku "zadania.txt"
         (ManagerZadan_init "/a/b" None, snd (snd po_zapisie))) = Raise IndexError.
Proof. by vm_compute. Qed.

(** * Further properties *)

(** ** Instances stay as built *)

Lemma assoc_set_NoDup {V : Type} (d : list (string * V)) (k : string) (v : V) :
  NoDup (map fst d) -> NoDup (map fst (assoc_set k v d)).
Proof.
  intros Hnd. destruct (assoc_get k d) as [v'|] eqn:E.
  - by rewrite (assoc_set_keys d k v v').
  - apply assoc_get_None in E. rewrite assoc_set_fresh by done.
    rewrite map_app. apply NoDup_app. split; [done|]. split.
    + intros k' Hk' [->|Hin]%elem_of_cons; [done|by apply elem_of_nil in Hin].
    + apply NoDup_singleton.
Qed.

Lemma assoc_has_set {V : Type} (d : list (string * V)) (k k' : string) (v : V) :
  assoc_has k' (assoc_set k v d) = String.eqb k k' || assoc_has k' d.
Proof.
  unfold assoc_has. rewrite assoc_get_set.
  by destruct (String.eqb k k').
Qed.

Lemma zbudowany_spec (o : obiekt) :
  zbudowany o = true <->
  NoDup (map fst (dict o)) /\
  (forall k, k ∈ rdzen -> assoc_has k (dict o) = true) /\
  match typ o with
  | KZadanie => True
  | KZadaniePiorytetowe => assoc_has "priorytet" (dict o) = true
  | KZadanieRegularne => assoc_has "powtarzalnosc" (dict o) = true
  end.
Proof.
  unfold zbudowany. rewrite !andb_true_iff, bez_powtorzen_NoDup, forallb_forall.
  split.
  - intros [[H1 H2] H3]. split; [done|]. split.
    + intros k Hk. apply H2. by apply list_elem_of_In.
    + by destruct (typ o).
  - intros (H1 & H2 & H3). split; [split; [done|]|].
    + intros k Hk. apply H2. by apply list_elem_of_In.
    + by destruct (typ o).
Qed.

Lemma setattr_zbudowany (o : obiekt) (k : string) (v : value) :
  zbudowany o = true -> zbudowany (setattr o k v) = true.
Proof.
  rewrite !zbudowany_spec. intros (H1 & H2 & H3). cbn [setattr dict typ].
  split; [by apply assoc_set_NoDup|]. split.
  - intros k' Hk'. rewrite assoc_has_set, (H2 k' Hk'). apply orb_true_r.
  - destruct (typ o); [done|..]; rewrite assoc_has_set, H3; apply orb_true_r.
Qed.

Lemma assoc_update_zbudowany (t : klasa) (kwargs d : list (string * value)) :
  zbudowany (Obiekt t d) = true ->
  zbudowany (Obiekt t (assoc_update d kwargs)) = true.
Proof.
  unfold assoc_update. revert d.
  induction kwargs as [|[k v] kwargs IH]; intros d Hd; [done|].
  cbn [fold_left fst snd]. apply IH.
  by apply (setattr_zbudowany (Obiekt t d)).
Qed.

Lemma Zadanie_init_zbudowany (tytul opis termin : value)
    (kwargs : list (string * value)) :
  zbudowany (Zadanie_init KZadanie tytul opis termin kwargs) = true.
Proof. unfold Zadanie_init. by apply assoc_update_zbudowany. Qed.

Lemma wywolaj_zbudowany (k : klasa) (tytul opis termin : value)
    (attrs : list (string * value)) (z : obiekt) :
  wywolaj k tytul opis termin attrs = Ok z ->
  zbudowany z = true /\ typ z = k.
Proof.
  unfold wywolaj. destruct (existsb _ attrs); [done|].
  assert (Hbase : forall kw, NoDup (map fst (dict (Zadanie_init k tytul opis termin kw)))
                  /\ forall key, key ∈ rdzen ->
                       assoc_has key (dict (Zadanie_init k tytul opis termin kw)) = true).
  { intros kw.
    pose proof (Zadanie_init_zbudowany tytul opis termin kw) as H.
    apply zbudowany_spec in H as (H1 & H2 & _). by split. }
  destruct k; intros [= <-]; (split; [|done]).
  - apply Zadanie_init_zbudowany.
  - apply zbudowany_spec. unfold podklasa_init. cbn [setattr dict typ].
    destruct (Hbase (assoc_remove "priorytet" attrs)) as [H1 H2].
    split; [by apply assoc_set_NoDup|]. split.
    + intros key Hkey. rewrite assoc_has_set, (H2 key Hkey). apply orb_true_r.
    + unfold assoc_has. by rewrite assoc_get_set_eq.
  - apply zbudowany_spec. unfold podklasa_init. cbn [setattr dict typ].
    destruct (Hbase (assoc_remove "powtarzalnosc" attrs)) as [H1 H2].
    split; [by apply assoc_set_NoDup|]. split.
    + intros key Hkey. rewrite assoc_has_set, (H2 key Hkey). apply orb_true_r.
    + unfold assoc_has. by rewrite assoc_get_set_eq.
Qed.

Lemma dekoduj_linie_zbudowany (line : string) (z : obiekt) :
  dekoduj_linie line = Ok z -> zbudowany z = true.
Proof.
  unfold dekoduj_linie.
  destruct (split_on ";" (strip line)) as [|typ [|tytul [|opis [|termin pary]]]];
    try done.
  destruct (czytaj_pary pary []) as [attrs|]; [|done]. cbn [rbind].
  destruct (strptime_Ymd termin) as [d|]; [|done]. cbn [of_option rbind].
  destruct (wywolaj _ _ _ _ attrs) as [zad|] eqn:E; [|done]. cbn [rbind].
  apply wywolaj_zbudowany in E as [E _].
  intros [= <-].
  destruct (assoc_get "wykonane" attrs) as [w|]; [|done].
  destruct (truthy w); [by apply setattr_zbudowany | done].
Qed.

Lemma zachowuje_mret {A : Type} (a : A) : zachowuje (mret a).
Proof. by intros s Hs. Qed.

Lemma zachowuje_lift {A : Type} (r : result A) : zachowuje (lift r).
Proof. by intros s Hs. Qed.

Lemma zachowuje_bind {A B : Type} (c : M A) (f : A -> M B) :
  zachowuje c -> (forall a, zachowuje (f a)) -> zachowuje (mbind c f).
Proof.
  intros Hc Hf s Hs. unfold mbind. specialize (Hc s Hs).
  destruct (c s) as [[a|e] s']; [by apply Hf | done].
Qed.

Lemma zachowuje_bind_lift {A B : Type} (r : result A) (f : A -> M B) :
  (forall a, r = Ok a -> zachowuje (f a)) -> zachowuje (mbind (lift r) f).
Proof.
  intros Hf s Hs. unfold mbind, lift.
  destruct r as [a|e]; [by apply Hf | done].
Qed.

Lemma zachowuje_mmap {A B : Type} (f : A -> M B) (l : list A) :
  (forall x, zachowuje (f x)) -> zachowuje (mmap f l).
Proof.
  intros Hf. induction l as [|x l IH]; [by intros s Hs|].
  cbn [mmap]. apply zachowuje_bind; [done|]. intros y.
  apply zachowuje_bind; [done|]. intros ys. apply zachowuje_mret.
Qed.

Lemma zachowuje_mfor {A : Type} (body : A -> M unit) (l : list A) :
  (forall x, zachowuje (body x)) -> zachowuje (mfor l body).
Proof.
  intros Hb. induction l as [|x l IH]; [by intros s Hs|].
  cbn [mfor]. by apply zachowuje_bind.
Qed.

Lemma zachowuje_get_self : zachowuje get_self.
Proof. by intros s Hs. Qed.

Lemma zachowuje_deref (r : ref) : zachowuje (deref r).
Proof. by intros s Hs. Qed.

Lemma zachowuje_open_r (path : string) : zachowuje (open_r path).
Proof. by intros s Hs. Qed.

Lemma zachowuje_open_w (path : string) : zachowuje (open_w path).
Proof. by intros s Hs. Qed.

Lemma zachowuje_write (path text : string) : zachowuje (write path text).
Proof. by intros s Hs. Qed.

Lemma zachowuje_ustaw (r : ref) (k : string) (v : value) :
  zachowuje (ustaw r k v).
Proof.
  intros [m [h f]] [H1 H2]. unfold ustaw. cbn [fst snd heap files] in *.
  destruct (h !! r) as [o|] eqn:E; [|done]. cbn [snd fst heap].
  split; cbn [fst snd heap zadania].
  - apply Forall_insert; [done|].
    apply setattr_zbudowany. rewrite Forall_forall in H1. apply H1.
    by eapply list_elem_of_lookup_2.
  - by rewrite length_insert.
Qed.

Lemma zachowuje_alloc_dolacz (o : obiekt) :
  zbudowany o = true -> zachowuje (mbind (alloc o) dolacz).
Proof.
  intros Ho [m [h f]] [H1 H2]. unfold mbind, alloc, dolacz.
  cbn [fst snd heap files zadania save_dir] in *.
  split; cbn [fst snd heap zadania].
  - apply Forall_app. split; [done | by constructor].
  - rewrite length_app. cbn [length]. apply Forall_app. split.
    + eapply Forall_impl; [exact H2|]. intros z Hz. cbn beta in *. lia.
    + constructor; [lia | constructor].
Qed.

Lemma zachowuje_pierwszy_o_tytule (tytul : value) (l : list ref) :
  zachowuje (pierwszy_o_tytule tytul l).
Proof.
  induction l as [|z l IH]; [by intros s Hs|].
  cbn [pierwszy_o_tytule].
  apply zachowuje_bind; [apply zachowuje_deref|]. intros o.
  apply zachowuje_bind; [apply zachowuje_lift|]. intros t.
  destruct (value_eqb t tytul); [apply zachowuje_mret | done].
Qed.

Lemma zachowuje_cel (zadanie : option ref) (tytul : value) :
  zachowuje (cel zadanie tytul).
Proof.
  destruct zadanie as [z|]; [apply zachowuje_mret|].
  unfold cel. apply zachowuje_bind; [apply zachowuje_get_self|].
  intros m. apply zachowuje_pierwszy_o_tytule.
Qed.

Lemma Forall_usun_pierwszy (P : ref -> Prop) (r : ref) (l : list ref) :
  Forall P l -> Forall P (usun_pierwszy r l).
Proof.
  induction 1 as [|x l Hx Hl IH]; [done|]. cbn [usun_pierwszy].
  destruct (Nat.eqb x r); [done | by constructor].
Qed.

(** X1: every method of the manager keeps the state well formed, whether it
    returns or raises: afterwards each instance still has distinct
    attribute names, its four core attributes and the attribute of its
    subclass, and each task of the manager is still a live reference. *)
Theorem metody_zachowuja_stan_ok (s : stan) :
  stan_ok s ->
  (forall tytul opis termin typ kwargs,
     stan_ok (snd (dodaj_zadanie None tytul opis termin typ kwargs s))) /\
  (forall z tytul opis termin typ kwargs,
     (z < length (heap (snd s)))%nat ->
     stan_ok (snd (dodaj_zadanie (Some z) tytul opis termin typ kwargs s))) /\
  (forall zadanie tytul, stan_ok (snd (usun_zadanie zadanie tytul s))) /\
  (forall zadanie tytul, stan_ok (snd (oznacz_jako_wykonane zadanie tytul s))) /\
  (forall z nt no nd kwargs, stan_ok (snd (edytuj_zadanie z nt no nd kwargs s))) /\
  (forall nazwa, stan_ok (snd (zapisz_do_pliku nazwa s))) /\
  (forall nazwa, stan_ok (snd (wczytaj_z_pliku nazwa s))).
Proof.
  intros Hs. split_and!.
  - intros tytul opis termin typ kwargs. revert s Hs.
    unfold dodaj_zadanie.
    intros s Hs.
    destruct (wywolaj (if String.eqb typ "priorytet" then KZadaniePiorytetowe
                       else if String.eqb typ "regular" then KZadanieRegularne
                       else KZadanie)
                tytul (if truthy opis then opis else VStr "") termin kwargs)
      as [o|e] eqn:E.
    + apply wywolaj_zbudowany in E as [Ho _].
      exact (zachowuje_alloc_dolacz o Ho s Hs).
    + exact Hs.
  - intros z tytul opis termin typ kwargs Hz.
    destruct s as [m [h f]], Hs as [H1 H2].
    unfold dodaj_zadanie, mbind, mret, dolacz.
    cbn [fst snd heap zadania save_dir] in *. split; [done|].
    cbn [fst snd heap zadania]. apply Forall_app. split; [done|].
    by constructor.
  - intros zadanie tytul. revert s Hs. unfold usun_zadanie.
    apply zachowuje_bind; [apply zachowuje_cel|]. intros target.
    apply zachowuje_bind; [apply zachowuje_get_self|]. intros m.
    destruct target as [t|]; [|apply zachowuje_mret].
    destruct (nalezy t (zadania m)); [|apply zachowuje_mret].
    intros [m' [h f]] [H1 H2]. split; [done|].
    cbn [fst snd heap zadania] in *. by apply Forall_usun_pierwszy.
  - intros zadanie tytul. revert s Hs. unfold oznacz_jako_wykonane.
    apply zachowuje_bind; [apply zachowuje_cel|]. intros target.
    destruct target as [t|]; [apply zachowuje_ustaw | apply zachowuje_mret].
  - intros z nt no nd kwargs. revert s Hs. unfold edytuj_zadanie.
    apply zachowuje_bind; [apply zachowuje_get_self|]. intros m.
    destruct (nalezy z (zadania m)); [|apply zachowuje_mret].
    apply zachowuje_bind;
      [destruct (truthy nt); [apply zachowuje_ustaw | apply zachowuje_mret]|].
    intros _. apply zachowuje_bind;
      [destruct (truthy no); [apply zachowuje_ustaw | apply zachowuje_mret]|].
    intros _. apply zachowuje_bind;
      [destruct (truthy nd); [apply zachowuje_ustaw | apply zachowuje_mret]|].
    intros _. apply zachowuje_mfor. intros kv. apply zachowuje_ustaw.
  - intros nazwa. revert s Hs. unfold zapisz_do_pliku.
    apply zachowuje_bind; [apply zachowuje_get_self|]. intros m.
    apply zachowuje_bind; [apply zachowuje_lift|]. intros full_path.
    apply zachowuje_bind; [apply zachowuje_open_w|]. intros _.
    apply zachowuje_mfor. intros z.
    apply zachowuje_bind; [apply zachowuje_deref|]. intros o.
    apply zachowuje_bind; [apply zachowuje_lift|]. intros l.
    apply zachowuje_write.
  - intros nazwa. revert s Hs. unfold wczytaj_z_pliku.
    apply zachowuje_bind; [apply zachowuje_get_self|]. intros m.
    apply zachowuje_bind; [apply zachowuje_lift|]. intros full_path.
    apply zachowuje_bind; [apply zachowuje_open_r|]. intros tresc.
    apply zachowuje_mfor. intros line.
    apply zachowuje_bind_lift. intros zad Hzad.
    apply zachowuje_alloc_dolacz. by eapply dekoduj_linie_zbudowany.
Qed.

Lemma metody_zachowuja_stan_ok_witness :
  let o := Zadanie_init KZadanie (VStr "a") (VStr "") VNone [] in
  let s := (Manager "/a/b" [0%nat],
            Swiat [o] [("/a/b/z.txt", "ZadanieRegularne;c;d;2025-05-16;x=1;wykonane=True")]) in
  stan_ok (snd (edytuj_zadanie 0%nat (VStr "b") VNone VNone [("priorytet", VBool true)] s)) /\
  stan_ok (snd (wczytaj_z_pliku "z.txt" s)).
Proof.
  intros o s.
  assert (Hs : stan_ok s).
  { split; cbn [s fst snd heap zadania].
    - by repeat constructor.
    - repeat constructor. }
  destruct (metody_zachowuja_stan_ok s Hs) as (_ & _ & _ & _ & He & _ & Hw).
  split; [apply He | apply Hw].
Defined.

(** ** Removing and adding tasks *)

Lemma usun_pierwszy_split (z : ref) (l : list ref) :
  z ∈ l ->
  exists l1 l2, l = (l1 ++ z :: l2) /\ (z ∉ l1) /\ usun_pierwszy z l = l1 ++ l2.
Proof.
  induction l as [|x l IH]; [by intros ?%elem_of_nil|].
  intros Hin. cbn [usun_pierwszy].
  destruct (Nat.eqb_spec x z) as [->|Hne].
  - exists [], l. split; [done|]. split; [apply not_elem_of_nil | done].
  - apply elem_of_cons in Hin as [->|Hin]; [done|].
    destruct (IH Hin) as (l1 & l2 & -> & Hn & Heq).
    exists (x :: l1), l2. split; [done|]. split.
    + rewrite not_elem_of_cons. split; [congruence | done].
    + by rewrite Heq.
Qed.

Lemma usun_pierwszy_middle (z : ref) (l1 l2 : list ref) :
  z ∉ l1 -> usun_pierwszy z (l1 ++ z :: l2) = l1 ++ l2.
Proof.
  induction l1 as [|x l1 IH]; cbn [app usun_pierwszy].
  - intros _. by rewrite Nat.eqb_refl.
  - rewrite not_elem_of_cons. intros [Hne Hn].
    destruct (Nat.eqb_spec x z); [congruence|]. by rewrite IH.
Qed.

Lemma usun_zadanie_obiekt_run (m : ManagerZadan) (w : swiat) (z : ref)
    (tytul : value) :
  usun_zadanie (Some z) tytul (m, w)
  = (Ok tt,
     (if nalezy z (zadania m)
      then Manager (save_dir m) (usun_pierwszy z (zadania m)) else m, w)).
Proof.
  unfold usun_zadanie, cel, mbind, mret, get_self. cbn [fst snd].
  by destruct (nalezy z (zadania m)).
Qed.

(** X2: [usun_zadanie] given a task of the collection removes its first
    occurrence and nothing else: the tasks before and after it keep their
    order, and no instance and no file changes. *)
Theorem usun_zadanie_obiekt (m : ManagerZadan) (w : swiat) (z : ref)
    (tytul : value) :
  z ∈ zadania m ->
  exists l1 l2,
    zadania m = (l1 ++ z :: l2) /\ (z ∉ l1) /\
    usun_zadanie (Some z) tytul (m, w)
    = (Ok tt, (Manager (save_dir m) (l1 ++ l2), w)).
Proof.
  intros Hin. destruct (usun_pierwszy_split z _ Hin) as (l1 & l2 & H1 & H2 & H3).
  exists l1, l2. split; [done|]. split; [done|].
  rewrite usun_zadanie_obiekt_run.
  apply nalezy_spec in Hin. by rewrite Hin, H3.
Qed.

Lemma usun_zadanie_obiekt_witness :
  exists l1 l2,
    [1; 0; 2; 0]%nat = (l1 ++ 0%nat :: l2) /\ (0%nat ∉ l1) /\
    usun_zadanie (Some 0%nat) VNone (Manager "/a/b" [1; 0; 2; 0]%nat, Swiat [] [])
    = (Ok tt, (Manager "/a/b" (l1 ++ l2), Swiat [] [])).
Proof.
  apply (usun_zadanie_obiekt (Manager "/a/b" [1; 0; 2; 0]%nat) (Swiat [] [])
           0%nat VNone).
  cbn [zadania]. apply list_elem_of_further, list_elem_of_here.
Defined.

(** X3: [usun_zadanie] given a task that is not in the collection changes
    nothing and raises nothing (the membership test that
    [oznacz_jako_wykonane] lacks). *)
Theorem usun_zadanie_spoza_kolekcji (m : ManagerZadan) (w : swiat) (z : ref)
    (tytul : value) :
  z ∉ zadania m ->
  usun_zadanie (Some z) tytul (m, w) = (Ok tt, (m, w)).
Proof.
  intros Hn. rewrite usun_zadanie_obiekt_run. by rewrite nalezy_false.
Qed.

Lemma usun_zadanie_spoza_kolekcji_witness :
  usun_zadanie (Some 5%nat) VNone (Manager "/a/b" [1; 0]%nat, Swiat [] [])
  = (Ok tt, (Manager "/a/b" [1; 0]%nat, Swiat [] [])).
Proof.
  apply usun_zadanie_spoza_kolekcji. cbn [zadania].
  intros H. repeat (apply elem_of_cons in H as [H|H]; [discriminate H|]).
  by apply elem_of_nil in H.
Defined.

(** The search by title: the first task whose title equals the one asked
    for, when every task before it has another title. *)
Lemma pierwszy_o_tytule_znajduje (tytul : value) (l1 l2 : list ref) (z : ref)
    (s : stan) :
  Forall (fun x => ma_jakis_tytul (heap (snd s)) x = true /\
                   ma_tytul (heap (snd s)) tytul x = false) l1 ->
  ma_tytul (heap (snd s)) tytul z = true ->
  pierwszy_o_tytule tytul (l1 ++ z :: l2) s = (Ok (Some z), s).
Proof.
  intros H1 Hz. induction H1 as [|x l1 [Hx1 Hx2] _ IH]; cbn [app pierwszy_o_tytule].
  - unfold ma_tytul in Hz. unfold mbind, deref, lift, getattr.
    destruct (heap (snd s) !! z) as [o|]; [|done]. cbn [of_option].
    destruct (assoc_get "tytul" (dict o)) as [t|]; [|done]. cbn [of_option].
    by rewrite Hz.
  - unfold ma_tytul in Hx2. unfold ma_jakis_tytul, assoc_has in Hx1.
    unfold mbind at 1. unfold mbind at 1, deref at 1, lift at 1, getattr at 1.
    destruct (heap (snd s) !! x) as [o|]; [|done]. cbn [of_option].
    destruct (assoc_get "tytul" (dict o)) as [t|]; [|done]. cbn [of_option].
    by rewrite Hx2.
Qed.

Lemma ma_tytul_rozne (h : sterta) (tytul : value) (l1 : list ref) (z : ref) :
  Forall (fun x => ma_jakis_tytul h x = true /\ ma_tytul h tytul x = false) l1 ->
  ma_tytul h tytul z = true -> z ∉ l1.
Proof.
  intros H Hz Hin. rewrite Forall_forall in H.
  destruct (H z Hin) as [_ Hf]. congruence.
Qed.

(** X4: [usun_zadanie] by title removes the first task with that title, and
    only that one: later tasks, also those with the same title, stay, in
    their order. *)
Theorem usun_zadanie_po_tytule (m : ManagerZadan) (w : swiat) (tytul : value)
    (l1 l2 : list ref) (z : ref) :
  zadania m = (l1 ++ z :: l2) ->
  Forall (fun x => ma_jakis_tytul (heap w) x = true /\
                   ma_tytul (heap w) tytul x = false) l1 ->
  ma_tytul (heap w) tytul z = true ->
  usun_zadanie None tytul (m, w) = (Ok tt, (Manager (save_dir m) (l1 ++ l2), w)).
Proof.
  intros Hm H1 Hz.
  unfold usun_zadanie, cel. unfold mbind at 1. unfold mbind at 1, get_self at 1.
  cbn [fst]. rewrite Hm.
  rewrite (pierwszy_o_tytule_znajduje tytul l1 l2 z (m, w)) by done.
  unfold mbind, get_self. cbn [fst snd]. rewrite Hm.
  assert (Hin : nalezy z (l1 ++ z :: l2) = true).
  { apply nalezy_spec, elem_of_app. right. apply list_elem_of_here. }
  rewrite Hin. cbv beta. cbn [fst snd]. rewrite Hm.
  rewrite usun_pierwszy_middle; [done|].
  by eapply ma_tytul_rozne.
Qed.

Lemma usun_zadanie_po_tytule_witness :
  let a := Zadanie_init KZadanie (VStr "a") (VStr "") VNone [] in
  let b := Zadanie_init KZadanie (VStr "b") (VStr "1") VNone [] in
  let b' := Zadanie_init KZadanie (VStr "b") (VStr "2") VNone [] in
  usun_zadanie None (VStr "b") (Manager "/a/b" [0; 1; 2]%nat, Swiat [a; b; b'] [])
  = (Ok tt, (Manager "/a/b" ([0%nat] ++ [2%nat]), Swiat [a; b; b'] [])).
Proof.
  intros a b b'.
  apply (usun_zadanie_po_tytule (Manager "/a/b" [0; 1; 2]%nat)
           (Swiat [a; b; b'] []) (VStr "b") [0%nat] [2%nat] 1%nat eq_refl).
  - by repeat constructor.
  - reflexivity.
Defined.

(** X5: [usun_zadanie] with a title that no task of the collection carries
    changes nothing and raises nothing. *)
Theorem usun_zadanie_nieznany_tytul (m : ManagerZadan) (w : swiat)
    (tytul : value) :
  Forall (fun x => ma_jakis_tytul (heap w) x = true /\
                   ma_tytul (heap w) tytul x = false) (zadania m) ->
  usun_zadanie None tytul (m, w) = (Ok tt, (m, w)).
Proof.
  intros H. unfold usun_zadanie, cel. unfold mbind at 1.
  unfold mbind at 1, get_self at 1. cbn [fst].
  rewrite pierwszy_o_tytule_brak; [done|].
  intros z Hz. rewrite Forall_forall in H. destruct (H z Hz) as [H1 H2].
  unfold ma_jakis_tytul, assoc_has in H1. unfold ma_tytul in H2.
  cbn [snd]. destruct (heap w !! z) as [o|] eqn:Eo; [|done].
  destruct (assoc_get "tytul" (dict o)) as [t|] eqn:Et; [|done].
  by exists o, t.
Qed.

Lemma usun_zadanie_nieznany_tytul_witness :
  let a := Zadanie_init KZadanie (VStr "a") (VStr "") VNone [] in
  usun_zadanie None (VStr "b") (Manager "/a/b" [0%nat], Swiat [a] [])
  = (Ok tt, (Manager "/a/b" [0%nat], Swiat [a] [])).
Proof.
  intros a. apply usun_zadanie_nieznany_tytul. by repeat constructor.
Defined.

(** X6: adding an instance that the collection does not hold and removing
    it again gives back the manager as it was; no instance and no file
    changes on the way. *)
Theorem dodaj_potem_usun (m : ManagerZadan) (w : swiat) (z : ref)
    (tytul opis termin tytul' : value) (typ : string)
    (kwargs : list (string * value)) :
  z ∉ zadania m ->
  (dodaj_zadanie (Some z) tytul opis termin typ kwargs ;;;
   usun_zadanie (Some z) tytul')%M (m, w)
  = (Ok tt, (m, w)).
Proof.
  intros Hn. unfold mbind at 1.
  unfold dodaj_zadanie, mbind at 1, mret, dolacz. cbn [fst snd].
  rewrite usun_zadanie_obiekt_run. cbn [zadania save_dir].
  assert (Hin : nalezy z (zadania m ++ [z]) = true).
  { apply nalezy_spec, elem_of_app. right. apply list_elem_of_here. }
  rewrite Hin, usun_pierwszy_middle, app_nil_r by done.
  by destruct m.
Qed.

Lemma dodaj_potem_usun_witness :
  (dodaj_zadanie (Some 2%nat) VNone VNone VNone "zwykle" [] ;;;
   usun_zadanie (Some 2%nat) VNone)%M (Manager "/a/b" [1; 0]%nat, Swiat [] [])
  = (Ok tt, (Manager "/a/b" [1; 0]%nat, Swiat [] [])).
Proof.
  apply dodaj_potem_usun. cbn [zadania].
  intros H. repeat (apply elem_of_cons in H as [H|H]; [discriminate H|]).
  by apply elem_of_nil in H.
Defined.

(** ** Marking by title, and marking twice *)

Lemma pierwszy_o_tytule_stan (tytul : value) (l : list ref) (s : stan) :
  snd (pierwszy_o_tytule tytul l s) = s.
Proof.
  induction l as [|z l IH]; [done|]. cbn [pierwszy_o_tytule].
  unfold mbind at 1. unfold mbind at 1, deref at 1.
  destruct (heap (snd s) !! z) as [o|]; [|done]. cbn [of_option].
  unfold lift at 1. destruct (getattr o "tytul") as [t|]; [|done].
  destruct (value_eqb t tytul); [done | apply IH].
Qed.

Lemma pierwszy_o_tytule_zywy (tytul : value) (l : list ref) (s : stan) (z : ref) :
  fst (pierwszy_o_tytule tytul l s) = Ok (Some z) ->
  z ∈ l /\ exists o, heap (snd s) !! z = Some o.
Proof.
  induction l as [|x l IH]; [done|]. cbn [pierwszy_o_tytule].
  unfold mbind at 1. unfold mbind at 1, deref at 1.
  destruct (heap (snd s) !! x) as [o|] eqn:Eo; [|done]. cbn [of_option].
  unfold lift at 1. destruct (getattr o "tytul") as [t|]; [|done].
  destruct (value_eqb t tytul).
  - intros [= <-]. split; [apply list_elem_of_here | by exists o].
  - intros H. destruct (IH H) as [Hin Ho].
    split; [by apply list_elem_of_further | done].
Qed.

(** The search by title reads only the titles. *)
Lemma pierwszy_o_tytule_tytuly (tytul : value) (l : list ref) (s s' : stan) :
  (forall z, match heap (snd s') !! z with
             | Some o => Some (assoc_get "tytul" (dict o))
             | None => None
             end
             = match heap (snd s) !! z with
               | Some o => Some (assoc_get "tytul" (dict o))
               | None => None
               end) ->
  fst (pierwszy_o_tytule tytul l s') = fst (pierwszy_o_tytule tytul l s).
Proof.
  intros Ht. induction l as [|x l IH]; [done|]. cbn [pierwszy_o_tytule].
  unfold mbind at 1 3. unfold mbind at 1 2, deref at 1 2.
  specialize (Ht x).
  destruct (heap (snd s) !! x) as [o|], (heap (snd s') !! x) as [o'|];
    try done; cbn [of_option].
  unfold lift at 1 2, getattr. injection Ht as ->.
  destruct (assoc_get "tytul" (dict o)) as [t|]; [|done]. cbn [of_option].
  destruct (value_eqb t tytul); [done | apply IH].
Qed.

(** X7: [oznacz_jako_wykonane] by title sets the done flag of the first
    task with that title to [True] and changes nothing else: the manager,
    every other instance (also later tasks of the same title) and the files
    stay as they were. *)
Theorem oznacz_jako_wykonane_po_tytule (m : ManagerZadan) (w : swiat)
    (tytul : value) (l1 l2 : list ref) (z : ref) (o : obiekt) :
  zadania m = (l1 ++ z :: l2) ->
  Forall (fun x => ma_jakis_tytul (heap w) x = true /\
                   ma_tytul (heap w) tytul x = false) l1 ->
  ma_tytul (heap w) tytul z = true ->
  heap w !! z = Some o ->
  oznacz_jako_wykonane None tytul (m, w)
  = (Ok tt, (m, Swiat (<[z := setattr o "wykonane" (VBool true)]> (heap w))
                      (files w))).
Proof.
  intros Hm H1 Hz Ho.
  unfold oznacz_jako_wykonane, cel. unfold mbind at 1.
  unfold mbind at 1, get_self at 1. cbn [fst]. rewrite Hm.
  rewrite (pierwszy_o_tytule_znajduje tytul l1 l2 z (m, w)) by done.
  destruct w as [h f]. by apply ustaw_run.
Qed.

Lemma oznacz_jako_wykonane_po_tytule_witness :
  let a := Zadanie_init KZadanie (VStr "a") (VStr "") VNone [] in
  let b := Zadanie_init KZadanie (VStr "b") (VStr "1") VNone [] in
  let b' := Zadanie_init KZadanie (VStr "b") (VStr "2") VNone [] in
  oznacz_jako_wykonane None (VStr "b")
    (Manager "/a/b" [0; 1; 2]%nat, Swiat [a; b; b'] [])
  = (Ok tt, (Manager "/a/b" [0; 1; 2]%nat,
             Swiat [a; setattr b "wykonane" (VBool true); b'] [])).
Proof.
  intros a b b'.
  apply (oznacz_jako_wykonane_po_tytule (Manager "/a/b" [0; 1; 2]%nat)
           (Swiat [a; b; b'] []) (VStr "b") [0%nat] [2%nat] 1%nat b eq_refl).
  - by repeat constructor.
  - reflexivity.
  - reflexivity.
Defined.

Lemma ustaw_dwa_razy (r : ref) (k : string) (v : value) (s : stan) :
  ustaw r k v (snd (ustaw r k v s)) = ustaw r k v s.
Proof.
  destruct s as [m [h f]]. unfold ustaw at 2 3. cbn [fst snd heap files].
  destruct (h !! r) as [o|] eqn:E.
  - cbn [snd]. rewrite (ustaw_run _ _ _ _ (setattr o k v)).
    + by rewrite list_insert_insert_eq, setattr_setattr.
    + apply list_lookup_insert_eq. by eapply lookup_lt_Some.
  - cbn [snd]. unfold ustaw. cbn [fst snd heap]. by rewrite E.
Qed.

(** X8: [oznacz_jako_wykonane] is idempotent, unlike [wykonany]: a second
    call with the same arguments gives the same result and leaves the state
    the first call left, whether the task is given or looked up by title,
    found or not, and also when the call raises. *)
Theorem oznacz_jako_wykonane_dwa_razy (zadanie : option ref) (tytul : value)
    (s : stan) :
  oznacz_jako_wykonane zadanie tytul (snd (oznacz_jako_wykonane zadanie tytul s))
  = oznacz_jako_wykonane zadanie tytul s.
Proof.
  destruct zadanie as [z|].
  - unfold oznacz_jako_wykonane, cel, mbind, mret. apply ustaw_dwa_razy.
  - unfold oznacz_jako_wykonane, cel.
    unfold mbind at 2 4. unfold mbind at 2 4, get_self.
    cbn [fst].
    pose proof (pierwszy_o_tytule_stan tytul (zadania (fst s)) s) as Hst.
    destruct (pierwszy_o_tytule tytul (zadania (fst s)) s) as [[[t|]|e] s0] eqn:E;
      cbn [snd] in Hst; subst s0.
    + (* found: the second search finds the same task *)
      assert (Hlive : exists o, heap (snd s) !! t = Some o).
      { eapply (pierwszy_o_tytule_zywy tytul (zadania (fst s)) s t). by rewrite E. }
      destruct Hlive as [o Ho]. destruct s as [m [h f]]. cbn [fst snd heap] in *.
      rewrite (ustaw_run _ _ _ _ o) by done. cbn [snd].
      unfold mbind at 1. unfold mbind at 1. cbn [fst].
      set (s' := (m, Swiat (<[t := setattr o "wykonane" (VBool true)]> h) f)).
      assert (Hfst : fst (pierwszy_o_tytule tytul (zadania m) s') = Ok (Some t)).
      { rewrite (pierwszy_o_tytule_tytuly tytul (zadania m) (m, Swiat h f) s').
        - by rewrite E.
        - intros z. cbn [s' snd heap].
          destruct (decide (t = z)) as [<-|Hne].
          + rewrite list_lookup_insert_eq by by eapply lookup_lt_Some.
            rewrite Ho. cbn [setattr dict]. by rewrite assoc_get_set_ne.
          + by rewrite list_lookup_insert_ne. }
      pose proof (pierwszy_o_tytule_stan tytul (zadania m) s') as Hst'.
      destruct (pierwszy_o_tytule tytul (zadania m) s') as [r' s0'].
      cbn [fst snd] in Hfst, Hst'. subst r' s0'.
      unfold s'. rewrite (ustaw_run _ _ _ _ (setattr o "wykonane" (VBool true))).
      * rewrite E, (ustaw_run _ _ _ _ o) by done.
        by rewrite list_insert_insert_eq, setattr_setattr.
      * apply list_lookup_insert_eq. by eapply lookup_lt_Some.
    + reflexivity.
    + reflexivity.
Qed.

(** ** What the file holds after saving, and after a failed save *)

Lemma mfor_app {A : Type} (body : A -> M unit) (l1 l2 : list A) (s : stan) :
  mfor (l1 ++ l2) body s
  = match mfor l1 body s with
    | (Ok _, s') => mfor l2 body s'
    | (Raise e, s') => (Raise e, s')
    end.
Proof.
  revert s. induction l1 as [|x l1 IH]; intros s; [done|].
  cbn [app mfor]. unfold mbind.
  destruct (body x s) as [[[]|e] s']; [apply IH | done].
Qed.

(** [zapisz_do_pliku] is [zapisz_do_pliku_os] on a file system that lets the
    target be opened. *)
Lemma zapisz_do_pliku_os_zgoda (odmowa : string -> option wyjatek)
    (nazwa : string) (s : stan) :
  (forall p, sprawdz_sciezke (save_dir (fst s)) nazwa = Ok p ->
             odmowa p = None) ->
  zapisz_do_pliku_os odmowa nazwa s = zapisz_do_pliku nazwa s.
Proof.
  intros H. unfold zapisz_do_pliku_os, zapisz_do_pliku, mbind at 1 3, get_self.
  cbn [fst]. unfold mbind at 1 4, lift at 1 3.
  destruct (sprawdz_sciezke (save_dir (fst s)) nazwa) as [p|e]; [|done].
  unfold mbind at 1 3, open_w_os at 1. by rewrite (H p eq_refl).
Qed.

(** X9: for a name that passes the guard.  When the file system refuses to
    open the target for writing, [zapisz_do_pliku] raises the error of
    [open] and nothing is created, truncated or changed.  When the target
    is opened and every task can be written, [zapisz_do_pliku] succeeds;
    the file it names then holds exactly the lines of the tasks, in order,
    whatever it held before; the manager, the instances and every other
    file are unchanged; and saving again changes nothing. *)
Theorem zapisz_do_pliku_nadpisuje (odmowa : string -> option wyjatek)
    (m : ManagerZadan) (w : swiat) (nazwa full_path : string) :
  sprawdz_sciezke (save_dir m) nazwa = Ok full_path ->
  (forall e, odmowa full_path = Some e ->
     zapisz_do_pliku_os odmowa nazwa (m, w) = (Raise e, (m, w))) /\
  (forall linie,
     odmowa full_path = None ->
     Forall2 (fun z l => exists o, heap w !! z = Some o /\
                                   linia_zadania o = Ok l)
             (zadania m) linie ->
     let tresc := fold_right (fun l acc => l +:+ String LF acc) "" linie in
     let w' := Swiat (heap w)
                 (assoc_set (normpath full_path) tresc (files w)) in
     zapisz_do_pliku_os odmowa nazwa (m, w) = (Ok tt, (m, w')) /\
     assoc_get (normpath full_path) (files w') = Some tresc /\
     (forall p, p ≠ normpath full_path ->
        assoc_get p (files w') = assoc_get p (files w)) /\
     zapisz_do_pliku_os odmowa nazwa (m, w') = (Ok tt, (m, w'))).
Proof.
  intros Hp. split.
  - intros e He. unfold zapisz_do_pliku_os, mbind at 1, get_self. cbn [fst].
    unfold mbind at 1, lift at 1. rewrite Hp.
    unfold mbind at 1, open_w_os at 1. by rewrite He.
  - intros linie Hn Hl tresc w'.
    assert (Hrun : forall fs,
              zapisz_do_pliku_os odmowa nazwa (m, Swiat (heap w) fs)
              = (Ok tt, (m, Swiat (heap w)
                              (assoc_set (normpath full_path) tresc fs)))).
    { intros fs. rewrite zapisz_do_pliku_os_zgoda.
      - unfold zapisz_do_pliku, mbind at 1, get_self. cbn [fst].
        unfold mbind at 1, lift at 1. rewrite Hp.
        unfold mbind at 1, open_w at 1. cbn [fst snd heap files].
        rewrite (zapisz_petla _ _ _ _ linie Hl _ "") by apply assoc_get_set_eq.
        by rewrite assoc_set_set, append_nil_l.
      - cbn [fst]. intros p Hp'. rewrite Hp in Hp'. by injection Hp' as <-. }
    split_and!.
    + destruct w as [h fs]. apply Hrun.
    + apply assoc_get_set_eq.
    + intros p Hne. cbn [w' files]. by rewrite assoc_get_set_ne.
    + unfold w'. rewrite Hrun. by rewrite assoc_set_set.
Qed.

Lemma zapisz_do_pliku_nadpisuje_witness :
  let a := Zadanie_init KZadanie (VStr "a") (VStr "") VNone [] in
  let w := Swiat [a] [("/a/b/z.txt", "stare"); ("/a/b/inne.txt", "x")] in
  let m := Manager "/a/b" [0%nat] in
  let tresc := "Zadanie;a;;None;wykonane=False" +:+ String LF "" in
  let w' := Swiat [a] [("/a/b/z.txt", tresc); ("/a/b/inne.txt", "x")] in
  let odmowa := fun p : string =>
    if String.eqb p "/a/b/sub/z.txt" then Some FileNotFoundError
    else if String.eqb p "/a/b/" then Some IsADirectoryError
    else None in
  (zapisz_do_pliku_os odmowa "z.txt" (m, w) = (Ok tt, (m, w')) /\
   zapisz_do_pliku_os odmowa "z.txt" (m, w') = (Ok tt, (m, w'))) /\
  zapisz_do_pliku_os odmowa "sub/z.txt" (m, w) = (Raise FileNotFoundError, (m, w)) /\
  zapisz_do_pliku_os odmowa "" (m, w) = (Raise IsADirectoryError, (m, w)).
Proof.
  intros a w m tresc w' odmowa.
  assert (Hl : Forall2 (fun z l => exists o, heap w !! z = Some o /\
                                             linia_zadania o = Ok l)
                 (zadania m) ["Zadanie;a;;None;wykonane=False"]).
  { repeat constructor. by exists a. }
  split_and!.
  - exact (proj1 (proj2 (zapisz_do_pliku_nadpisuje odmowa m w "z.txt"
                           "/a/b/z.txt" eq_refl) _ eq_refl Hl)).
  - exact (proj2 (proj2 (proj2 (proj2 (zapisz_do_pliku_nadpisuje odmowa m w
                           "z.txt" "/a/b/z.txt" eq_refl) _ eq_refl Hl)))).
  - exact (proj1 (zapisz_do_pliku_nadpisuje odmowa m w "sub/z.txt"
                    "/a/b/sub/z.txt" eq_refl) _ eq_refl).
  - exact (proj1 (zapisz_do_pliku_nadpisuje odmowa m w ""
                    "/a/b/" eq_refl) _ eq_refl).
Defined.

(** X10: when a task cannot be written, [zapisz_do_pliku] raises at that
    task, and the file is not what it was: it has been truncated and holds
    the lines of the tasks before the failing one.  Manager and instances
    are unchanged. *)
Theorem zapisz_do_pliku_przerwany (m : ManagerZadan) (w : swiat)
    (nazwa full_path : string) (l1 l2 : list ref) (z : ref) (o : obiekt)
    (linie : list string) (e : wyjatek) :
  sprawdz_sciezke (save_dir m) nazwa = Ok full_path ->
  zadania m = (l1 ++ z :: l2) ->
  Forall2 (fun x l => exists o, heap w !! x = Some o /\ linia_zadania o = Ok l)
          l1 linie ->
  heap w !! z = Some o ->
  linia_zadania o = Raise e ->
  zapisz_do_pliku nazwa (m, w)
  = (Raise e,
     (m, Swiat (heap w)
           (assoc_set (normpath full_path)
              (fold_right (fun l acc => l +:+ String LF acc) "" linie)
              (files w)))).
Proof.
  intros Hp Hm Hl Hz Ho. destruct w as [h fs]. cbn [heap files] in *.
  unfold zapisz_do_pliku, mbind at 1, get_self. cbn [fst].
  unfold mbind at 1, lift at 1. rewrite Hp.
  unfold mbind at 1, open_w at 1. cbn [fst snd heap files].
  rewrite Hm, mfor_app.
  rewrite (zapisz_petla _ _ _ _ linie Hl _ "") by apply assoc_get_set_eq.
  rewrite assoc_set_set, append_nil_l.
  cbn [mfor]. unfold mbind at 1. unfold mbind at 1, deref at 1.
  cbn [snd heap]. rewrite Hz. cbn [of_option].
  unfold mbind at 1, lift at 1. by rewrite Ho.
Qed.

Lemma zapisz_do_pliku_przerwany_witness :
  let a := Zadanie_init KZadanie (VStr "a") (VStr "") VNone [] in
  let b := Zadanie_init KZadanie VNone (VStr "") VNone [] in
  zapisz_do_pliku "z.txt"
    (Manager "/a/b" [0; 1; 0]%nat, Swiat [a; b] [("/a/b/z.txt", "stare")])
  = (Raise TypeError,
     (Manager "/a/b" [0; 1; 0]%nat,
      Swiat [a; b]
        [("/a/b/z.txt", "Zadanie;a;;None;wykonane=False" +:+ String LF "")])).
Proof.
  intros a b.
  apply (zapisz_do_pliku_przerwany (Manager "/a/b" [0; 1; 0]%nat)
           (Swiat [a; b] [("/a/b/z.txt", "stare")]) "z.txt" "/a/b/z.txt"
           [0%nat] [0%nat] 1%nat b ["Zadanie;a;;None;wykonane=False"]
           TypeError eq_refl eq_refl).
  - repeat constructor. by exists a.
  - reflexivity.
  - reflexivity.
Defined.

(** X11: when a line of the file is no record, [wczytaj_z_pliku] raises at
    that line and keeps what it has loaded so far: the tasks of the lines
    before it have been appended, the lines after it are not read. *)
Theorem wczytaj_z_pliku_przerwany (m : ManagerZadan) (w : swiat)
    (nazwa full_path tresc : string) (dobre reszta : list string)
    (zla : string) (objs : list obiekt) (e : wyjatek) :
  sprawdz_sciezke (save_dir m) nazwa = Ok full_path ->
  assoc_get (normpath full_path) (files w) = Some tresc ->
  readlines tresc = (dobre ++ zla :: reszta) ->
  Forall2 (fun line o => dekoduj_linie line = Ok o) dobre objs ->
  dekoduj_linie zla = Raise e ->
  wczytaj_z_pliku nazwa (m, w)
  = (Raise e,
     (Manager (save_dir m) (zadania m ++ seq (length (heap w)) (length objs)),
      Swiat (heap w ++ objs) (files w))).
Proof.
  intros Hp Hf Hr Hd Hz. destruct m as [dir zs], w as [h fs].
  cbn [save_dir zadania heap files] in *.
  unfold wczytaj_z_pliku, mbind at 1, get_self. cbn [fst save_dir].
  unfold mbind at 1, lift at 1. rewrite Hp.
  unfold mbind at 1, open_r. cbn [snd files]. rewrite Hf. cbn [of_option].
  rewrite Hr, mfor_app. rewrite (wczytaj_petla dir fs dobre objs Hd zs h).
  cbn [mfor]. unfold mbind at 1. unfold mbind at 1, lift at 1. by rewrite Hz.
Qed.

Lemma wczytaj_z_pliku_przerwany_witness :
  let tresc := "Zadanie;a;;2025-05-15;wykonane=False" +:+ String LF ""
               +:+ "Zadanie;b;;None;wykonane=False" +:+ String LF ""
               +:+ "Zadanie;c;;2025-05-16;wykonane=False" +:+ String LF "" in
  let a := Zadanie_init KZadanie (VStr "a") (VStr "") (VDate (Date 2025 5 15)) [] in
  wczytaj_z_pliku "z.txt" (Manager "/a/b" [], Swiat [] [("/a/b/z.txt", tresc)])
  = (Raise ValueError,
     (Manager "/a/b" [0%nat], Swiat [a] [("/a/b/z.txt", tresc)])).
Proof.
  intros tresc a.
  apply (wczytaj_z_pliku_przerwany (Manager "/a/b" [])
           (Swiat [] [("/a/b/z.txt", tresc)]) "z.txt" "/a/b/z.txt" tresc
           ["Zadanie;a;;2025-05-15;wykonane=False" +:+ String LF ""]
           ["Zadanie;c;;2025-05-16;wykonane=False" +:+ String LF ""]
           ("Zadanie;b;;None;wykonane=False" +:+ String LF "") [a] ValueError
           eq_refl eq_refl eq_refl).
  - by repeat constructor.
  - reflexivity.
Defined.

(** ** What a decoded line can hold *)

Lemma czytaj_pary_inv (pary : list string) (acc attrs : list (string * value)) :
  czytaj_pary pary acc = Ok attrs ->
  NoDup (map fst acc) ->
  Forall (fun kv => exists s, snd kv = wartosc_z_tekstu s) acc ->
  NoDup (map fst attrs) /\
  Forall (fun kv => exists s, snd kv = wartosc_z_tekstu s) attrs.
Proof.
  revert acc. induction pary as [|p pary IH]; intros acc; cbn [czytaj_pary].
  - intros [= <-]. by split.
  - destruct (split_first "=" p) as [|[k v]]; [done|].
    intros H Hnd Hv. apply (IH _ H).
    + by apply assoc_set_NoDup.
    + clear -Hv. induction Hv as [|[k0 v0] acc Hx Hacc IHacc]; cbn [assoc_set].
      * repeat constructor. by exists v.
      * destruct (String.eqb k0 k).
        -- constructor; [by exists v | done].
        -- by constructor.
Qed.

(** X12: the done flag of a task that [wczytaj_z_pliku] decodes from a line
    is [True], [False] or the empty text (the line said [wykonane=]); it is
    never another text, whatever the line. *)
Theorem dekoduj_linie_wykonane (line : string) (z : obiekt) :
  dekoduj_linie line = Ok z ->
  getattr z "wykonane" = Ok (VBool true) \/
  getattr z "wykonane" = Ok (VBool false) \/
  getattr z "wykonane" = Ok (VStr "").
Proof.
  unfold dekoduj_linie.
  destruct (split_on ";" (strip line)) as [|typ [|tytul [|opis [|termin pary]]]];
    try done.
  destruct (czytaj_pary pary []) as [attrs|] eqn:Ea; [|done]. cbn [rbind].
  destruct (strptime_Ymd termin) as [d|]; [|done]. cbn [of_option rbind].
  destruct (wywolaj _ _ _ _ attrs) as [zad|] eqn:E; [|done]. cbn [rbind].
  destruct (czytaj_pary_inv _ _ _ Ea) as [Hnd Hv]; [constructor..|].
  pose proof (wywolaj_wykonane _ _ _ _ _ _ E) as Hw.
  unfold assoc_last in Hw. rewrite assoc_get_rev in Hw by done.
  intros [= <-]. unfold getattr.
  destruct (assoc_get "wykonane" attrs) as [v|] eqn:Eg.
  - apply assoc_get_Some_elem in Eg. rewrite Forall_forall in Hv.
    destruct (Hv _ Eg) as [s Hs]. cbn [snd] in Hs. subst v.
    unfold wartosc_z_tekstu in *.
    destruct (String.eqb s "True"); [left; cbn; by rewrite assoc_get_set_eq|].
    destruct (String.eqb s "False"); [right; left; cbn; by rewrite Hw|].
    destruct s as [|c s].
    + right; right. cbn. by rewrite Hw.
    + left. cbn. by rewrite assoc_get_set_eq.
  - right; left. by rewrite Hw.
Qed.

Lemma dekoduj_linie_wykonane_witness :
  let z := setattr (Zadanie_init KZadanie (VStr "a") (VStr "")
                      (VDate (Date 2025 5 15)) [("wykonane", VStr "tak")])
             "wykonane" (VBool true) in
  getattr z "wykonane" = Ok (VBool true) \/
  getattr z "wykonane" = Ok (VBool false) \/
  getattr z "wykonane" = Ok (VStr "").
Proof.
  intros z.
  exact (dekoduj_linie_wykonane "Zadanie;a;;2025-05-15;wykonane=tak" z eq_refl).
Defined.

(** X13: for an instance as the constructors build it, the line of
    [zapisz_do_pliku] exists exactly when title and description are both
    texts; otherwise writing it raises [TypeError] (so a task added without
    title, whose title is [None], cannot be saved). *)
Theorem linia_zadania_powodzenie (o : obiekt) :
  zbudowany o = true ->
  ((exists l, linia_zadania o = Ok l) <->
   (exists t d, assoc_get "tytul" (dict o) = Some (VStr t) /\
                assoc_get "opis" (dict o) = Some (VStr d))) /\
  (forall e, linia_zadania o = Raise e -> e = TypeError).
Proof.
  intros Hz. apply zbudowany_spec in Hz as (_ & Hcore & _).
  assert (Hhas : forall k, k ∈ rdzen -> exists v, assoc_get k (dict o) = Some v).
  { intros k Hk. specialize (Hcore k Hk). unfold assoc_has in Hcore.
    destruct (assoc_get k (dict o)); [by eexists | done]. }
  destruct (Hhas "tytul") as [t Ht]; [by repeat constructor|].
  destruct (Hhas "opis") as [d Hd]; [by repeat constructor|].
  destruct (Hhas "termin_wykonaia") as [dt Hdt]; [by repeat constructor|].
  destruct (Hhas "wykonane") as [wk Hw]; [by repeat constructor|].
  unfold linia_zadania, getattr. rewrite Ht, Hd, Hdt, Hw. cbn [of_option rbind].
  split; [split|].
  - intros [l Hl]. destruct t as [| |t|]; try done.
    destruct d as [| |d|]; try done. by exists t, d.
  - intros (t' & d' & [= ->] & [= ->]). by eexists.
  - intros e. destruct t as [| |t|]; cbn [jako_str rbind]; try by intros [= <-].
    destruct d as [| |d|]; cbn [jako_str rbind]; by intros [= <-].
Qed.

Lemma linia_zadania_powodzenie_witness :
  let o := Zadanie_init KZadanie VNone (VStr "") VNone [] in
  ((exists l, linia_zadania o = Ok l) <->
   (exists t d, assoc_get "tytul" (dict o) = Some (VStr t) /\
                assoc_get "opis" (dict o) = Some (VStr d))) /\
  (forall e, linia_zadania o = Raise e -> e = TypeError).
Proof.
  intros o. exact (linia_zadania_powodzenie o eq_refl).
Defined.

(** ** What the path guard accepts and refuses *)

Lemma split_on_app_gen (c : ascii) (a b : string) :
  split_on c (a +:+ String c b) = split_on c a ++ split_on c b.
Proof.
  induction a as [|x a IH]; rewrite ?append_cons, ?append_nil_l;
    cbn [split_on].
  - by rewrite Ascii.eqb_refl.
  - destruct (Ascii.eqb x c); rewrite IH; [done|].
    pose proof (split_on_nonempty c a) as Hne.
    by destruct (split_on c a).
Qed.

Lemma split_on_pieces (c : ascii) (s : string) :
  Forall (fun p => contains c p = false) (split_on c s).
Proof.
  induction s as [|x s IH]; cbn [split_on]; [by repeat constructor|].
  destruct (Ascii.eqb x c) eqn:E; [by constructor|].
  destruct (split_on c s) as [|h t]; [by repeat constructor; cbn; rewrite E|].
  apply Forall_cons in IH as [Hh Ht]. constructor; [|done].
  cbn [contains]. by rewrite E, Hh.
Qed.

Lemma filter_wszystkie {A : Type} (P : A -> bool) (l : list A) :
  Forall (fun x => P x = true) l -> List.filter P l = l.
Proof.
  induction 1 as [|x l Hx _ IH]; [done|]. cbn [List.filter].
  by rewrite Hx, IH.
Qed.

Lemma wspolny_prefiks_app (l x : list string) : wspolny_prefiks l (l ++ x) = l.
Proof.
  induction l as [|c l IH]; [by destruct x|]. cbn [app wspolny_prefiks].
  by rewrite String.eqb_refl, IH.
Qed.

Lemma wspolny_prefiks_caly (l1 l2 : list string) :
  wspolny_prefiks l1 l2 = l1 <-> jest_prefiksem l1 l2 = true.
Proof.
  revert l2. induction l1 as [|c l1 IH]; intros l2.
  - by destruct l2.
  - destruct l2 as [|c2 l2]; [done|]. cbn [wspolny_prefiks jest_prefiksem].
    destruct (String.eqb_spec c c2) as [->|Hne]; [|done].
    cbn [andb]. rewrite <- IH. split; [by intros [= ->] | by intros ->].
Qed.

Lemma wspolny_prefiks_Forall (P : string -> Prop) (l1 l2 : list string) :
  Forall P l1 -> Forall P (wspolny_prefiks l1 l2).
Proof.
  intros H. revert l2. induction H as [|c l1 Hc _ IH]; intros l2; [done|].
  destruct l2 as [|c2 l2]; [done|]. cbn [wspolny_prefiks].
  destruct (String.eqb c c2); [by constructor | done].
Qed.

Lemma ends_with_cons (c x : ascii) (s : string) :
  s ≠ "" -> ends_with c (String x s) = ends_with c s.
Proof. by destruct s. Qed.

Lemma ends_with_app (c : ascii) (a b : string) :
  b ≠ "" -> ends_with c (a +:+ b) = ends_with c b.
Proof.
  intros Hb. induction a as [|x a IH]; [done|].
  rewrite append_cons, ends_with_cons; [done|].
  destruct a; [by rewrite append_nil_l | by rewrite append_cons].
Qed.

Lemma ends_with_clean (c : ascii) (s : string) :
  contains c s = false -> ends_with c s = false.
Proof.
  induction s as [|x s IH]; [done|]. cbn [contains].
  intros [Hx Hs]%orb_false_elim. destruct s as [|y s]; [done|].
  rewrite ends_with_cons by done. by apply IH.
Qed.

Lemma skladowa_niepusta (c : string) : skladowa_znaczaca c = true -> c ≠ "".
Proof. by intros H ->. Qed.

Lemma ends_with_join (comps : list string) :
  comps ≠ [] ->
  Forall (fun c => skladowa_znaczaca c = true /\ contains "/" c = false) comps ->
  join "/" comps ≠ "" /\ ends_with "/" (join "/" comps) = false.
Proof.
  intros Hne H. induction H as [|p ps [Hp1 Hp2] _ IH]; [done|].
  destruct ps as [|q ps].
  - cbn [join]. split; [by apply skladowa_niepusta | by apply ends_with_clean].
  - rewrite join_cons2. destruct IH as [IH1 IH2]; [done|].
    assert (Hrest : "/" +:+ join "/" (q :: ps) ≠ "") by done.
    split.
    + apply skladowa_niepusta in Hp1. destruct p; [done|].
      by rewrite append_cons.
    + rewrite ends_with_app by done.
      change ("/" +:+ join "/" (q :: ps)) with (String "/" (join "/" (q :: ps))).
      by rewrite ends_with_cons.
Qed.

Lemma skladowe_kanoniczne (katalog : string) (comps : list string) :
  katalog_kanoniczny katalog comps ->
  List.filter skladowa_znaczaca (split_on "/" katalog) = comps /\
  starts_with "/" katalog = true /\
  ends_with "/" katalog = false /\
  katalog ≠ "".
Proof.
  intros (Hne & -> & Hc).
  change ("/" +:+ join "/" comps) with (String "/" (join "/" comps)).
  destruct (ends_with_join comps Hne Hc) as [Hj1 Hj2].
  split_and!; [|done| by rewrite ends_with_cons |done].
  cbn [split_on]. change (Ascii.eqb "/" "/") with true. cbv iota.
  rewrite split_on_join; [|done|].
  - cbn [List.filter]. change (skladowa_znaczaca "") with false. cbv iota.
    apply filter_wszystkie. eapply Forall_impl; [exact Hc|]. by intros c [? _].
  - eapply Forall_impl; [exact Hc|]. by intros c [_ ?].
Qed.

(** X14: for a directory in the form [os.path.abspath] gives, the guard
    accepts every relative file name and the path used is the directory,
    a [/] and the name as written: components [..] in the name are not
    looked at. *)
Theorem sprawdz_sciezke_wzgledna (katalog nazwa : string)
    (comps : list string) :
  katalog_kanoniczny katalog comps ->
  starts_with "/" nazwa = false ->
  sprawdz_sciezke katalog nazwa = Ok (katalog +:+ "/" +:+ nazwa).
Proof.
  intros Hk Hn. destruct (skladowe_kanoniczne _ _ Hk) as (Hs & Habs & Hend & Hne).
  destruct Hk as (Hcne & Hkat & Hc).
  unfold sprawdz_sciezke, path_join. rewrite Hn, Hend.
  destruct (String.eqb_spec katalog "") as [|_]; [done|]. cbn [orb].
  unfold commonpath. rewrite Habs.
  assert (Habs2 : starts_with "/" (katalog +:+ "/" +:+ nazwa) = true).
  { destruct katalog; [done|]. by rewrite append_cons. }
  rewrite Habs2. cbn [Bool.eqb negb].
  change ("/" +:+ nazwa) with (String "/" nazwa).
  rewrite split_on_app_gen, List.filter_app, Hs, wspolny_prefiks_app.
  cbn [rbind]. rewrite <- Hkat. by rewrite String.eqb_refl.
Qed.

Lemma sprawdz_sciezke_wzgledna_witness :
  sprawdz_sciezke "/home/u/app" "../../../etc/passwd"
  = Ok ("/home/u/app" +:+ "/" +:+ "../../../etc/passwd").
Proof.
  apply (sprawdz_sciezke_wzgledna "/home/u/app" "../../../etc/passwd"
           ["home"; "u"; "app"]).
  - split; [done|]. split; [reflexivity|]. by repeat constructor.
  - reflexivity.
Defined.

(** X15: for such a directory, an absolute file name is accepted exactly
    when its significant components start with those of the directory, and
    the path used is then the name itself; every other absolute name raises
    [ValueError]. *)
Theorem sprawdz_sciezke_bezwzgledna_ogolnie (katalog nazwa : string)
    (comps : list string) :
  katalog_kanoniczny katalog comps ->
  starts_with "/" nazwa = true ->
  sprawdz_sciezke katalog nazwa
  = if jest_prefiksem comps
         (List.filter skladowa_znaczaca (split_on "/" nazwa))
    then Ok nazwa else Raise ValueError.
Proof.
  intros Hk Hn. destruct (skladowe_kanoniczne _ _ Hk) as (Hs & Habs & Hend & Hne).
  destruct Hk as (Hcne & Hkat & Hc).
  unfold sprawdz_sciezke, path_join. rewrite Hn. cbn [orb].
  unfold commonpath. rewrite Habs, Hn, Hs. cbn [Bool.eqb negb rbind].
  set (s2 := List.filter skladowa_znaczaca (split_on "/" nazwa)).
  destruct (jest_prefiksem comps s2) eqn:Ep.
  - apply wspolny_prefiks_caly in Ep. rewrite Ep, <- Hkat.
    by rewrite String.eqb_refl.
  - destruct (String.eqb_spec ("/" +:+ join "/" (wspolny_prefiks comps s2)) katalog)
      as [Heq|]; [exfalso|done].
    rewrite Hkat in Heq. injection Heq as Heq. rewrite !append_nil_l in Heq.
    assert (Hp : Forall (fun c => skladowa_znaczaca c = true /\
                                  contains "/" c = false)
                   (wspolny_prefiks comps s2))
      by by apply wspolny_prefiks_Forall.
    assert (Hsplit : split_on "/" (join "/" comps) = comps).
    { apply split_on_join; [done|].
      eapply Forall_impl; [exact Hc|]. by intros c [_ ?]. }
    assert (Hw : wspolny_prefiks comps s2 = comps).
    { destruct (wspolny_prefiks comps s2) as [|p ps] eqn:Ew.
      - cbn [join] in Heq. rewrite <- Heq in Hsplit. cbn in Hsplit.
        rewrite <- Hsplit in Hc. apply Forall_cons in Hc as [[Hc _] _]. done.
      - rewrite <- Hsplit, <- Heq. symmetry. apply split_on_join; [done|].
        eapply Forall_impl; [exact Hp|]. by intros c [_ ?]. }
    apply wspolny_prefiks_caly in Hw. congruence.
Qed.

Lemma sprawdz_sciezke_bezwzgledna_ogolnie_witness :
  sprawdz_sciezke "/home/u/app" "/etc/passwd" = Raise ValueError /\
  sprawdz_sciezke "/home/u/app" "/home/u/app/dane/zadania.txt"
  = Ok "/home/u/app/dane/zadania.txt".
Proof.
  assert (Hk : katalog_kanoniczny "/home/u/app" ["home"; "u"; "app"]).
  { split; [done|]. split; [reflexivity|]. by repeat constructor. }
  split.
  - exact (sprawdz_sciezke_bezwzgledna_ogolnie "/home/u/app" "/etc/passwd"
             ["home"; "u"; "app"] Hk eq_refl).
  - exact (sprawdz_sciezke_bezwzgledna_ogolnie "/home/u/app"
             "/home/u/app/dane/zadania.txt" ["home"; "u"; "app"] Hk eq_refl).
Defined.

Lemma Forall_filter_obie {A : Type} (P : A -> bool) (Q : A -> Prop) (l : list A) :
  Forall Q l -> Forall (fun x => P x = true /\ Q x) (List.filter P l).
Proof.
  induction 1 as [|x l Hx _ IH]; [done|]. cbn [List.filter].
  destruct (P x) eqn:E; [by constructor | done].
Qed.

(** X16: a directory written with a [/] at its end (other than the root
    itself) makes the guard refuse every file name: [commonpath] never
    returns such a text, so [zapisz_do_pliku] and [wczytaj_z_pliku] of that
    manager always raise [ValueError]. *)
Theorem sprawdz_sciezke_ukosnik (katalog nazwa : string) :
  ends_with "/" katalog = true ->
  katalog ≠ "/" ->
  sprawdz_sciezke katalog nazwa = Raise ValueError.
Proof.
  intros Hend Hroot. unfold sprawdz_sciezke, commonpath.
  destruct (negb _); [done|]. cbn [rbind].
  set (s1 := List.filter skladowa_znaczaca (split_on "/" katalog)).
  set (s2 := List.filter skladowa_znaczaca (split_on "/" _)).
  destruct (String.eqb_spec
              ((if starts_with "/" katalog then "/" else "")
               +:+ join "/" (wspolny_prefiks s1 s2)) katalog) as [Heq|]; [|done].
  exfalso.
  assert (Hp : Forall (fun c => skladowa_znaczaca c = true /\
                                contains "/" c = false)
                 (wspolny_prefiks s1 s2)).
  { apply wspolny_prefiks_Forall. apply Forall_filter_obie, split_on_pieces. }
  destruct (wspolny_prefiks s1 s2) as [|p ps] eqn:Ew.
  - cbn [join] in Heq. rewrite append_nil_r in Heq.
    destruct (starts_with "/" katalog); [by subst|].
    subst katalog. done.
  - destruct (ends_with_join (p :: ps)) as [Hj1 Hj2]; [done..|].
    rewrite <- Heq, ends_with_app in Hend by done. congruence.
Qed.

Lemma sprawdz_sciezke_ukosnik_witness :
  sprawdz_sciezke "/home/u/app/" "zadania.txt" = Raise ValueError.
Proof. by apply sprawdz_sciezke_ukosnik. Defined.

(** ** Rendering and listing only read *)

Lemma tylko_czyta_mret {A : Type} (a : A) : tylko_czyta (mret a).
Proof. by intros s. Qed.

Lemma tylko_czyta_lift {A : Type} (r : result A) : tylko_czyta (lift r).
Proof. by intros s. Qed.

Lemma tylko_czyta_bind {A B : Type} (c : M A) (f : A -> M B) :
  tylko_czyta c -> (forall a, tylko_czyta (f a)) -> tylko_czyta (mbind c f).
Proof.
  intros Hc Hf s. unfold mbind. specialize (Hc s).
  destruct (c s) as [[a|e] s']; cbn [snd] in Hc; subst s'; [apply Hf | done].
Qed.

Lemma tylko_czyta_mmap {A B : Type} (f : A -> M B) (l : list A) :
  (forall x, tylko_czyta (f x)) -> tylko_czyta (mmap f l).
Proof.
  intros Hf. induction l as [|x l IH]; [by intros s|]. cbn [mmap].
  apply tylko_czyta_bind; [done|]. intros y.
  apply tylko_czyta_bind; [done|]. intros ys. apply tylko_czyta_mret.
Qed.

Lemma tylko_czyta_deref (r : ref) : tylko_czyta (deref r).
Proof. by intros s. Qed.

(** X17: the sorted listing, the text of the manager and the membership
    test never change the state: manager, instances and files are the same
    afterwards, also when the listing or the rendering raises. *)
Theorem odczyty_nie_zmieniaja_stanu (s : stan) (z : ref) :
  snd (posortowane_wg_terminu s) = s /\
  snd (ManagerZadan_str s) = s /\
  ManagerZadan_contains z s = (Ok (nalezy z (zadania (fst s))), s).
Proof.
  split_and!; [| |done].
  - revert s. unfold posortowane_wg_terminu.
    apply tylko_czyta_bind; [by intros s|]. intros m.
    apply tylko_czyta_bind.
    + apply tylko_czyta_mmap. intros x.
      apply tylko_czyta_bind; [apply tylko_czyta_deref|]. intros o.
      apply tylko_czyta_bind; [apply tylko_czyta_lift|]. intros k.
      apply tylko_czyta_mret.
    + intros klucze. apply tylko_czyta_bind; [apply tylko_czyta_lift|].
      intros wynik. apply tylko_czyta_mret.
  - revert s. unfold ManagerZadan_str.
    apply tylko_czyta_bind; [by intros s|]. intros m.
    apply tylko_czyta_bind.
    + apply tylko_czyta_mmap. intros x.
      apply tylko_czyta_bind; [apply tylko_czyta_deref|]. intros o.
      apply tylko_czyta_lift.
    + intros teksty. apply tylko_czyta_mret.
Qed.

(** ** Rendering never fails on instances as built *)

Lemma opis_tekstowy_ok (o : obiekt) (pole : option (string * string)) :
  (forall k, k ∈ rdzen -> assoc_has k (dict o) = true) ->
  match pole with
  | Some (_, nazwa) => assoc_has nazwa (dict o) = true
  | None => True
  end ->
  exists t, opis_tekstowy pole o = Ok t.
Proof.
  intros Hcore Hpole.
  assert (Hhas : forall k, assoc_has k (dict o) = true ->
                   exists v, getattr o k = Ok v).
  { intros k Hk. unfold assoc_has in Hk. unfold getattr.
    destruct (assoc_get k (dict o)); [by eexists | done]. }
  destruct (Hhas "tytul") as [t Ht]; [apply Hcore; by repeat constructor|].
  destruct (Hhas "opis") as [d Hd]; [apply Hcore; by repeat constructor|].
  destruct (Hhas "termin_wykonaia") as [dt Hdt];
    [apply Hcore; by repeat constructor|].
  destruct (Hhas "wykonane") as [wk Hw]; [apply Hcore; by repeat constructor|].
  unfold opis_tekstowy. rewrite Ht, Hd, Hdt. cbn [rbind].
  destruct pole as [[etykieta nazwa]|].
  - destruct (Hhas nazwa Hpole) as [v Hv]. rewrite Hv. cbn [rbind].
    rewrite Hw. cbn [rbind]. by eexists.
  - cbn [rbind]. rewrite Hw. cbn [rbind]. by eexists.
Qed.

Lemma Zadanie_str_ok (o : obiekt) :
  zbudowany o = true -> exists t, Zadanie_str o = Ok t.
Proof.
  intros Hz. apply zbudowany_spec in Hz as (_ & Hcore & Hcls).
  unfold Zadanie_str. destruct (typ o); by apply opis_tekstowy_ok.
Qed.

(** X18: in a well-formed state the text of the manager never raises: it is
    the texts of the tasks, each the text its own class gives, in the order
    of the collection and joined by line feeds (the empty text for an empty
    collection), and the state is unchanged. *)
Theorem ManagerZadan_str_ok (s : stan) :
  stan_ok s ->
  exists teksty,
    Forall2 (fun z t => exists o, heap (snd s) !! z = Some o /\
                                  Zadanie_str o = Ok t)
            (zadania (fst s)) teksty /\
    ManagerZadan_str s = (Ok (join (String LF "") teksty), s).
Proof.
  intros [Hh Hz]. unfold ManagerZadan_str, mbind at 1, get_self.
  assert (Hmap : forall zs,
            Forall (fun z => (z < length (heap (snd s)))%nat) zs ->
            exists teksty,
              Forall2 (fun z t => exists o, heap (snd s) !! z = Some o /\
                                            Zadanie_str o = Ok t) zs teksty /\
              mmap (fun z => o <- deref z ;; lift (Zadanie_str o))%M zs s
              = (Ok teksty, s)).
  { intros zs Hzs. induction Hzs as [|z zs Hlive _ IH].
    - exists []. by split; [constructor|].
    - destruct IH as (teksty & H1 & H2).
      destruct (lookup_lt_is_Some_2 _ _ Hlive) as [o Ho].
      assert (Hb : zbudowany o = true).
      { rewrite Forall_forall in Hh. apply Hh. by eapply list_elem_of_lookup_2. }
      destruct (Zadanie_str_ok o Hb) as [t Ht].
      exists (t :: teksty). split; [constructor; [by exists o | done]|].
      cbn [mmap]. unfold mbind at 1. unfold mbind at 1, deref at 1.
      rewrite Ho. cbn [of_option]. unfold lift at 1. rewrite Ht.
      unfold mbind at 1. by rewrite H2. }
  destruct (Hmap _ Hz) as (teksty & H1 & H2). exists teksty. split; [done|].
  unfold mbind at 1. by rewrite H2.
Qed.

Lemma ManagerZadan_str_ok_witness :
  let a := Zadanie_init KZadanie (VStr "a") (VStr "") VNone [] in
  let b := podklasa_init KZadaniePiorytetowe "priorytet" domyslny_priorytet
             (VStr "b") (VStr "c") (VDate (Date 2025 5 15))
             [("kategoria", VStr "Dom")] in
  let s := (Manager "/a/b" [1; 0]%nat, Swiat [a; b] []) in
  exists teksty,
    Forall2 (fun z t => exists o, heap (snd s) !! z = Some o /\
                                  Zadanie_str o = Ok t)
            (zadania (fst s)) teksty /\
    ManagerZadan_str s = (Ok (join (String LF "") teksty), s).
Proof.
  intros a b s. apply ManagerZadan_str_ok.
  split; cbn [s fst snd heap zadania].
  - by repeat constructor.
  - repeat constructor.
Defined.

(** ** What saving and loading leave alone *)

Lemma utrzymuje_bind {A B : Type} (R : stan -> stan -> Prop)
    `{!Transitive R} (c : M A) (f : A -> M B) :
  utrzymuje R c -> (forall a, utrzymuje R (f a)) -> utrzymuje R (mbind c f).
Proof.
  intros Hc Hf s. unfold mbind. specialize (Hc s).
  destruct (c s) as [[a|e] s']; cbn [snd] in *; [|done].
  by etrans; [|apply Hf].
Qed.

Lemma utrzymuje_mfor {A : Type} (R : stan -> stan -> Prop)
    `{!Reflexive R, !Transitive R} (body : A -> M unit) (l : list A) :
  (forall x, utrzymuje R (body x)) -> utrzymuje R (mfor l body).
Proof.
  intros Hb. induction l as [|x l IH]; [by intros s|]. cbn [mfor].
  by apply utrzymuje_bind.
Qed.

Lemma utrzymuje_czyta {A : Type} (R : stan -> stan -> Prop) `{!Reflexive R}
    (c : M A) :
  tylko_czyta c -> utrzymuje R c.
Proof. intros Hc s. by rewrite Hc. Qed.

#[local] Instance rama_zapisu_refl (P : string) : Reflexive (rama_zapisu P).
Proof. by intros s. Qed.

#[local] Instance rama_zapisu_trans (P : string) : Transitive (rama_zapisu P).
Proof.
  intros s1 s2 s3 (H1 & H2 & H3) (H4 & H5 & H6). split_and!.
  - by rewrite H4.
  - by rewrite H5.
  - intros p Hp. by rewrite H6, H3.
Qed.

#[local] Instance rama_odczytu_refl : Reflexive rama_odczytu.
Proof. by intros s. Qed.

#[local] Instance rama_odczytu_trans : Transitive rama_odczytu.
Proof.
  intros s1 s2 s3 (H1 & H2 & H3 & H4) (H5 & H6 & H7 & H8). split_and!.
  - by rewrite H5.
  - by rewrite H6.
  - by etrans.
  - by etrans.
Qed.

(** X19: [zapisz_do_pliku] never changes the manager or an instance, and of
    the files it changes at most the one the guard let through, on every
    path: when it succeeds, when a task cannot be written, and when the
    guard raises (then no file changes at all). *)
Theorem zapisz_do_pliku_rama (s : stan) (nazwa : string) :
  match sprawdz_sciezke (save_dir (fst s)) nazwa with
  | Ok full_path =>
      rama_zapisu (normpath full_path) s (snd (zapisz_do_pliku nazwa s))
  | Raise e => zapisz_do_pliku nazwa s = (Raise e, s)
  end.
Proof.
  destruct (sprawdz_sciezke (save_dir (fst s)) nazwa) as [fp|e] eqn:Hp.
  - unfold zapisz_do_pliku, mbind at 1, get_self. cbn [fst].
    unfold mbind at 1, lift at 1. rewrite Hp.
    revert s Hp. intros s _. generalize (zadania (fst s)). intros zs.
    revert s. apply utrzymuje_bind; [apply _| |].
    + intros [m [h f]]. split_and!; [done..|].
      intros p Hne. cbn [open_w snd files]. by rewrite assoc_get_set_ne.
    + intros _. apply utrzymuje_mfor; [apply _..|]. intros z.
      apply utrzymuje_bind; [apply _| |].
      * apply utrzymuje_czyta; [apply _ | apply tylko_czyta_deref].
      * intros o. apply utrzymuje_bind; [apply _| |].
        -- apply utrzymuje_czyta; [apply _ | apply tylko_czyta_lift].
        -- intros l [m [h f]]. split_and!; [done..|].
           intros p Hne. cbn [write snd files]. by rewrite assoc_get_set_ne.
  - destruct s as [m w]. by apply straz_przed_otwarciem.
Qed.

(** X20: [wczytaj_z_pliku] never changes a file, the directory of the
    manager, an instance that existed or the tasks the manager held: on
    every path, also when it raises part-way, the old instances and the old
    tasks are a prefix of the new ones. *)
Theorem wczytaj_z_pliku_rama (s : stan) (nazwa : string) :
  rama_odczytu s (snd (wczytaj_z_pliku nazwa s)).
Proof.
  revert s. unfold wczytaj_z_pliku.
  apply utrzymuje_bind; [apply _| |].
  { apply utrzymuje_czyta; [apply _ | by intros s]. }
  intros m. apply utrzymuje_bind; [apply _| |].
  { apply utrzymuje_czyta; [apply _ | apply tylko_czyta_lift]. }
  intros fp. apply utrzymuje_bind; [apply _| |].
  { apply utrzymuje_czyta; [apply _ | by intros s]. }
  intros tresc. apply utrzymuje_mfor; [apply _..|]. intros line.
  apply utrzymuje_bind; [apply _| |].
  { apply utrzymuje_czyta; [apply _ | apply tylko_czyta_lift]. }
  intros zad [m' [h f]]. unfold mbind, alloc, dolacz.
  cbn [fst snd heap files save_dir zadania]. split_and!; [done..| |].
  - by apply prefix_app_r.
  - by apply prefix_app_r.
Qed.

(** ** The listing when two due dates do not compare *)

Lemma klucze_mmap (s : stan) (zs : list ref) (ks : list value) :
  Forall2 (fun z k => exists o, heap (snd s) !! z = Some o /\
                                klucz_terminu o = Ok k) zs ks ->
  mmap (fun z => o <- deref z ;; k <- lift (klucz_terminu o) ;; mret (k, z))%M
       zs s
  = (Ok (zip ks zs), s).
Proof.
  induction 1 as [|z k zs ks (o & Ho & Hk) _ IH]; [done|].
  cbn [mmap]. unfold mbind at 1. unfold mbind at 1, deref at 1.
  rewrite Ho. cbn [of_option]. unfold mbind at 1, lift at 1. rewrite Hk.
  unfold mret at 1. unfold mbind at 1. by rewrite IH.
Qed.

(** X21: when the due dates of the first two tasks give keys that [<] does
    not compare (a text and a date, as after [edytuj_zadanie] stored a text
    as due date), the sorted listing raises [TypeError]; the state is
    unchanged. *)
Theorem posortowane_wg_terminu_TypeError (m : ManagerZadan) (w : swiat)
    (a b : ref) (reszta : list ref) (ka kb : value) (ks : list value) :
  zadania m = a :: b :: reszta ->
  Forall2 (fun z k => exists o, heap w !! z = Some o /\ klucz_terminu o = Ok k)
          (zadania m) (ka :: kb :: ks) ->
  value_ltb kb ka = Raise TypeError ->
  posortowane_wg_terminu (m, w) = (Raise TypeError, (m, w)).
Proof.
  intros Hm Hk Hlt.
  unfold posortowane_wg_terminu, mbind at 1, get_self. cbn [fst].
  unfold mbind at 1. rewrite (klucze_mmap (m, w) _ _ Hk). rewrite Hm.
  unfold mbind, lift. cbn [zip zip_with sortuj wstaw rbind fst].
  by rewrite Hlt.
Qed.

Lemma posortowane_wg_terminu_TypeError_witness :
  let a := Zadanie_init KZadanie (VStr "a") (VStr "") (VDate (Date 2025 5 15)) [] in
  let b := setattr (Zadanie_init KZadanie (VStr "b") (VStr "") VNone [])
             "termin_wykonaia" (VStr "2025-05-16") in
  posortowane_wg_terminu (Manager "/a/b" [0; 1]%nat, Swiat [a; b] [])
  = (Raise TypeError, (Manager "/a/b" [0; 1]%nat, Swiat [a; b] [])).
Proof.
  intros a b.
  apply (posortowane_wg_terminu_TypeError (Manager "/a/b" [0; 1]%nat)
           (Swiat [a; b] []) 0%nat 1%nat []
           (VDate (Date 2025 5 15)) (VStr "2025-05-16") [] eq_refl).
  - repeat constructor; by eexists.
  - reflexivity.
Defined.

(** ** Construction from the text of a due date, and adding a new task *)

Lemma assoc_last_zajete (k : string) (kwargs : list (string * value)) :
  existsb (fun kv => mem_string (fst kv) zajete_nazwy) kwargs = false ->
  k ∈ zajete_nazwy ->
  assoc_last k kwargs = None.
Proof.
  intros He Hk. unfold assoc_last. apply assoc_get_None.
  intros Hin. apply list_elem_of_fmap in Hin as ([k' v] & -> & Hin).
  apply list_elem_of_In, in_rev in Hin.
  assert (Ht : existsb (fun kv => mem_string (fst kv) zajete_nazwy) kwargs = true).
  { apply existsb_exists. exists (k', v). split; [done|].
    by apply mem_string_true. }
  congruence.
Qed.

(** X22: a constructor given the text [str] makes of a due date stores that
    due date again: the text of a date of the calendar is parsed back to the
    date, and the text [None] of a missing date does not parse and is stored
    as no date.  This holds for the three classes when no keyword names the
    attribute [termin_wykonaia]. *)
Theorem wywolaj_termin_z_tekstu (k : klasa) (tytul opis termin : value)
    (attrs : list (string * value)) (z : obiekt) :
  termin = VNone \/ (exists d, termin = VDate d /\ date_valid d = true) ->
  assoc_last "termin_wykonaia" attrs = None ->
  wywolaj k tytul opis (VStr (py_str termin)) attrs = Ok z ->
  getattr z "termin_wykonaia" = Ok termin.
Proof.
  intros Ht Hl. unfold wywolaj. destruct (existsb _ attrs); [done|].
  assert (Hparse : match strptime_Ymd (py_str termin) with
                   | Some d => VDate d
                   | None => VNone
                   end = termin).
  { destruct Ht as [->|(d & -> & Hd)]; [done|].
    cbn [py_str]. by rewrite strptime_date_str. }
  unfold getattr.
  destruct k; intros [= <-];
    cbn [dict Zadanie_init podklasa_init setattr typ];
    rewrite ?assoc_get_set_ne by done;
    rewrite assoc_get_update, ?assoc_last_remove_ne, Hl by done;
    cbn [assoc_get]; by rewrite Hparse.
Qed.

Lemma wywolaj_termin_z_tekstu_witness :
  getattr (Zadanie_init KZadanie (VStr "a") (VStr "")
             (VStr (py_str (VDate (Date 2024 2 29)))) []) "termin_wykonaia"
  = Ok (VDate (Date 2024 2 29)).
Proof.
  apply (wywolaj_termin_z_tekstu KZadanie (VStr "a") (VStr "")
           (VDate (Date 2024 2 29)) []).
  - right. by eexists.
  - reflexivity.
  - reflexivity.
Defined.

(** X23: [dodaj_zadanie] without an instance, with keywords that do not
    collide with the positional parameters of the constructors, succeeds and
    appends one new task at the end: its class is the one [typ] names (a
    plain [Zadanie] for any other text), its title is the title given and
    its description the one given, or the empty text when the one given is
    falsy; the old tasks, the old instances and the files are unchanged. *)
Theorem dodaj_zadanie_nowe (m : ManagerZadan) (w : swiat)
    (tytul opis termin : value) (typ_ : string) (kwargs : list (string * value)) :
  existsb (fun kv => mem_string (fst kv) zajete_nazwy) kwargs = false ->
  exists o,
    dodaj_zadanie None tytul opis termin typ_ kwargs (m, w)
    = (Ok tt, (Manager (save_dir m) (zadania m ++ [length (heap w)]),
               Swiat (heap w ++ [o]) (files w))) /\
    typ o = klasa_typu typ_ /\
    getattr o "tytul" = Ok tytul /\
    getattr o "opis" = Ok (if truthy opis then opis else VStr "").
Proof.
  intros He.
  assert (Ht : assoc_last "tytul" kwargs = None)
    by (apply assoc_last_zajete; [done | by repeat constructor]).
  assert (Ho : assoc_last "opis" kwargs = None).
  { apply assoc_last_zajete; [done|].
    apply list_elem_of_further, list_elem_of_further, list_elem_of_here. }
  set (opis' := if truthy opis then opis else VStr "").
  assert (Hcall : exists o,
            wywolaj (klasa_typu typ_) tytul opis' termin kwargs = Ok o /\
            typ o = klasa_typu typ_ /\
            getattr o "tytul" = Ok tytul /\ getattr o "opis" = Ok opis').
  { unfold wywolaj. rewrite He. unfold getattr.
    destruct (klasa_typu typ_); eexists; (split; [done|]); (split; [done|]);
      cbn [dict Zadanie_init podklasa_init setattr typ];
      rewrite ?assoc_get_set_ne by done;
      rewrite !assoc_get_update, ?assoc_last_remove_ne, Ht, Ho by done;
      done. }
  destruct Hcall as (o & Hcall & Htyp & Htyt & Hop).
  exists o. split; [|done].
  unfold dodaj_zadanie. fold (klasa_typu typ_). fold opis'.
  unfold mbind at 1. unfold mbind at 1, lift at 1. rewrite Hcall.
  reflexivity.
Qed.

Lemma dodaj_zadanie_nowe_witness :
  exists o,
    dodaj_zadanie None (VStr "a") VNone VNone "priority"
      [("priorytet", VStr "Wysoki")] (Manager "/a/b" [], Swiat [] [])
    = (Ok tt, (Manager "/a/b" ([] ++ [0%nat]), Swiat ([] ++ [o]) [])) /\
    typ o = KZadanie /\
    getattr o "tytul" = Ok (VStr "a") /\
    getattr o "opis" = Ok (VStr "").
Proof.
  exact (dodaj_zadanie_nowe (Manager "/a/b" []) (Swiat [] []) (VStr "a") VNone
           VNone "priority" [("priorytet", VStr "Wysoki")] eq_refl).
Defined.
